(** * STAATS: condition language, recodes, binning and tabulation

    A shallow embedding of the Python sources (core.py, formula_parser.py,
    engines.py, recode_engine.py, tab_engine.py) and the properties of the
    specification checked against it.

    Conventions of the embedding.
    - Python [str] is [string]; a character is its code point (0..255).
    - A raised exception is a value of [exn]; a function that may raise
      returns [res A].  Nested messages built with f-strings are nested
      constructors.
    - A pandas column is a list of nullable cells, a boolean Series a list
      of booleans, a DataFrame a row count with an ordered list of named
      columns.
    - Python [int] is [Z]; a Python [float] read from a formula or held in
      a data cell is its exact rational value ([Q]); the tabulation engine,
      whose tests are written on floats, uses binary64 floats. *)

From Stdlib Require Import String Ascii List ZArith QArith Qabs Bool Lia PeanoNat.
From Stdlib Require Import DecimalString DecimalPos Floats Sorted.
Import ListNotations.

Local Open Scope string_scope.
Local Open Scope list_scope.
Local Open Scope nat_scope.

(** ** Exceptions and results *)

Inductive exn : Type :=
| NoValidConditions (formula : string)
    (* ValueError: No valid conditions found in formula: {formula} *)
| VarNotInDatamap (var : string)
    (* ValueError: Variable '{var}' not in datamap *)
| VarNotInData (var : string)
    (* ValueError: Variable '{var}' not found in data *)
| UnknownOperator (op : string)
    (* ValueError: Unknown operator: {op} *)
| InvalidLiteral (text : string)
    (* ValueError raised by int() *)
| InvalidComparison
    (* TypeError raised by an ordering between text and a number *)
| CouldNotParseVariable (formula : string)
    (* ValueError: Could not parse variable from formula: {formula} *)
| FilterNotFound (name : string)
| ClassNotFound (name : string)
| InvalidClassCharacters (formula : string)
    (* ValueError: Invalid characters in class formula: {formula} *)
| ClassParseFailed (formula : string)
    (* ValueError: Failed to parse class formula '{formula}': {e} *)
| HostError (what : string)
    (* any exception raised inside the host's own functions *)
| KeyError (key : string)
    (* a label that a frame or a table does not have *)
| IndexError
    (* list index out of range *)
| RowVariableNotInDatamap (var : string)
    (* ValueError: Row variable '{var}' not in datamap *)
| ColumnVariableNotInDatamap (var : string)
    (* ValueError: Column variable '{var}' not in datamap *)
| ColumnNotQualitative
    (* ValueError: Column variable must be qualitative, got {qtype} *)
| RecodeLineError (recode line : string) (e : exn)
    (* ValueError: Error evaluating recode '{name}', line '{line}': {e} *)
| WeightConditionError (condition : string) (e : exn)
    (* ValueError: Error applying weight condition '{condition}': {e} *)
| NumericRecodeError (recode : string) (e : exn)
    (* ValueError: Error evaluating numeric recode '{name}': {e} *)
| RecodeError (recode : string) (e : exn)
    (* ValueError: Error calculating recode '{name}': {e} *)
| FilterError (name : string) (e : exn)
    (* ValueError: Error applying filter '{name}': {e} *)
| ClassBinError (label formula : string) (e : exn)
    (* ValueError: Error applying class '{label}' with formula '{formula}': {e} *)
| ClassError (name : string) (e : exn)
    (* ValueError: Error applying class '{name}': {e} *).

Inductive res (A : Type) : Type :=
| Ok (a : A)
| Raise (e : exn).

Arguments Ok {A} a.
Arguments Raise {A} e.

Definition bind {A B : Type} (m : res A) (k : A -> res B) : res B :=
  match m with
  | Ok a => k a
  | Raise e => Raise e
  end.

Definition try_except {A : Type} (m : res A) (handler : exn -> exn) : res A :=
  match m with
  | Ok a => Ok a
  | Raise e => Raise (handler e)
  end.

Notation "x <- m ;; k" := (bind m (fun x => k))
  (at level 61, m at next level, right associativity).

Fixpoint mapM {A B : Type} (f : A -> res B) (l : list A) : res (list B) :=
  match l with
  | [] => Ok []
  | a :: l' => b <- f a ;; bs <- mapM f l' ;; Ok (b :: bs)
  end.

(** ** Python built-ins on lists of integers *)

Fixpoint insert_sorted (z : Z) (l : list Z) : list Z :=
  match l with
  | [] => [z]
  | y :: l' => if (z <=? y)%Z then z :: l else y :: insert_sorted z l'
  end.

(** sorted(l) *)
Definition sorted (l : list Z) : list Z := fold_right insert_sorted [] l.

(** The truth value of a list: false when empty. *)
Definition is_nil {A : Type} (l : list A) : bool :=
  match l with [] => true | _ :: _ => false end.

(** ** Python string primitives *)

Module PyStr.

Definition dquote : ascii := ascii_of_nat 34.
Definition newline : ascii := ascii_of_nat 10.

(** [dq s] is [s] with every apostrophe replaced by a double quote; it is
    only a way of writing formulas of the condition language as literals. *)
Fixpoint dq (s : string) : string :=
  match s with
  | EmptyString => EmptyString
  | String c s' => String (if Ascii.eqb c "'" then dquote else c) (dq s')
  end.

(** str.isspace on one character. *)
Definition is_space (c : ascii) : bool :=
  let n := nat_of_ascii c in
  ((9 <=? n) && (n <=? 13)) || ((28 <=? n) && (n <=? 32))
  || (n =? 133) || (n =? 160).

Definition is_digit (c : ascii) : bool :=
  let n := nat_of_ascii c in (48 <=? n) && (n <=? 57).

Definition digit_val (c : ascii) : Z := Z.of_nat (nat_of_ascii c - 48).

Definition is_empty (s : string) : bool :=
  match s with EmptyString => true | String _ _ => false end.

Fixpoint lstrip (s : string) : string :=
  match s with
  | EmptyString => EmptyString
  | String c s' => if is_space c then lstrip s' else s
  end.

Fixpoint rstrip (s : string) : string :=
  match s with
  | EmptyString => EmptyString
  | String c s' =>
      let r := rstrip s' in
      if is_space c && is_empty r then EmptyString else String c r
  end.

(** str.strip() *)
Definition strip (s : string) : string := rstrip (lstrip s).

(** str.split(sep) for a one-character separator. *)
Fixpoint split (sep : ascii) (s : string) : list string :=
  match s with
  | EmptyString => [EmptyString]
  | String c s' =>
      if Ascii.eqb c sep then EmptyString :: split sep s'
      else match split sep s' with
           | [] => [String c EmptyString]
           | w :: ws => String c w :: ws
           end
  end.

(** [c in s] for a character. *)
Fixpoint contains_char (c : ascii) (s : string) : bool :=
  match s with
  | EmptyString => false
  | String d s' => Ascii.eqb c d || contains_char c s'
  end.

(** str.split(sep, 1) on a string that contains [sep]: the text before
    the first separator and the text after it. *)
Fixpoint split_once (sep : ascii) (s : string) : string * string :=
  match s with
  | EmptyString => (EmptyString, EmptyString)
  | String c s' =>
      if Ascii.eqb c sep then (EmptyString, s')
      else let (a, b) := split_once sep s' in (String c a, b)
  end.

(** [p in s] for strings. *)
Fixpoint contains (p s : string) : bool :=
  String.prefix p s ||
  match s with
  | EmptyString => false
  | String _ s' => contains p s'
  end.

Definition lower_char (c : ascii) : ascii :=
  let n := nat_of_ascii c in
  if ((65 <=? n) && (n <=? 90))
     || ((192 <=? n) && (n <=? 222) && negb (n =? 215))
  then ascii_of_nat (n + 32) else c.

(** str.lower() *)
Fixpoint lower (s : string) : string :=
  match s with
  | EmptyString => EmptyString
  | String c s' => String (lower_char c) (lower s')
  end.

(** The digits of an integer literal, with the single underscores Python
    allows between two digits. *)
Fixpoint int_digits (s : string) (acc : Z) (after_digit : bool) : option Z :=
  match s with
  | EmptyString => if after_digit then Some acc else None
  | String c s' =>
      if is_digit c then int_digits s' (10 * acc + digit_val c)%Z true
      else if Ascii.eqb c "_" && after_digit then int_digits s' acc false
      else None
  end.

(** int(s) for a string: None stands for ValueError. *)
Definition py_int (s : string) : option Z :=
  match strip s with
  | String "+" r => int_digits r 0%Z false
  | String "-" r => option_map Z.opp (int_digits r 0%Z false)
  | t => int_digits t 0%Z false
  end.

Fixpoint all_digits (s : string) : bool :=
  match s with
  | EmptyString => true
  | String c s' => is_digit c && all_digits s'
  end.

Fixpoint digits_value (s : string) (acc : Z) : Z :=
  match s with
  | EmptyString => acc
  | String c s' => digits_value s' (10 * acc + digit_val c)%Z
  end.

Fixpoint pow10 (n : nat) : positive :=
  match n with
  | O => 1%positive
  | S n' => (10 * pow10 n')%positive
  end.

(** float(s) on the texts the condition pattern can hand over: they hold
    digits, commas, white space and dots only, so a sign, an exponent or
    a special name cannot occur.  The result is the exact decimal value,
    where Python rounds it to the nearest binary64 number. *)
Definition py_float (s : string) : option Q :=
  let t := strip s in
  if contains_char "." t then
    let (ip, fp) := split_once "." t in
    if all_digits ip && all_digits fp && negb (is_empty ip && is_empty fp)
    then Some (Qmake (digits_value (ip ++ fp) 0%Z)
                     (pow10 (String.length fp)))
    else None
  else if all_digits t && negb (is_empty t)
  then Some (inject_Z (digits_value t 0%Z))
  else None.

End PyStr.

(** ** core.py: schema and data *)

Inductive QuestionType : Type :=
| QUALI_UNIQUE   (* single choice *)
| QUALI_MULTI    (* multiple choice, stored as comma-separated codes *)
| NUMERIC
| OPEN.

Record Question : Type := mkQuestion {
  q_name : string;
  q_qtype : QuestionType;
  q_title : string;
  q_codes : list (Z * string)
}.

(** A Python dict with string keys: an association list in insertion
    order, without repeated keys. *)
Section Dict.
Context {V : Type}.

Fixpoint dict_get (d : list (string * V)) (k : string) : option V :=
  match d with
  | [] => None
  | (k', v) :: d' => if String.eqb k k' then Some v else dict_get d' k
  end.

(** d[k] = v: the value of an existing key is replaced in place, a new
    key is appended. *)
Fixpoint dict_set (d : list (string * V)) (k : string) (v : V)
  : list (string * V) :=
  match d with
  | [] => [(k, v)]
  | (k', v') :: d' =>
      if String.eqb k k' then (k', v) :: d' else (k', v') :: dict_set d' k v
  end.

Definition dict_mem (d : list (string * V)) (k : string) : bool :=
  match dict_get d k with Some _ => true | None => false end.

End Dict.

Record DataMap : Type := mkDataMap {
  questions : list (string * Question)
}.

Definition add_question (dm : DataMap) (question : Question) : DataMap :=
  mkDataMap (dict_set (questions dm) (q_name question) question).

Definition get_question (dm : DataMap) (name : string) : option Question :=
  dict_get (questions dm) name.

Record Filter : Type := mkFilter {
  f_name : string;
  f_formula : string;
  f_with_na : bool
}.

Record Class : Type := mkClass {
  c_name : string;
  c_bins : list (string * string);   (* (formula, label) *)
  c_option_na : bool
}.

Record TabDefinition : Type := mkTabDefinition {
  t_title : string;
  row_var : string;
  col_var : string;
  second_col_var : option string;
  filter_name : option string;
  weight_var : option string;
  class_name : option string;
  with_na : string;
  display : string
}.

(** A cell of a column.  [Null] is the missing value of an ordinary
    column (None or NaN), [NA] the missing value of a nullable integer
    column (the Int64 result of a single-choice recode). *)
Inductive cell : Type :=
| Null
| NA
| Int (z : Z)
| Float (q : Q)
| Str (s : string).

(** pd.isna *)
Definition isna (c : cell) : bool :=
  match c with
  | Null | NA => true
  | _ => false
  end.

Record DataFrame : Type := mkDataFrame {
  nrows : nat;
  columns : list (string * list cell)
}.

(** Every column has one cell per row. *)
Definition well_formed (df : DataFrame) : Prop :=
  forall name col, In (name, col) (columns df) -> length col = nrows df.

(** df[name] = values *)
Definition set_column (df : DataFrame) (name : string) (values : list cell)
  : DataFrame :=
  mkDataFrame (nrows df) (dict_set (columns df) name values).

(** Boolean Series. *)
Definition series_or (a b : list bool) : list bool :=
  map (fun p : bool * bool => fst p || snd p) (combine a b).

Definition series_and (a b : list bool) : list bool :=
  map (fun p : bool * bool => fst p && snd p) (combine a b).

(** result.loc[mask] = v *)
Definition loc_assign {A : Type} (result : list A) (mask : list bool) (v : A)
  : list A :=
  map (fun p : A * bool => if snd p then v else fst p) (combine result mask).

(** ** formula_parser.py *)

Module FormulaParser.
Import PyStr.

(** The value of a parsed condition: an int, a float, the text itself, or
    the list of codes of a multiple-choice operator. *)
Inductive value : Type :=
| VInt (z : Z)
| VFloat (q : Q)
| VStr (s : string)
| VList (l : list Z).

Definition condition : Type := string * string * value.

Fixpoint span (p : ascii -> bool) (s : string) : string * string :=
  match s with
  | EmptyString => (EmptyString, EmptyString)
  | String c s' =>
      if p c then let (a, b) := span p s' in (String c a, b)
      else (EmptyString, s)
  end.

Fixpoint strip_prefix (p s : string) : option string :=
  match p, s with
  | EmptyString, _ => Some s
  | String a p', String b s' =>
      if Ascii.eqb a b then strip_prefix p' s' else None
  | String _ _, EmptyString => None
  end.

(** The alternatives of the operator group, in the order of the pattern. *)
Definition operators : list string :=
  ["C"; "NC"; "CO"; "NCO"; "="; "!="; ">="; "<="; ">"; "<"].

Definition is_value_char (c : ascii) : bool :=
  is_digit c || Ascii.eqb c "," || is_space c || Ascii.eqb c ".".

(** The tail of the pattern: one or more value characters, then the
    closing bracket.  The bracket is no value character, so the greedy
    run is the only candidate. *)
Definition match_value (s : string) : option (string * string) :=
  let (v, r) := span is_value_char s in
  match v, r with
  | String _ _, String "]" r' => Some (v, r')
  | _, _ => None
  end.

(** The operator group followed by the tail: the first alternative after
    which the tail matches. *)
Fixpoint match_operator (ops : list string) (s : string)
  : option (string * string * string) :=
  match ops with
  | [] => None
  | op :: ops' =>
      match strip_prefix op s with
      | Some r =>
          match match_value r with
          | Some (v, r') => Some (op, v, r')
          | None => match_operator ops' s
          end
      | None => match_operator ops' s
      end
  end.

(** VAR_CONDITION_PATTERN matched at the start of [s]: the three groups
    and the length of the match. *)
Definition match_var_condition (s : string)
  : option (string * string * string * nat) :=
  match s with
  | String "[" (String q s1) =>
      if Ascii.eqb q dquote then
        let (name, s2) := span (fun c => negb (Ascii.eqb c dquote)) s1 in
        match name, s2 with
        | String _ _, String _ s3 =>
            match match_operator operators s3 with
            | Some (op, v, _) =>
                Some (name, op, v,
                      2 + String.length name + 1 + String.length op
                      + String.length v + 1)
            | None => None
            end
        | _, _ => None
        end
      else None
  | _ => None
  end.

(** VAR_CONDITION_PATTERN.finditer: the matches from left to right,
    without overlap.  [skip] counts the characters of the last match that
    are still to be passed over. *)
Fixpoint finditer (s : string) (skip : nat)
  : list (string * string * string) :=
  match s with
  | EmptyString => []
  | String _ s' =>
      match skip with
      | S k => finditer s' k
      | O =>
          match match_var_condition s with
          | Some (name, op, v, len) => (name, op, v) :: finditer s' (len - 1)
          | None => finditer s' 0
          end
      end
  end.

Definition is_multi_operator (op : string) : bool :=
  existsb (String.eqb op) ["C"; "NC"; "CO"; "NCO"].

(** value_str[1:-1] *)
Definition drop_first_last (s : string) : string :=
  match s with
  | EmptyString => EmptyString
  | String _ s' => String.substring 0 (String.length s' - 1) s'
  end.

Definition starts_with_quote (s : string) : bool :=
  match s with String c _ => Ascii.eqb c dquote | EmptyString => false end.

Fixpoint ends_with_quote (s : string) : bool :=
  match s with
  | EmptyString => false
  | String c EmptyString => Ascii.eqb c dquote
  | String _ s' => ends_with_quote s'
  end.

Definition parse_int_item (v : string) : res Z :=
  match py_int (strip v) with
  | Some z => Ok z
  | None => Raise (InvalidLiteral (strip v))
  end.

Definition parse_value (operator value_str : string) : res value :=
  if is_multi_operator operator then
    codes <- mapM parse_int_item (split "," value_str) ;;
    Ok (VList codes)
  else
    let value_str := strip value_str in
    let value_str :=
      if starts_with_quote value_str && ends_with_quote value_str
      then drop_first_last value_str else value_str in
    match py_int value_str with
    | Some z => Ok (VInt z)
    | None =>
        match py_float value_str with
        | Some q => Ok (VFloat q)
        | None => Ok (VStr value_str)
        end
    end.

Definition parse_variable_condition (formula : string) : res (list condition) :=
  mapM (fun m : string * string * string =>
          let '(var_name, operator, value_str) := m in
          values <- parse_value operator value_str ;;
          Ok (var_name, operator, values))
       (finditer formula 0).

(** *** evaluate_condition *)

Inductive comparison_op : Type := OpEq | OpNe | OpGt | OpLt | OpGe | OpLe.

Definition num_compare (op : comparison_op) (a b : Q) : bool :=
  match op with
  | OpEq => Qeq_bool a b
  | OpNe => negb (Qeq_bool a b)
  | OpGt => negb (Qle_bool a b)
  | OpLt => negb (Qle_bool b a)
  | OpGe => Qle_bool b a
  | OpLe => Qle_bool a b
  end.

Definition str_compare (op : comparison_op) (a b : string) : bool :=
  match op, String.compare a b with
  | OpEq, Eq => true
  | OpNe, (Lt | Gt) => true
  | OpGt, Gt => true
  | OpLt, Lt => true
  | OpGe, (Gt | Eq) => true
  | OpLe, (Lt | Eq) => true
  | _, _ => false
  end.

(** A number against text, or text against a number: equal is false,
    different is true, an ordering raises TypeError. *)
Definition mixed_compare (op : comparison_op) : res bool :=
  match op with
  | OpEq => Ok false
  | OpNe => Ok true
  | _ => Raise InvalidComparison
  end.

Definition num_of_cell (c : cell) : option Q :=
  match c with
  | Int z => Some (inject_Z z)
  | Float q => Some q
  | _ => None
  end.

(** One element of [col <op> value].  A missing value of an ordinary
    column compares as NaN does: different from everything, and neither
    equal to nor ordered with anything.  A missing value of a nullable
    column yields a missing boolean, which selects nothing when the
    Series is used as a mask, and is held as [false].  A list on the
    right-hand side cannot come out of [parse_variable_condition] for
    these operators and is left to the host.  Numbers are compared
    exactly, where numpy compares binary64 numbers; text against a number
    is refused cell by cell, where pandas refuses an ordering by the type
    of the column; and an integer literal that numpy cannot convert to
    the type of the column (see [Statements.literals_fit_int64]) raises
    nothing here. *)
Definition compare_cell (op : comparison_op) (c : cell) (v : value) : res bool :=
  match c, v with
  | _, VList _ => Raise (HostError "array comparison")
  | Null, _ => Ok (match op with OpNe => true | _ => false end)
  | NA, _ => Ok false
  | Int z, VInt w => Ok (num_compare op (inject_Z z) (inject_Z w))
  | Int z, VFloat w => Ok (num_compare op (inject_Z z) w)
  | Float q, VInt w => Ok (num_compare op q (inject_Z w))
  | Float q, VFloat w => Ok (num_compare op q w)
  | Str s, VStr t => Ok (str_compare op s t)
  | Str _, (VInt _ | VFloat _) => mixed_compare op
  | (Int _ | Float _), VStr _ => mixed_compare op
  end.

(** The members of the value list of a multiple-choice operator; a value
    that is no list is wrapped in one. *)
Definition value_items (v : value) : list value :=
  match v with
  | VList l => map VInt l
  | _ => [v]
  end.

(** [v == code] for one member of the value list and one int code. *)
Definition item_eq_code (v : value) (code : Z) : bool :=
  match v with
  | VInt z => Z.eqb z code
  | VFloat q => Qeq_bool q (inject_Z code)
  | _ => false
  end.

(** [v in codes] *)
Definition item_in_codes (codes : list Z) (v : value) : bool :=
  existsb (item_eq_code v) codes.

(** set(codes) == set(value) *)
Definition same_set (codes : list Z) (items : list value) : bool :=
  forallb (fun c => existsb (fun v => item_eq_code v c) items) codes
  && forallb (item_in_codes codes) items.

(** int(x) for a float: truncation towards zero. *)
Definition trunc (q : Q) : Z := Z.quot (Qnum q) (Zpos (Qden q)).

(** The codes of a cell: [int(c.strip()) for c in cell.split(',') if
    c.strip()] for text, [int(cell)] otherwise. *)
Definition cell_codes (c : cell) : res (list Z) :=
  match c with
  | Str s =>
      mapM parse_int_item
           (filter (fun p => negb (is_empty (strip p))) (split "," s))
  | Int z => Ok [z]
  | Float q => Ok [trunc q]
  | Null | NA => Ok []
  end.

Definition contains_check (operator : string) (value : list value)
  (cell_value : cell) : res bool :=
  if isna cell_value then Ok false
  else
    codes <- cell_codes cell_value ;;
    if String.eqb operator "C" then
      Ok (existsb (item_in_codes codes) value)
    else if String.eqb operator "NC" then
      Ok (negb (existsb (item_in_codes codes) value))
    else if String.eqb operator "CO" then
      Ok (same_set codes value)
    else if String.eqb operator "NCO" then
      Ok (negb (same_set codes value))
    else Ok false.

Definition scalar_operator (operator : string) : option comparison_op :=
  if String.eqb operator "=" then Some OpEq
  else if String.eqb operator "!=" then Some OpNe
  else if String.eqb operator ">" then Some OpGt
  else if String.eqb operator "<" then Some OpLt
  else if String.eqb operator ">=" then Some OpGe
  else if String.eqb operator "<=" then Some OpLe
  else None.

Definition evaluate_condition (df : DataFrame) (var_name operator : string)
  (value : value) (question_type : QuestionType) : res (list bool) :=
  match dict_get (columns df) var_name with
  | None => Raise (VarNotInData var_name)
  | Some col =>
      if is_multi_operator operator then
        mapM (contains_check operator (value_items value)) col
      else
        match scalar_operator operator with
        | Some op => mapM (fun c => compare_cell op c value) col
        | None => Raise (UnknownOperator operator)
        end
  end.

(** *** evaluate_formula *)

(** The loop over conditions[1:], with the running [result]. *)
Fixpoint combine_conditions (df : DataFrame) (datamap : DataMap)
  (formula_lower : string) (rest : list condition) (result : list bool)
  : res (list bool) :=
  match rest with
  | [] => Ok result
  | (var_name, operator, value) :: rest' =>
      match get_question datamap var_name with
      | None => Raise (VarNotInDatamap var_name)
      | Some question =>
          cond <- evaluate_condition df var_name operator value
                                     (q_qtype question) ;;
          if contains " or " formula_lower
          then combine_conditions df datamap formula_lower rest'
                                  (series_or result cond)
          else combine_conditions df datamap formula_lower rest'
                                  (series_and result cond)
      end
  end.

Definition evaluate_formula (df : DataFrame) (formula : string)
  (datamap : DataMap) : res (list bool) :=
  conditions <- parse_variable_condition formula ;;
  match conditions with
  | [] => Raise (NoValidConditions formula)
  | (var_name, operator, value) :: rest =>
      match get_question datamap var_name with
      | None => Raise (VarNotInDatamap var_name)
      | Some question =>
          result <- evaluate_condition df var_name operator value
                                       (q_qtype question) ;;
          if 1 <? length conditions
          then combine_conditions df datamap (lower formula) rest result
          else Ok result
      end
  end.

(** *** parse_class_formula and apply_class *)

(** formula.replace('X', 'x') *)
Fixpoint replace_X (s : string) : string :=
  match s with
  | EmptyString => EmptyString
  | String c s' => String (if Ascii.eqb c "X" then "x"%char else c) (replace_X s')
  end.

Definition allowed_chars : string := "x0123456789 ()<>=!and.or".

Fixpoint all_allowed (s : string) : bool :=
  match s with
  | EmptyString => true
  | String c s' => contains_char c allowed_chars && all_allowed s'
  end.

Section Host.

(** Python's eval of the text [lambda x: <formula>]: None when eval
    raises, otherwise the function, which applied to a value gives a
    boolean or raises. *)
Variable py_eval_lambda : string -> option (cell -> res bool).

Definition parse_class_formula (formula : string)
  : res (option (cell -> res bool)) :=
  if negb (contains_char "X" formula) then Ok None
  else
    let safe_formula := replace_X formula in
    if negb (all_allowed (lower safe_formula))
    then Raise (InvalidClassCharacters formula)
    else match py_eval_lambda safe_formula with
         | Some func => Ok (Some func)
         | None => Raise (ClassParseFailed formula)
         end.

(** series[mask].apply(func) with mask = series.notna(), then mask &
    matches: the cells that are present and on which func is true.  The
    function is taken to return a boolean, as the comparisons of a class
    formula do; for a formula with another value (X alone, say) [mask &
    matches] is an operation of pandas on numbers, which is not embedded:
    when it fails, the failure is reported like that of the function. *)
Definition bin_matches (func : cell -> res bool) (series : list cell)
  : res (list bool) :=
  mapM (fun c => if isna c then Ok false else func c) series.

Fixpoint apply_class_loop (series : list cell)
  (class_bins : list (string * string)) (result : list cell)
  : res (list cell) :=
  match class_bins with
  | [] => Ok result
  | (formula, label) :: class_bins' =>
      func <- parse_class_formula formula ;;
      match func with
      | None => apply_class_loop series class_bins' result
      | Some func =>
          match bin_matches func series with
          | Raise e => Raise (ClassBinError label formula e)
          | Ok matches =>
              apply_class_loop series class_bins'
                               (loc_assign result matches (Str label))
          end
      end
  end.

Definition apply_class (series : list cell)
  (class_bins : list (string * string)) : res (list cell) :=
  apply_class_loop series class_bins (repeat Null (length series)).

End Host.

End FormulaParser.

(** ** core.py: the kinds, validation and serialization *)

Module Core.
Import PyStr.

(** str.upper() on the code points of the model.  The sharp s becomes
    two letters; the micro sign and the y with diaeresis, whose
    upper-case forms are beyond code point 255, are left as they are. *)
Fixpoint upper (s : string) : string :=
  match s with
  | EmptyString => EmptyString
  | String c s' =>
      let n := nat_of_ascii c in
      if ((97 <=? n) && (n <=? 122))
         || ((224 <=? n) && (n <=? 254) && negb (n =? 247))
      then String (ascii_of_nat (n - 32)) (upper s')
      else if n =? 223 then String "S" (String "S" (upper s'))
      else String c (upper s')
  end.

(** QuestionType.value *)
Definition qtype_value (qt : QuestionType) : string :=
  match qt with
  | QUALI_UNIQUE => "QU"
  | QUALI_MULTI => "QM"
  | NUMERIC => "N"
  | OPEN => "O"
  end.

(** QuestionType(value): ValueError for a text that is no value. *)
Definition qtype_of_value (v : string) : res QuestionType :=
  if String.eqb v "QU" then Ok QUALI_UNIQUE
  else if String.eqb v "QM" then Ok QUALI_MULTI
  else if String.eqb v "N" then Ok NUMERIC
  else if String.eqb v "O" then Ok OPEN
  else Raise (HostError "not a valid QuestionType").

(** The mapping of QuestionType.from_string. *)
Definition from_string_mapping : list (string * QuestionType) :=
  [("QU", QUALI_UNIQUE); ("QM", QUALI_MULTI); ("N", NUMERIC); ("O", OPEN);
   ("QUALI UNIQUE", QUALI_UNIQUE); ("QUALI MULTIPLE", QUALI_MULTI);
   ("NUMERIC", NUMERIC); ("OPEN", OPEN)].

(** QuestionType.from_string: mapping.get(s.upper(), OPEN) *)
Definition from_string (s : string) : QuestionType :=
  match dict_get from_string_mapping (upper s) with
  | Some qt => qt
  | None => OPEN
  end.

(** *** Question.validate_value *)

(** What follows a digit of a digit part: digits, each possibly after one
    underscore. *)
Fixpoint digits_tail (s : string) : string :=
  match s with
  | EmptyString => EmptyString
  | String c s' =>
      if is_digit c then digits_tail s'
      else if Ascii.eqb c "_" then
        match s' with
        | String d s'' => if is_digit d then digits_tail s'' else s
        | EmptyString => s
        end
      else s
  end.

(** A digit part at the start of [s]: what comes after it. *)
Definition digit_part (s : string) : option string :=
  match s with
  | String c s' => if is_digit c then Some (digits_tail s') else None
  | EmptyString => None
  end.

(** A number, digits with a point before, inside or after them: what
    comes after it. *)
Definition number_part (s : string) : option string :=
  match digit_part s with
  | Some r =>
      match r with
      | String "." r' =>
          match digit_part r' with
          | Some r'' => Some r''
          | None => Some r'
          end
      | _ => Some r
      end
  | None =>
      match s with
      | String "." r' => digit_part r'
      | _ => None
      end
  end.

Definition unsigned (s : string) : string :=
  match s with
  | String "+" r | String "-" r => r
  | _ => s
  end.

(** The exponent, when there is one, ends the text. *)
Definition exponent_part (s : string) : bool :=
  match s with
  | EmptyString => true
  | String c r =>
      (Ascii.eqb c "e" || Ascii.eqb c "E")
      && match digit_part (unsigned r) with
         | Some EmptyString => true
         | _ => false
         end
  end.

(** float(s) does not raise ValueError. *)
Definition py_float_ok (s : string) : bool :=
  let t := unsigned (strip s) in
  match number_part t with
  | Some r => exponent_part r
  | None =>
      existsb (String.eqb (lower t)) ["inf"; "infinity"; "nan"]
  end.

Definition in_codes (codes : list (Z * string)) (z : Z) : bool :=
  existsb (fun e : Z * string => Z.eqb z (fst e)) codes.

(** [int(c.strip()) for c in value.split(',') if c.strip()], None for
    ValueError. *)
Fixpoint int_items (parts : list string) : option (list Z) :=
  match parts with
  | [] => Some []
  | p :: parts' =>
      if is_empty (strip p) then int_items parts'
      else match py_int (strip p), int_items parts' with
           | Some z, Some zs => Some (z :: zs)
           | _, _ => None
           end
  end.

Definition validate_value (q : Question) (value : cell) : bool :=
  if isna value then true
  else
    match q_qtype q with
    | NUMERIC =>
        match value with
        | Str s => py_float_ok s
        | _ => true
        end
    | QUALI_UNIQUE =>
        match value with
        | Str s =>
            match py_int s with
            | Some z => in_codes (q_codes q) z
            | None => false
            end
        | Int z => in_codes (q_codes q) z
        | Float x => in_codes (q_codes q) (FormulaParser.trunc x)
        | _ => true
        end
    | QUALI_MULTI =>
        match value with
        | Str s =>
            match int_items (split "," s) with
            | Some codes => forallb (in_codes (q_codes q)) codes
            | None => false
            end
        | _ => false
        end
    | OPEN => true
    end.

(** *** DataMap.validate_dataframe *)

(** The messages of validate_dataframe.  The names of the first two are
    shown as a set, that has no order; they are listed here in the order
    of the datamap and of the frame. *)
Inductive dataframe_message : Type :=
| MissingColumns (names : list string)
    (* Missing columns in data: {missing} *)
| ExtraColumns (names : list string)
    (* Extra columns in data (ignored): {extra} *)
| InvalidValues (name : string) (invalid_count : nat) (qtype : QuestionType)
    (* Column '{name}' has {invalid_count} invalid values (type: {qtype}) *).

Definition names_not_in {V W : Type} (d : list (string * V))
  (d' : list (string * W)) : list string :=
  filter (fun n => negb (dict_mem d' n)) (map fst d).

(** sum(1 for val in df[name].head(100) if not question.validate_value(val)) *)
Definition invalid_count (q : Question) (col : list cell) : nat :=
  length (filter (fun v => negb (validate_value q v)) (firstn 100 col)).

Definition validate_dataframe (dm : DataMap) (df : DataFrame)
  : list dataframe_message :=
  let missing := names_not_in (questions dm) (columns df) in
  let extra := names_not_in (columns df) (questions dm) in
  (if is_nil missing then [] else [MissingColumns missing])
  ++ (if is_nil extra then [] else [ExtraColumns extra])
  ++ flat_map
       (fun e : string * Question =>
          match dict_get (columns df) (fst e) with
          | None => []
          | Some col =>
              if 0 <? invalid_count (snd e) col
              then [InvalidValues (fst e) (invalid_count (snd e) col)
                                  (q_qtype (snd e))]
              else []
          end)
       (questions dm).

(** *** DataMap.to_dict and DataMap.from_dict *)

(** A key of a code table in the serialized form: an int as to_dict
    leaves it, or the text that a JSON file holds. *)
Inductive code_key : Type :=
| KInt (z : Z)
| KStr (s : string).

Record question_data : Type := mkQuestionData {
  d_type : string;
  d_title : string;
  d_codes : option (list (code_key * string))
}.

Definition to_dict (dm : DataMap) : list (string * question_data) :=
  map (fun e : string * Question =>
         (fst e,
          mkQuestionData (qtype_value (q_qtype (snd e))) (q_title (snd e))
            (Some (map (fun c : Z * string => (KInt (fst c), snd c))
                       (q_codes (snd e))))))
      (questions dm).

(** int(k) *)
Definition int_of_key (k : code_key) : res Z :=
  match k with
  | KInt z => Ok z
  | KStr s =>
      match py_int s with
      | Some z => Ok z
      | None => Raise (InvalidLiteral s)
      end
  end.

(** codes[k] = v on a code table. *)
Fixpoint codes_set (codes : list (Z * string)) (k : Z) (v : string)
  : list (Z * string) :=
  match codes with
  | [] => [(k, v)]
  | (k', v') :: codes' =>
      if Z.eqb k k' then (k', v) :: codes' else (k', v') :: codes_set codes' k v
  end.

(** {int(k): v for k, v in items} *)
Fixpoint read_codes (items : list (code_key * string))
  (codes : list (Z * string)) : res (list (Z * string)) :=
  match items with
  | [] => Ok codes
  | (k, v) :: items' =>
      z <- int_of_key k ;;
      read_codes items' (codes_set codes z v)
  end.

Fixpoint from_dict_loop (data : list (string * question_data)) (dm : DataMap)
  : res DataMap :=
  match data with
  | [] => Ok dm
  | (name, q_data) :: data' =>
      qtype <- qtype_of_value (d_type q_data) ;;
      codes <- read_codes (match d_codes q_data with
                           | Some items => items
                           | None => []
                           end) [] ;;
      from_dict_loop data'
        (add_question dm (mkQuestion name qtype (d_title q_data) codes))
  end.

Definition from_dict (data : list (string * question_data)) : res DataMap :=
  from_dict_loop data (mkDataMap []).

End Core.

(** ** engines.py *)

Module FilterEngine.
Import FormulaParser.

Record FilterEngine : Type := mkFilterEngine {
  filters : list (string * Filter)
}.

Definition add_filter (fe : FilterEngine) (filter_obj : Filter) : FilterEngine :=
  mkFilterEngine (dict_set (filters fe) (f_name filter_obj) filter_obj).

Definition get_filter (fe : FilterEngine) (name : string) : option Filter :=
  dict_get (filters fe) name.

Definition apply_filter (fe : FilterEngine) (df : DataFrame)
  (filter_name : string) (datamap : DataMap) : res (list bool) :=
  match dict_get (filters fe) filter_name with
  | None => Raise (FilterNotFound filter_name)
  | Some filter_obj =>
      try_except (evaluate_formula df (f_formula filter_obj) datamap)
                 (FilterError filter_name)
  end.

(** One entry of the list validate returns: the text
    Filter '{name}': {e}. *)
Record filter_message : Type := mkFilterMessage {
  m_filter : string;
  m_error : exn
}.

Fixpoint validate_loop (items : list (string * Filter))
  (errors : list filter_message) : list filter_message :=
  match items with
  | [] => errors
  | (name, filter_obj) :: items' =>
      match parse_variable_condition (f_formula filter_obj) with
      | Ok _ => validate_loop items' errors
      | Raise e => validate_loop items' (errors ++ [mkFilterMessage name e])
      end
  end.

Definition validate (fe : FilterEngine) (datamap : DataMap)
  : list filter_message :=
  validate_loop (filters fe) [].

End FilterEngine.

Module ClassEngine.

Record ClassEngine : Type := mkClassEngine {
  classes : list (string * Class)
}.

Definition add_class (ce : ClassEngine) (class_obj : Class) : ClassEngine :=
  mkClassEngine (dict_set (classes ce) (c_name class_obj) class_obj).

Definition get_class (ce : ClassEngine) (name : string) : option Class :=
  dict_get (classes ce) name.

Section Host.
Variable py_eval_lambda : string -> option (cell -> res bool).

Definition apply_class (ce : ClassEngine) (series : list cell)
  (class_name : string) : res (list cell) :=
  match dict_get (classes ce) class_name with
  | None => Raise (ClassNotFound class_name)
  | Some class_obj =>
      try_except
        (FormulaParser.apply_class py_eval_lambda series (c_bins class_obj))
        (ClassError class_name)
  end.

(** One entry of the list validate returns: the text
    Class '{name}', bin '{label}': {e}. *)
Record class_message : Type := mkClassMessage {
  m_class : string;
  m_label : string;
  m_error : exn
}.

Definition validate_bins (name : string) (bins : list (string * string))
  : list class_message :=
  flat_map (fun bin : string * string =>
              match FormulaParser.parse_class_formula py_eval_lambda (fst bin) with
              | Ok _ => []
              | Raise e => [mkClassMessage name (snd bin) e]
              end)
           bins.

Definition validate (ce : ClassEngine) : list class_message :=
  flat_map (fun e : string * Class => validate_bins (fst e) (c_bins (snd e)))
           (classes ce).

End Host.

End ClassEngine.

(** ** recode_engine.py *)

Module RecodeEngine.
Import PyStr FormulaParser.

(** The fields every recode has; [rtype] is fixed by the variant. *)
Record RecodeBase : Type := mkRecodeBase {
  name : string;
  title : string;
  formula : string;
  option_na : bool
}.

Inductive Recode : Type :=
| QualiUniqueRecode (base : RecodeBase) (codes : list (Z * string))
| QualiMultipleRecode (base : RecodeBase) (codes : list (Z * string))
| NumericRecode (base : RecodeBase)
| NumberOfAnswersRecode (base : RecodeBase)
| CombinationRecode (base : RecodeBase)
| WeightRecode (base : RecodeBase) (weights : list (string * Q))
| QualiMultiINIRecode (base : RecodeBase) (codes : list (Z * string))
    (subtotals : list (Z * list Z)).

Definition base_of (r : Recode) : RecodeBase :=
  match r with
  | QualiUniqueRecode b _ | QualiMultipleRecode b _ | NumericRecode b
  | NumberOfAnswersRecode b | CombinationRecode b | WeightRecode b _
  | QualiMultiINIRecode b _ _ => b
  end.

Definition recode_name (r : Recode) : string := name (base_of r).

(** [line.strip() for line in formula.split(newline) if line.strip()] *)
Definition formula_lines (formula : string) : list string :=
  filter (fun line => negb (is_empty line)) (map strip (split newline formula)).

(** *** QualiUniqueRecode.calculate *)

(** The codes are Python ints; that the Int64 column of the result holds
    no code beyond 64 bits is not embedded. *)
Fixpoint quali_unique_loop (recode : string) (df : DataFrame)
  (datamap : DataMap) (lines : list string) (result : list cell)
  : res (list cell) :=
  match lines with
  | [] => Ok result
  | line :: lines' =>
      if contains_char ":" line then
        let (code_str, condition) := split_once ":" line in
        match py_int (strip code_str) with
        | None => Raise (InvalidLiteral (strip code_str))
        | Some code =>
            match evaluate_formula df (strip condition) datamap with
            | Raise e => Raise (RecodeLineError recode line e)
            | Ok mask =>
                quali_unique_loop recode df datamap lines'
                                  (loc_assign result mask (Int code))
            end
        end
      else quali_unique_loop recode df datamap lines' result
  end.

Definition quali_unique_calculate (b : RecodeBase) (df : DataFrame)
  (datamap : DataMap) : res (list cell) :=
  quali_unique_loop (name b) df datamap (formula_lines (formula b))
                    (repeat NA (nrows df)).

(** *** QualiMultipleRecode.calculate *)

Definition mem_Z (z : Z) (l : list Z) : bool := existsb (Z.eqb z) l.

(** for idx in df.index[mask]: if code not in selections[idx]: append *)
Definition add_selection (code : Z) (selections : list (list Z))
  (mask : list bool) : list (list Z) :=
  map (fun p : list Z * bool =>
         if snd p then
           if mem_Z code (fst p) then fst p else fst p ++ [code]
         else fst p)
      (combine selections mask).

Fixpoint quali_multiple_loop (recode : string) (df : DataFrame)
  (datamap : DataMap) (lines : list string) (selections : list (list Z))
  : res (list (list Z)) :=
  match lines with
  | [] => Ok selections
  | line :: lines' =>
      if contains_char ":" line then
        let (code_str, condition) := split_once ":" line in
        match py_int (strip code_str) with
        | None => Raise (InvalidLiteral (strip code_str))
        | Some code =>
            match evaluate_formula df (strip condition) datamap with
            | Raise e => Raise (RecodeLineError recode line e)
            | Ok mask =>
                quali_multiple_loop recode df datamap lines'
                                    (add_selection code selections mask)
            end
        end
      else quali_multiple_loop recode df datamap lines' selections
  end.

(** str(z) *)
Definition str_of_Z (z : Z) : string :=
  DecimalString.NilZero.string_of_int (Z.to_int z).

(** ','.join(map(str, sorted(codes))) *)
Definition join_codes (codes : list Z) : string :=
  String.concat "," (map str_of_Z (sorted codes)).

Definition quali_multiple_calculate (b : RecodeBase) (df : DataFrame)
  (datamap : DataMap) : res (list cell) :=
  selections <- quali_multiple_loop (name b) df datamap
                  (formula_lines (formula b)) (repeat [] (nrows df)) ;;
  Ok (map (fun codes : list Z =>
             match codes with
             | [] => Null
             | _ => Str (join_codes codes)
             end) selections).

(** *** The reference pattern: a bracket, a quoted name, a bracket *)

Definition match_var_reference (s : string) : option (string * nat) :=
  match s with
  | String "[" (String q s1) =>
      if Ascii.eqb q dquote then
        let (v, s2) := span (fun c => negb (Ascii.eqb c dquote)) s1 in
        match v, s2 with
        | String _ _, String _ (String "]" _) => Some (v, String.length v + 4)
        | _, _ => None
        end
      else None
  | _ => None
  end.

(** var_pattern.findall *)
Fixpoint find_references (s : string) (skip : nat) : list string :=
  match s with
  | EmptyString => []
  | String _ s' =>
      match skip with
      | S k => find_references s' k
      | O =>
          match match_var_reference s with
          | Some (v, len) => v :: find_references s' (len - 1)
          | None => find_references s' 0
          end
      end
  end.

(** var_pattern.search(formula).group(1), when there is a match *)
Definition search_reference (s : string) : option string :=
  match find_references s 0 with
  | [] => None
  | v :: _ => Some v
  end.

(** var_pattern.sub: every reference becomes df['name'] *)
Fixpoint sub_references (s : string) (skip : nat) : string :=
  match s with
  | EmptyString => EmptyString
  | String c s' =>
      match skip with
      | S k => sub_references s' k
      | O =>
          match match_var_reference s with
          | Some (v, len) =>
              ("df['" ++ v ++ "']") ++ sub_references s' (len - 1)
          | None => String c (sub_references s' 0)
          end
      end
  end.

(** The source column of the recodes whose formula names one variable. *)
Definition source_column (b : RecodeBase) (df : DataFrame) : res (list cell) :=
  match search_reference (formula b) with
  | None => Raise (CouldNotParseVariable (formula b))
  | Some var_name =>
      match dict_get (columns df) var_name with
      | None => Raise (VarNotInData var_name)
      | Some col => Ok col
      end
  end.

(** *** NumberOfAnswersRecode.calculate *)

Definition count_answers (value : cell) : cell :=
  if isna value then Int 0
  else match value with
       | Str s =>
           Int (Z.of_nat (length (filter (fun c => negb (is_empty c))
                                         (map strip (split "," s)))))
       | _ => Int 1
       end.

Definition number_of_answers_calculate (b : RecodeBase) (df : DataFrame)
  : res (list cell) :=
  col <- source_column b df ;;
  Ok (map count_answers col).

(** *** CombinationRecode.calculate *)

Definition cell_eqb (a b : cell) : bool :=
  match a, b with
  | Str s, Str t => String.eqb s t
  | Null, Null | NA, NA => true
  | _, _ =>
      match num_of_cell a, num_of_cell b with
      | Some x, Some y => Qeq_bool x y
      | _, _ => false
      end
  end.

(** The values in order of first occurrence, missing values dropped. *)
Fixpoint unique (col : list cell) (seen : list cell) : list cell :=
  match col with
  | [] => []
  | c :: col' =>
      if isna c || existsb (cell_eqb c) seen then unique col' seen
      else c :: unique col' (c :: seen)
  end.

Definition cell_leb (a b : cell) : bool :=
  match a, b with
  | Str s, Str t => str_compare OpLe s t
  | _, _ =>
      match num_of_cell a, num_of_cell b with
      | Some x, Some y => Qle_bool x y
      | _, _ => false
      end
  end.

Fixpoint insert_cell (c : cell) (l : list cell) : list cell :=
  match l with
  | [] => [c]
  | y :: l' => if cell_leb c y then c :: l else y :: insert_cell c l'
  end.

Definition is_text (c : cell) : bool :=
  match c with Str _ => true | _ => false end.

(** sorted(unique_combos): text against a number raises TypeError. *)
Definition sorted_cells (l : list cell) : res (list cell) :=
  if existsb is_text l && existsb (fun c => negb (is_text c)) l
  then Raise InvalidComparison
  else Ok (fold_right insert_cell [] l).

Fixpoint combo_index (combos : list cell) (c : cell) (idx : Z) : option Z :=
  match combos with
  | [] => None
  | y :: combos' =>
      if cell_eqb c y then Some (idx + 1)%Z
      else combo_index combos' c (idx + 1)%Z
  end.

(** col.map(combo_to_code): a column with a missing value comes back as
    floats. *)
Definition map_combo (combos : list cell) (has_missing : bool) (c : cell)
  : cell :=
  if isna c then Null
  else match combo_index combos c 0 with
       | Some code => if has_missing then Float (inject_Z code) else Int code
       | None => Null
       end.

Definition combination_calculate (b : RecodeBase) (df : DataFrame)
  : res (list cell) :=
  col <- source_column b df ;;
  combos <- sorted_cells (unique col []) ;;
  Ok (map (map_combo combos (existsb isna col)) col).

(** *** WeightRecode.calculate *)

Fixpoint weight_loop (df : DataFrame) (datamap : DataMap)
  (weights : list (string * Q)) (result : list cell) : res (list cell) :=
  match weights with
  | [] => Ok result
  | (condition, weight) :: weights' =>
      match evaluate_formula df condition datamap with
      | Raise e => Raise (WeightConditionError condition e)
      | Ok mask =>
          weight_loop df datamap weights' (loc_assign result mask (Float weight))
      end
  end.

Definition weight_calculate (weights : list (string * Q)) (df : DataFrame)
  (datamap : DataMap) : res (list cell) :=
  weight_loop df datamap weights (repeat (Float 1) (nrows df)).

(** *** QualiMultiINIRecode.calculate *)

Fixpoint add_subtotal_codes (subtotals : list (Z * list Z)) (codes : list Z)
  (result_codes : list Z) : list Z :=
  match subtotals with
  | [] => result_codes
  | (st_code, st_members) :: subtotals' =>
      add_subtotal_codes subtotals' codes
        (if existsb (fun c => mem_Z c codes) st_members
         then if mem_Z st_code result_codes then result_codes
              else result_codes ++ [st_code]
         else result_codes)
  end.

Definition add_subtotals (subtotals : list (Z * list Z)) (value : cell)
  : res cell :=
  if isna value then Ok Null
  else
    codes <- cell_codes value ;;
    Ok (Str (join_codes (add_subtotal_codes subtotals codes codes))).

Definition quali_multi_ini_calculate (b : RecodeBase)
  (subtotals : list (Z * list Z)) (df : DataFrame) : res (list cell) :=
  col <- source_column b df ;;
  mapM (add_subtotals subtotals) col.

Section Host.

(** The two things NumericRecode.calculate takes from its host: whether
    the global name [re] is bound when it runs (the file binds it in its
    script block only), and pd.eval, given the rewritten formula and the
    frame. *)
Variable re_bound : bool.
Variable pd_eval : string -> DataFrame -> res (list cell).

(** *** NumericRecode.calculate *)

Definition numeric_calculate (b : RecodeBase) (df : DataFrame)
  : res (list cell) :=
  if re_bound then
    _ <- mapM (fun var_name =>
                 if dict_mem (columns df) var_name then Ok tt
                 else Raise (VarNotInData var_name))
              (find_references (formula b) 0) ;;
    try_except (pd_eval (sub_references (formula b) 0) df)
               (NumericRecodeError (name b))
  else Raise (HostError "NameError: name 're' is not defined").

(** *** Recode.calculate, by variant *)

Definition calculate (r : Recode) (df : DataFrame) (datamap : DataMap)
  : res (list cell) :=
  match r with
  | QualiUniqueRecode b _ => quali_unique_calculate b df datamap
  | QualiMultipleRecode b _ => quali_multiple_calculate b df datamap
  | NumericRecode b => numeric_calculate b df
  | NumberOfAnswersRecode b => number_of_answers_calculate b df
  | CombinationRecode b => combination_calculate b df
  | WeightRecode _ weights => weight_calculate weights df datamap
  | QualiMultiINIRecode b _ subtotals => quali_multi_ini_calculate b subtotals df
  end.

(** *** RecodeEngine.calculate_all *)

(** The kind and the code table of the Question added for a recode. *)
Definition question_of (r : Recode) : Question :=
  match r with
  | QualiUniqueRecode b codes =>
      mkQuestion (name b) QUALI_UNIQUE (title b) codes
  | QualiMultipleRecode b codes | QualiMultiINIRecode b codes _ =>
      mkQuestion (name b) QUALI_MULTI (title b) codes
  | NumericRecode b | NumberOfAnswersRecode b | WeightRecode b _ =>
      mkQuestion (name b) NUMERIC (title b) []
  | CombinationRecode b =>
      mkQuestion (name b) NUMERIC (title b) []
  end.

(** The loop of calculate_all.  The datamap is the caller's object and is
    updated in place, so its state is returned whatever the outcome; the
    frame is the local [result_df]. *)
Fixpoint calculate_loop (recodes : list Recode) (result_df : DataFrame)
  (datamap : DataMap) : res DataFrame * DataMap :=
  match recodes with
  | [] => (Ok result_df, datamap)
  | recode :: recodes' =>
      match calculate recode result_df datamap with
      | Raise e => (Raise (RecodeError (recode_name recode) e), datamap)
      | Ok recode_values =>
          calculate_loop recodes'
            (set_column result_df (recode_name recode) recode_values)
            (add_question datamap (question_of recode))
      end
  end.

(** What the caller holds: the frame and the datamap passed in. *)
Record Session : Type := mkSession {
  data : DataFrame;
  schema : DataMap
}.

(** calculate_all(df, datamap): the outcome (the returned frame or the
    exception) and the caller's objects after the call.  The loop works on
    [df.copy()], so the caller's frame is the one passed in. *)
Definition calculate_all (recodes : list Recode) (s : Session)
  : res DataFrame * Session :=
  let result_df := data s in
  let (outcome, datamap) := calculate_loop recodes result_df (schema s) in
  (outcome, mkSession (data s) datamap).

End Host.

(** *** RecodeEngine.add_recode and RecodeEngine.validate *)

Definition add_recode (recodes : list Recode) (recode : Recode) : list Recode :=
  recodes ++ [recode].

(** The messages of validate.  The names of the first one are shown as a
    set; they are listed here once each, in the order of the recodes. *)
Inductive recode_message : Type :=
| DuplicateNames (names : list string)
    (* Duplicate recode names: {set(duplicates)} *)
| UnknownVariable (recode var : string)
    (* Recode '{name}': variable '{var}' not in datamap *).

(** names.count(name) *)
Definition count (name : string) (names : list string) : nat :=
  length (filter (String.eqb name) names).

Fixpoint dedup (names : list string) : list string :=
  match names with
  | [] => []
  | n :: names' =>
      n :: filter (fun m => negb (String.eqb n m)) (dedup names')
  end.

(** [name for name in names if names.count(name) > 1] *)
Definition duplicates (names : list string) : list string :=
  filter (fun n => 1 <? count n names) names.

Definition unknown_variables (datamap : DataMap) (recode : Recode)
  : list recode_message :=
  flat_map (fun var =>
              match get_question datamap var with
              | Some _ => []
              | None => [UnknownVariable (recode_name recode) var]
              end)
           (find_references (formula (base_of recode)) 0).

Definition validate (recodes : list Recode) (datamap : DataMap)
  : list recode_message :=
  let names := map recode_name recodes in
  (if is_nil (duplicates names) then []
   else [DuplicateNames (dedup (duplicates names))])
  ++ flat_map (unknown_variables datamap) recodes.

End RecodeEngine.

(** ** tab_engine.py *)

Module TabEngine.
Import PyStr FormulaParser.

(** The arithmetic of the numbers of a table.  The sources compute on
    binary64 floats ([float_arith]); the counts of an unweighted table are
    integers, which a float holds exactly below 2^53.  The statements that
    the specification makes up to rounding are read on exact rationals
    ([Q_arith]), with no missing value and a division by zero that gives
    zero. *)
Record Arith (F : Type) : Type := mkArith {
  zero : F;
  one : F;
  two : F;
  hundred : F;
  add : F -> F -> F;
  sub : F -> F -> F;
  mul : F -> F -> F;
  div : F -> F -> F;
  sqrt : F -> F;            (* np.sqrt *)
  absolute : F -> F;        (* abs *)
  norm_cdf : F -> F;        (* scipy.stats.norm.cdf *)
  ltb : F -> F -> bool;     (* x < y *)
  notna : F -> bool;        (* pd.notna *)
  default_alpha : F         (* 0.05 *)
}.

Arguments zero {F} _.
Arguments one {F} _.
Arguments two {F} _.
Arguments hundred {F} _.
Arguments add {F} _ _ _.
Arguments sub {F} _ _ _.
Arguments mul {F} _ _ _.
Arguments div {F} _ _ _.
Arguments sqrt {F} _ _.
Arguments absolute {F} _ _.
Arguments norm_cdf {F} _ _.
Arguments ltb {F} _ _ _.
Arguments notna {F} _ _.
Arguments default_alpha {F} _.

Definition float_arith (cdf : float -> float) : Arith float :=
  mkArith float 0%float 1%float 2%float 100%float
          PrimFloat.add PrimFloat.sub PrimFloat.mul PrimFloat.div
          PrimFloat.sqrt PrimFloat.abs cdf PrimFloat.ltb
          (fun x => negb (PrimFloat.is_nan x))
          0x1.999999999999ap-5%float.

Definition Q_arith (root cdf : Q -> Q) : Arith Q :=
  mkArith Q 0%Q 1%Q 2%Q 100%Q Qplus Qminus Qmult Qdiv root Qabs cdf
          (fun x y => negb (Qle_bool y x)) (fun _ => true) (5 # 100)%Q.

(** A two-way table: row labels, column labels, and the rows. *)
Record Table (F : Type) : Type := mkTable {
  index : list cell;
  tcolumns : list cell;
  values : list (list F)
}.

Arguments mkTable {F} _ _ _.
Arguments index {F} _.
Arguments tcolumns {F} _.
Arguments values {F} _.

(** pd.DataFrame() *)
Definition empty_table {F : Type} : Table F := mkTable [] [] [].

(** label == 'Total' *)
Definition is_total (label : cell) : bool :=
  match label with
  | Str s => String.eqb s "Total"
  | _ => false
  end.

Fixpoint position (labels : list cell) : option nat :=
  match labels with
  | [] => None
  | l :: labels' =>
      if is_total l then Some 0 else option_map S (position labels')
  end.

(** Keep the elements of [l] whose label is not Total. *)
Definition without_total {A : Type} (labels : list cell) (l : list A) : list A :=
  map snd (filter (fun p : cell * A => negb (is_total (fst p))) (combine labels l)).

Record TabResult (F : Type) : Type := mkTabResult {
  r_title : string;
  counts : Table F;
  row_pct : Table F;
  col_pct : Table F;
  significance : option (Table (option (list Z)));
  weighted : bool;
  base : option (list F)
}.

Arguments mkTabResult {F} _ _ _ _ _ _ _.
Arguments r_title {F} _.
Arguments counts {F} _.
Arguments row_pct {F} _.
Arguments col_pct {F} _.
Arguments significance {F} _.
Arguments weighted {F} _.
Arguments base {F} _.

Section Arithmetic.
Context {F : Type}.
Variable A : Arith F.

(** t.loc['Total'] *)
Definition total_row (t : Table F) : res (list F) :=
  match position (index t) with
  | Some k => Ok (nth k (values t) [])
  | None => Raise (KeyError "Total")
  end.

(** t['Total'] *)
Definition total_column (t : Table F) : res (list F) :=
  match position (tcolumns t) with
  | Some k => Ok (map (fun row => nth k row (zero A)) (values t))
  | None => Raise (KeyError "Total")
  end.

(** *** SignificanceTest.column_z_tests *)

(** data.drop('Total') and data.drop('Total', axis=1) *)
Definition drop_totals (crosstab : Table F) : Table F :=
  mkTable (without_total (index crosstab) (index crosstab))
          (without_total (tcolumns crosstab) (tcolumns crosstab))
          (map (without_total (tcolumns crosstab))
               (without_total (index crosstab) (values crosstab))).

(** One entry of data.sum(axis=0): missing values are passed over. *)
Definition column_total (rows : list (list F)) (j : nat) : F :=
  fold_left (fun acc row =>
               let x := nth j row (zero A) in
               if notna A x then add A acc x else acc)
            rows (zero A).

(** The letters that column [i] earns in one row: the body of the loop
    over [j].  [row] is the row of the data, [props] its proportions,
    [col_totals] the column totals. *)
Definition letter_of (i j : nat) (row props col_totals : list F) (alpha : F)
  : list Z :=
  if Nat.eqb i j then []
  else
    let p_i := nth i props (zero A) in
    let n_i := nth i col_totals (zero A) in
    let p_j := nth j props (zero A) in
    let n_j := nth j col_totals (zero A) in
    if notna A p_i && notna A p_j && ltb A (zero A) n_i && ltb A (zero A) n_j
    then
      let p_pool :=
        div A (add A (nth i row (zero A)) (nth j row (zero A))) (add A n_i n_j) in
      let se :=
        sqrt A (mul A (mul A p_pool (sub A (one A) p_pool))
                      (add A (div A (one A) n_i) (div A (one A) n_j))) in
      if ltb A (zero A) se then
        let z := div A (sub A p_i p_j) se in
        let p_value := mul A (two A) (sub A (one A) (norm_cdf A (absolute A z))) in
        if ltb A p_value alpha && ltb A p_j p_i
        then [(65 + Z.of_nat j)%Z]     (* chr(65 + j) *)
        else []
      else []
    else [].

(** sig_letters for column [i] of one row. *)
Definition sig_letters (n_cols i : nat) (row props col_totals : list F)
  (alpha : F) : list Z :=
  flat_map (fun j => letter_of i j row props col_totals alpha) (seq 0 n_cols).

(** The markers of one row: ''.join(sorted(sig_letters)) for each column,
    a text being the list of its code points. *)
Definition row_markers (n_cols : nat) (col_totals : list F) (alpha : F)
  (row : list F) : list (option (list Z)) :=
  let props :=
    map (fun p : F * F => div A (fst p) (snd p)) (combine row col_totals) in
  map (fun i => Some (sorted (sig_letters n_cols i row props col_totals alpha)))
      (seq 0 n_cols).

Definition column_z_tests (crosstab : Table F) (alpha : F)
  : Table (option (list Z)) :=
  let data := drop_totals crosstab in
  let n_cols := length (tcolumns data) in
  if n_cols <? 2 then
    mkTable (index data) (tcolumns data)
            (map (fun _ => map (fun _ => None) (tcolumns data)) (index data))
  else
    let col_totals := map (column_total (values data)) (seq 0 n_cols) in
    mkTable (index data) (tcolumns data)
            (map (row_markers n_cols col_totals alpha) (values data)).

(** *** TabEngine.generate_tab *)

(** counts.div(counts.loc['Total'], axis=1) * 100 *)
Definition column_percentages (counts : Table F) : res (Table F) :=
  totals <- total_row counts ;;
  Ok (mkTable (index counts) (tcolumns counts)
        (map (fun row =>
                map (fun p : F * F => mul A (div A (fst p) (snd p)) (hundred A))
                    (combine row totals))
             (values counts))).

(** counts.div(counts['Total'], axis=0) * 100 *)
Definition row_percentages (counts : Table F) : res (Table F) :=
  totals <- total_column counts ;;
  Ok (mkTable (index counts) (tcolumns counts)
        (map (fun p : list F * F =>
                map (fun x => mul A (div A x (snd p)) (hundred A)) (fst p))
             (combine (values counts) totals))).

(** The truth value of an optional name: None and the empty text are
    false. *)
Definition given (name : option string) : option string :=
  match name with
  | Some s => if is_empty s then None else Some s
  | None => None
  end.

(** df[mask] *)
Definition select_rows (df : DataFrame) (mask : list bool) : DataFrame :=
  mkDataFrame
    (length (filter (fun b : bool => b) mask))
    (map (fun c : string * list cell =>
            (fst c,
             map fst (filter (fun p : cell * bool => snd p)
                             (combine (snd c) mask))))
         (columns df)).

(** df[name] *)
Definition column (df : DataFrame) (name : string) : res (list cell) :=
  match dict_get (columns df) name with
  | Some col => Ok col
  | None => Raise (KeyError name)
  end.

(** col_data.map(col_labels): the label of the code of a cell, missing
    when the cell holds no code of the table. *)
Definition map_labels (col_labels : list (Z * string)) (c : cell) : cell :=
  match num_of_cell c with
  | Some q =>
      match find (fun e : Z * string => Qeq_bool q (inject_Z (fst e))) col_labels with
      | Some e => Str (snd e)
      | None => Null
      end
  | None => Null
  end.

(** has_code(val) of the multiple-choice expansion *)
Definition has_code (code : Z) (val : cell) : res bool :=
  if isna val then Ok false
  else codes <- cell_codes val ;; Ok (existsb (Z.eqb code) codes).

Section Host.

(** pd.crosstab(index, columns, margins=True, margins_name=name,
    dropna=False) and the weighted pivot_table with margins named Total,
    taken from the host. *)
Variable crosstab : list cell -> list cell -> string -> res (Table F).
Variable pivot_table : list cell -> list cell -> list cell -> res (Table F).
Variable py_eval_lambda : string -> option (cell -> res bool).

Variable datamap : DataMap.
Variable filter_engine : FilterEngine.FilterEngine.
Variable class_engine : ClassEngine.ClassEngine.

(** Step 1: the plan-level filter and the filter of the tab. *)
Definition filter_mask (df : DataFrame) (spec : TabDefinition)
  (pdt_filter : option string) : res (list bool) :=
  let mask := repeat true (nrows df) in
  mask <- match given pdt_filter with
          | Some name =>
              m <- FilterEngine.apply_filter filter_engine df name datamap ;;
              Ok (series_and mask m)
          | None => Ok mask
          end ;;
  match given (filter_name spec) with
  | Some name =>
      m <- FilterEngine.apply_filter filter_engine df name datamap ;;
      Ok (series_and mask m)
  | None => Ok mask
  end.

(** Step 5, multiple-choice column: one table per label of the code
    table, of which the first one is kept. *)
Fixpoint expand_codes (col_data : list cell) (col_labels : list (Z * string))
  (col_expanded : list (string * list bool)) : res (list (string * list bool)) :=
  match col_labels with
  | [] => Ok col_expanded
  | (code, label) :: col_labels' =>
      m <- mapM (has_code code) col_data ;;
      expand_codes col_data col_labels' (dict_set col_expanded label m)
  end.

Definition selected_column (code_mask : list bool) : list cell :=
  map (fun b : bool => if b then Str "Selected" else Str "Not selected") code_mask.

Definition multi_counts (row_data col_data : list cell)
  (col_labels : list (Z * string)) : res (Table F) :=
  col_expanded <- expand_codes col_data col_labels [] ;;
  results_by_code <-
    mapM (fun e : string * list bool =>
            ct <- crosstab row_data (selected_column (snd e)) "All" ;;
            Ok (fst e, ct))
         col_expanded ;;
  match results_by_code with
  | [] => Raise IndexError
  | (_, ct) :: _ => Ok ct
  end.

Definition generate_tab (df : DataFrame) (spec : TabDefinition)
  (pdt_filter pdt_weight : option string) : res (TabResult F) :=
  (* Step 1 *)
  mask <- filter_mask df spec pdt_filter ;;
  let filtered_df := select_rows df mask in
  if nrows filtered_df =? 0 then
    Ok (mkTabResult (t_title spec) empty_table empty_table empty_table
                    None false None)
  else
    (* Step 2 *)
    match get_question datamap (row_var spec) with
    | None => Raise (RowVariableNotInDatamap (row_var spec))
    | Some row_question =>
        row_data <- column filtered_df (row_var spec) ;;
        row_data <-
          match given (class_name spec), q_qtype row_question with
          | Some name, NUMERIC =>
              ClassEngine.apply_class py_eval_lambda class_engine row_data name
          | _, _ => Ok row_data
          end ;;
        (* Step 3 *)
        match get_question datamap (col_var spec) with
        | None => Raise (ColumnVariableNotInDatamap (col_var spec))
        | Some col_question =>
            match q_qtype col_question with
            | NUMERIC | OPEN => Raise ColumnNotQualitative
            | col_qtype =>
                col_data <- column filtered_df (col_var spec) ;;
                let col_labels := q_codes col_question in
                (* Step 4 *)
                weights <-
                  match given pdt_weight with
                  | Some w => w' <- column filtered_df w ;; Ok (Some w')
                  | None =>
                      match given (weight_var spec) with
                      | Some w => w' <- column filtered_df w ;; Ok (Some w')
                      | None => Ok None
                      end
                  end ;;
                (* Steps 5 and 6 *)
                counts <-
                  match col_qtype with
                  | QUALI_MULTI => multi_counts row_data col_data col_labels
                  | _ =>
                      match weights with
                      | Some w =>
                          pivot_table row_data (map (map_labels col_labels) col_data) w
                      | None =>
                          crosstab row_data (map (map_labels col_labels) col_data)
                                   "Total"
                      end
                  end ;;
                (* Step 7 *)
                col_pct <- column_percentages counts ;;
                row_pct <- row_percentages counts ;;
                (* Step 8 *)
                let significance :=
                  if 2 <? length (tcolumns counts)
                  then Some (column_z_tests counts (default_alpha A)) else None in
                (* Step 9 *)
                base <- total_row counts ;;
                Ok (mkTabResult (t_title spec) counts row_pct col_pct
                                significance
                                (match weights with Some _ => true | None => false end)
                                (Some base))
            end
        end
    end.

(** *** TabEngine.generate_multiple_tabs *)

(** What stands for a tab that could not be generated. *)
Definition empty_result (spec : TabDefinition) : TabResult F :=
  mkTabResult (t_title spec) empty_table empty_table empty_table None false None.

(** The batch: a failure is printed and replaced by the empty result. *)
Definition generate_multiple_tabs (df : DataFrame) (specs : list TabDefinition)
  (pdt_filter pdt_weight : option string) : list (TabResult F) :=
  map (fun spec =>
         match generate_tab df spec pdt_filter pdt_weight with
         | Ok result => result
         | Raise _ => empty_result spec
         end)
      specs.

End Host.

End Arithmetic.

End TabEngine.

(** * Statements

    Definitions used to state the properties: they follow the words of
    the specification, and are compared below with the functions of the
    sources. *)

Module Statements.
Import PyStr FormulaParser RecodeEngine.

(** The boolean Series of one atomic condition: the schema lookup and the
    call to evaluate_condition that evaluate_formula makes for each
    condition. *)
Definition condition_series (df : DataFrame) (datamap : DataMap)
  (c : condition) : res (list bool) :=
  let '(var_name, operator, value) := c in
  match get_question datamap var_name with
  | None => Raise (VarNotInDatamap var_name)
  | Some question =>
      evaluate_condition df var_name operator value (q_qtype question)
  end.

(** The formula lines of a single- or multiple-choice recode that carry a
    code, in declared order: the code and the boolean Series of the
    condition of the line. *)
Fixpoint line_series (recode : string) (df : DataFrame) (datamap : DataMap)
  (lines : list string) : res (list (Z * list bool)) :=
  match lines with
  | [] => Ok []
  | line :: lines' =>
      if contains_char ":" line then
        let (code_str, condition) := split_once ":" line in
        match py_int (strip code_str) with
        | None => Raise (InvalidLiteral (strip code_str))
        | Some code =>
            match evaluate_formula df (strip condition) datamap with
            | Raise e => Raise (RecodeLineError recode line e)
            | Ok mask =>
                rest <- line_series recode df datamap lines' ;;
                Ok ((code, mask) :: rest)
            end
        end
      else line_series recode df datamap lines'
  end.

(** Row [i] matches an entry when its Series is true there. *)
Definition matches_row {A : Type} (i : nat) (entry : A * list bool) : bool :=
  nth i (snd entry) false.

(** What the first, and the last, matching entry of a list gives row [i]. *)
Definition first_match {A : Type} (entries : list (A * list bool)) (i : nat)
  : option A :=
  option_map fst (find (matches_row i) entries).

Definition last_match {A : Type} (entries : list (A * list bool)) (i : nat)
  : option A :=
  first_match (rev entries) i.

Definition code_cell (code : option Z) : cell :=
  match code with
  | Some z => Int z
  | None => NA
  end.

Definition label_cell (label : option string) : cell :=
  match label with
  | Some l => Str l
  | None => Null
  end.

(** First match wins, as the specification words it for the single-choice
    recode: every row holds the code of the first matching line, and is
    null when no line matches. *)
Definition first_line_wins (b : RecodeBase) (df : DataFrame)
  (datamap : DataMap) : Prop :=
  forall result lines,
    quali_unique_calculate b df datamap = Ok result ->
    line_series (name b) df datamap (formula_lines (formula b)) = Ok lines ->
    forall i, i < nrows df ->
    nth i result NA = code_cell (first_match lines i).

(** The kind of the Question of a recode, by variant, in the words of the
    specification. *)
Definition kind_by_variant (r : Recode) : QuestionType :=
  match r with
  | QualiUniqueRecode _ _ => QUALI_UNIQUE
  | QualiMultipleRecode _ _ => QUALI_MULTI
  | QualiMultiINIRecode _ _ _ => QUALI_MULTI
  | NumericRecode _ => NUMERIC
  | NumberOfAnswersRecode _ => NUMERIC
  | WeightRecode _ _ => NUMERIC
  | CombinationRecode _ => NUMERIC
  end.

(** The bins of a class that have a predicate, in declared order: the
    label and the boolean Series of the cells that are present and
    satisfy the predicate. *)
Fixpoint bin_series (py_eval_lambda : string -> option (cell -> res bool))
  (series : list cell) (class_bins : list (string * string))
  : res (list (string * list bool)) :=
  match class_bins with
  | [] => Ok []
  | (formula, label) :: class_bins' =>
      func <- parse_class_formula py_eval_lambda formula ;;
      match func with
      | None => bin_series py_eval_lambda series class_bins'
      | Some func =>
          match bin_matches func series with
          | Raise e => Raise (ClassBinError label formula e)
          | Ok matches =>
              rest <- bin_series py_eval_lambda series class_bins' ;;
              Ok ((label, matches) :: rest)
          end
      end
  end.

(** First match wins, as the specification words it for a registered
    class: every cell holds the label of the first bin that matches it,
    and is null when no bin matches. *)
Definition first_bin_wins (py_eval_lambda : string -> option (cell -> res bool))
  (ce : ClassEngine.ClassEngine) (series : list cell) (class_name : string)
  : Prop :=
  forall class_obj result bins,
    ClassEngine.get_class ce class_name = Some class_obj ->
    ClassEngine.apply_class py_eval_lambda ce series class_name = Ok result ->
    bin_series py_eval_lambda series (c_bins class_obj) = Ok bins ->
    forall i, i < length series ->
    nth i result Null = label_cell (first_match bins i).

(** The marker of the cell in row [r] and data column [i] of a table of
    significance markers, when the cell holds one. *)
Definition marker (m : TabEngine.Table (option (list Z))) (r i : nat)
  : option (list Z) :=
  match nth_error (TabEngine.values m) r with
  | Some row =>
      match nth_error row i with
      | Some (Some letters) => Some letters
      | _ => None
      end
  | None => None
  end.

(** The letter of data column [j]: chr(65 + j), as a code point. *)
Definition letter (j : nat) : Z := (65 + Z.of_nat j)%Z.

(** The cell in row [r] and column [i] carries the letter of column [j]. *)
Definition carries (m : TabEngine.Table (option (list Z))) (r i j : nat) : Prop :=
  exists letters, marker m r i = Some letters /\ In (letter j) letters.

(** The rows of a table other than the Total row. *)
Definition body {F : Type} (t : TabEngine.Table F) : list (list F) :=
  TabEngine.without_total (TabEngine.index t) (TabEngine.values t).

Definition total (l : list Q) : Q := fold_right Qplus 0%Q l.

(** The sum of column [j] over the given rows. *)
Definition column_sum (rows : list (list Q)) (j : nat) : Q :=
  total (map (fun row => nth j row 0%Q) rows).








(** A condition as parse_variable_condition builds it: a name that is not
    empty and holds no double quote, one of the ten operators, and a list
    of codes, not empty, exactly for the multiple-choice operators. *)
Definition well_shaped (c : condition) : Prop :=
  let '(var_name, operator, value) := c in
  var_name <> EmptyString
  /\ contains_char dquote var_name = false
  /\ In operator operators
  /\ match value with
     | VList l => is_multi_operator operator = true /\ l <> []
     | _ => is_multi_operator operator = false
     end.


(** The pairs of a weight recode, in declared order: the weight and the
    boolean Series of the condition. *)
Fixpoint weight_series (df : DataFrame) (datamap : DataMap)
  (weights : list (string * Q)) : res (list (Q * list bool)) :=
  match weights with
  | [] => Ok []
  | (condition, weight) :: weights' =>
      match evaluate_formula df condition datamap with
      | Raise e => Raise (WeightConditionError condition e)
      | Ok mask =>
          rest <- weight_series df datamap weights' ;;
          Ok ((weight, mask) :: rest)
      end
  end.

(** The cell of a multiple-choice column that holds the given codes, in
    the given order: null for no code, the codes joined by commas
    otherwise. *)
Definition codes_cell (codes : list Z) : cell :=
  match codes with
  | [] => Null
  | _ => Str (String.concat "," (map RecodeEngine.str_of_Z codes))
  end.



(** The rule of combination as the specification words it: every step is
    OR when the text of the formula holds the token or anywhere, AND
    otherwise.  The token is read here as the two letters, in lower case,
    wherever they stand. *)
Definition token_or_decides (df : DataFrame) (formula : string)
  (datamap : DataMap) : Prop :=
  forall c conditions m masks mask,
    parse_variable_condition formula = Ok (c :: conditions) ->
    condition_series df datamap c = Ok m ->
    mapM (condition_series df datamap) conditions = Ok masks ->
    evaluate_formula df formula datamap = Ok mask ->
    mask = fold_left (if contains "or" formula then series_or else series_and)
                     masks m.

(** A datamap as add_question builds it: every Question is filed under
    its own name, no name is filed twice, and no code table holds a code
    twice. *)
Definition consistent (dm : DataMap) : Prop :=
  NoDup (map fst (questions dm))
  /\ forall k q, In (k, q) (questions dm) ->
       q_name q = k /\ NoDup (map fst (q_codes q)).

End Statements.

(** * Examples *)

Module Examples.
Import PyStr FormulaParser.

Definition S9_question : Question :=
  mkQuestion "S9" QUALI_UNIQUE "Question 9" [(1%Z, "A"); (2%Z, "B"); (3%Z, "C")].

Definition Age_question : Question := mkQuestion "Age" NUMERIC "Age" [].

Definition survey_schema : DataMap :=
  add_question (add_question (mkDataMap []) S9_question) Age_question.

(** Two respondents; the second did not answer S9. *)
Definition survey_with_missing : DataFrame :=
  mkDataFrame 2 [("S9", [Int 1; Null]); ("Age", [Int 25; Int 35])].

(** Age = [25, 35], the data of the recode scenario of the specification. *)
Definition ages : DataFrame :=
  mkDataFrame 2 [("S9", [Int 1; Int 2]); ("Age", [Int 25; Int 35])].

(** Two lines that both match a respondent aged 35. *)
Definition overlapping_formula : string :=
  dq "1: ['Age'>=18]" ++ String newline (dq "2: ['Age'>=30]").

Definition overlapping_recode : RecodeEngine.RecodeBase :=
  RecodeEngine.mkRecodeBase "AgeGroup" "Age groups" overlapping_formula false.

(** The same two lines between lines that have no separator. *)
Definition commented_formula : string :=
  "Age groups" ++ String newline
    (dq "1: ['Age'>=18]" ++ String newline
       ("from thirty on" ++ String newline (dq "2: ['Age'>=30]"))).

Definition commented_recode : RecodeEngine.RecodeBase :=
  RecodeEngine.mkRecodeBase "AgeGroup" "Age groups" commented_formula false.

(** The formula of the second example of the class docstring, which has
    no code before its conditions. *)
Definition uncoded_formula : string :=
  dq "['Q23A'C1]" ++ String newline (dq "['Q23A'C2,3]").

Definition uncoded_recode : RecodeEngine.RecodeBase :=
  RecodeEngine.mkRecodeBase "Brand" "Brands" uncoded_formula false.

Definition brands : DataFrame :=
  mkDataFrame 3 [("Q23A", [Str "1,2"; Null; Str "3"])].

Definition brands_schema : DataMap :=
  add_question (mkDataMap [])
    (mkQuestion "Q23A" QUALI_MULTI "Brands known"
                [(1%Z, "Brand1"); (2%Z, "Brand2"); (3%Z, "Brand3")]).

(** A stand-in for pd.eval in the examples, none of which has a numeric
    recode. *)
Definition no_eval (formula : string) (df : DataFrame) : res (list cell) :=
  Raise (HostError "pd.eval").

Definition count_recode : RecodeEngine.Recode :=
  RecodeEngine.NumberOfAnswersRecode
    (RecodeEngine.mkRecodeBase "Q23A_Count" "Number of brands" (dq "['Q23A']") false).

(** A recode whose source variable is not in the data. *)
Definition broken_recode : RecodeEngine.Recode :=
  RecodeEngine.NumberOfAnswersRecode
    (RecodeEngine.mkRecodeBase "Q99_Count" "Number of answers" (dq "['Q99']") false).

(** A recode that takes the name of the column it reads. *)
Definition renaming_recode : RecodeEngine.Recode :=
  RecodeEngine.NumberOfAnswersRecode
    (RecodeEngine.mkRecodeBase "Q23A" "Number of brands" (dq "['Q23A']") false).

(** An evaluator for the class formulas of the examples of the sources:
    comparisons of x with an integer literal, joined by and.  On these
    texts it gives what Python's eval of the lambda gives. *)
Fixpoint split_and (s : string) (skip : nat) : list string :=
  match s with
  | EmptyString => [EmptyString]
  | String c s' =>
      match skip with
      | S k => split_and s' k
      | O =>
          if String.prefix "and" s then EmptyString :: split_and s' 2
          else match split_and s' 0 with
               | [] => [String c EmptyString]
               | w :: ws => String c w :: ws
               end
      end
  end.

Definition is_literal (s : string) : bool :=
  all_digits s && negb (is_empty s)
  && negb (String.prefix "0" s && (1 <? String.length s)).

Fixpoint parse_operator (ops : list (string * comparison_op)) (s : string)
  : option (comparison_op * Z) :=
  match ops with
  | [] => None
  | (text, op) :: ops' =>
      match strip_prefix text s with
      | Some r =>
          if is_literal (strip r) then Some (op, digits_value (strip r) 0%Z)
          else parse_operator ops' s
      | None => parse_operator ops' s
      end
  end.

Definition parse_comparison (s : string) : option (comparison_op * Z) :=
  match strip s with
  | String "x" r =>
      parse_operator [(">=", OpGe); ("<=", OpLe); ("==", OpEq); ("!=", OpNe);
                      (">", OpGt); ("<", OpLt)] (lstrip r)
  | _ => None
  end.

Fixpoint all_hold (tests : list (comparison_op * Z)) (x : cell) : res bool :=
  match tests with
  | [] => Ok true
  | (op, z) :: tests' =>
      b <- compare_cell op x (VInt z) ;;
      if b then all_hold tests' x else Ok false
  end.

Fixpoint sequence {A : Type} (l : list (option A)) : option (list A) :=
  match l with
  | [] => Some []
  | None :: _ => None
  | Some a :: l' => option_map (cons a) (sequence l')
  end.

Definition example_eval (safe_formula : string) : option (cell -> res bool) :=
  option_map all_hold (sequence (map parse_comparison (split_and safe_formula 0))).

(** Two bins that both hold of the number 15. *)
Definition overlapping_class : Class :=
  mkClass "Size" [("X>=0", "low"); ("X>=10", "high")] false.

Definition size_classes : ClassEngine.ClassEngine :=
  ClassEngine.add_class (ClassEngine.mkClassEngine []) overlapping_class.

Definition sizes : list cell := [Int 5; Int 15; Null].

(** A filter whose formula has no atomic condition. *)
Definition conditionless_filter : Filter := mkFilter "Broken" "S9 is 1" false.

Definition broken_filters : FilterEngine.FilterEngine :=
  FilterEngine.add_filter (FilterEngine.mkFilterEngine []) conditionless_filter.

(** An approximation of the normal distribution function for the
    examples (Abramowitz and Stegun 26.2.18, for a non-negative argument):
    1 - (1 + c1 z + c2 z^2 + c3 z^3 + c4 z^4)^-4 / 2. *)
Definition approx_norm_cdf (z : float) : float :=
  let t := (1 + z * (0x1.9328372617775p-3
                + z * (0x1.d7d5c3160a5bap-4
                + z * (0x1.68b5cbff47736p-12
                + z * 0x1.3fee2c9d5a5ecp-6))))%float in
  let t2 := (t * t)%float in
  (1 - 1 / (2 * (t2 * t2)))%float.

(** Counts of one answer and its complement in two groups of 100, with
    the margins. *)
Definition two_groups : TabEngine.Table float :=
  TabEngine.mkTable
    [Int 1; Int 2; Str "Total"]
    [Str "France"; Str "UK"; Str "Total"]
    [[80; 20; 100]; [20; 80; 100]; [100; 100; 200]]%float.

(** The contingency table of the scenario of the specification. *)
Definition scenario_counts : TabEngine.Table Q :=
  TabEngine.mkTable
    [Str "A"; Str "B"; Str "Total"]
    [Str "col1"; Str "col2"; Str "Total"]
    [[10; 5; 15]; [5; 10; 15]; [15; 15; 30]]%Q.

(** A host that tabulates with margins named Total, and knows the table
    of the scenario only. *)
Definition scenario_crosstab (index columns : list cell) (margins_name : string)
  : res (TabEngine.Table Q) :=
  if String.eqb margins_name "Total" then Ok scenario_counts
  else Raise (HostError "crosstab").

Definition no_pivot_table (index columns weights : list cell)
  : res (TabEngine.Table Q) :=
  Raise (HostError "pivot_table").

Definition no_function (x : Q) : Q := 0%Q.

Definition scenario_schema : DataMap :=
  add_question
    (add_question (mkDataMap [])
       (mkQuestion "Answer" QUALI_UNIQUE "Answer" [(1%Z, "A"); (2%Z, "B")]))
    (mkQuestion "Group" QUALI_UNIQUE "Group" [(1%Z, "col1"); (2%Z, "col2")]).

Definition scenario_data : DataFrame :=
  mkDataFrame 2 [("Answer", [Int 1; Int 2]); ("Group", [Int 1; Int 2])].

Definition scenario_tab : TabDefinition :=
  mkTabDefinition "Answer by group" "Answer" "Group" None None None None
                  EmptyString "Both".

(** pd.crosstab(index, columns, margins=True, margins_name=name,
    dropna=False) on the codes and labels of the examples: the labels in
    ascending order, a missing one last; the count of every pair of
    labels; the margins, which pandas takes from a groupby that passes
    over a missing key, so that the Total of a row or of a column whose
    label is missing is itself missing ([missing]), while the respondents
    of such a row are counted in the Total row. *)
Section Tabulate.
Context {F : Type}.
Variable A : TabEngine.Arith F.
Variable missing : F.

Definition same_label (a b : cell) : bool :=
  if isna a then isna b else RecodeEngine.cell_eqb a b.

Definition labels (l : list cell) : list cell :=
  fold_right RecodeEngine.insert_cell [] (RecodeEngine.unique l [])
  ++ (if existsb isna l then [Null] else []).

Definition count_of (n : nat) : F :=
  Nat.iter n (TabEngine.add A (TabEngine.one A)) (TabEngine.zero A).

Definition tabulate (index columns : list cell) (margins_name : string)
  : res (TabEngine.Table F) :=
  let pairs := combine index columns in
  let count f := count_of (length (filter f pairs)) in
  let rows := labels index in
  let cols := labels columns in
  Ok (TabEngine.mkTable
        (rows ++ [Str margins_name]) (cols ++ [Str margins_name])
        (map (fun r =>
                map (fun c =>
                       count (fun p : cell * cell =>
                                same_label (fst p) r && same_label (snd p) c))
                    cols
                ++ [if isna r then missing
                    else count (fun p : cell * cell => same_label (fst p) r)])
             rows
         ++ [map (fun c =>
                    if isna c then missing
                    else count (fun p : cell * cell => same_label (snd p) c))
                 cols
             ++ [count_of (length pairs)]])).

Definition no_weights (index columns weights : list cell)
  : res (TabEngine.Table F) :=
  Raise (HostError "pivot_table").

End Tabulate.

(** Six respondents in the proportions of the scenario of the
    specification: of the three of each group, two gave the answer that
    one of the other group gave. *)
Definition six_answers : DataFrame :=
  mkDataFrame 6 [("Answer", [Int 1; Int 1; Int 1; Int 2; Int 2; Int 2]);
                 ("Group", [Int 1; Int 1; Int 2; Int 1; Int 2; Int 2])].

Definition scenario_result : res (TabEngine.TabResult Q) :=
  TabEngine.generate_tab (TabEngine.Q_arith no_function no_function)
    (tabulate (TabEngine.Q_arith no_function no_function) 0%Q)
    (no_weights (F := Q)) example_eval scenario_schema
    (FilterEngine.mkFilterEngine []) (ClassEngine.mkClassEngine [])
    six_answers scenario_tab None None.


(** A filter that keeps no respondent of the scenario, and a tab under it
    whose row variable is unknown and whose column variable is a
    multiple-choice one. *)
Definition nobody_filters : FilterEngine.FilterEngine :=
  FilterEngine.add_filter (FilterEngine.mkFilterEngine [])
    (mkFilter "Nobody" (dq "['Answer'=9]") false).

Definition brands_by_answer_schema : DataMap :=
  add_question scenario_schema
    (mkQuestion "Brands" QUALI_MULTI "Brands known"
                [(1%Z, "Brand1"); (2%Z, "Brand2")]).

Definition nobody_tab : TabDefinition :=
  mkTabDefinition "Nobody" "Unknown" "Brands" None (Some "Nobody") None None
                  EmptyString "Both".

End Examples.

(** * Properties *)

(** ** Results and lists *)

Lemma mapM_nth_error {A B : Type} (f : A -> res B) (l : list A) (m : list B) :
  mapM f l = Ok m ->
  forall i a, nth_error l i = Some a ->
  exists b, f a = Ok b /\ nth_error m i = Some b.
Proof.
  revert m. induction l as [|x l IH]; intros m Hm i a Hi.
  - destruct i; discriminate.
  - simpl in Hm. destruct (f x) as [b|e] eqn:Hx; simpl in Hm; [|discriminate].
    destruct (mapM f l) as [bs|e] eqn:Hl; simpl in Hm; [|discriminate].
    injection Hm as <-. destruct i as [|i]; simpl in Hi.
    + injection Hi as <-. exists b. split; [assumption | reflexivity].
    + simpl. apply (IH bs eq_refl i a Hi).
Qed.

Lemma mapM_length {A B : Type} (f : A -> res B) (l : list A) (m : list B) :
  mapM f l = Ok m -> length m = length l.
Proof.
  revert m. induction l as [|x l IH]; intros m Hm; simpl in Hm.
  - injection Hm as <-. reflexivity.
  - destruct (f x) as [b|e]; simpl in Hm; [|discriminate].
    destruct (mapM f l) as [bs|e]; simpl in Hm; [|discriminate].
    injection Hm as <-. simpl. f_equal. apply IH. reflexivity.
Qed.

(** ** The condition language *)

Module FormulaParserProps.
Import PyStr FormulaParser Statements Examples.

Lemma compare_cell_missing (op : comparison_op) (c : cell) (v : value) (b : bool) :
  isna c = true -> op <> OpNe -> compare_cell op c v = Ok b -> b = false.
Proof.
  intros Hna Hop H.
  destruct c; try discriminate Hna; destruct v; simpl in H;
    try discriminate H; injection H as <-;
    destruct op; try reflexivity; contradiction.
Qed.

Lemma contains_check_missing (operator : string) (items : list value) (c : cell) :
  isna c = true -> contains_check operator items c = Ok false.
Proof.
  intros Hna. unfold contains_check. rewrite Hna. reflexivity.
Qed.

(** Every operator but != is false on a missing cell: the part of the
    missing-value rule that the code keeps. *)
Lemma missing_cell_is_false (df : DataFrame) (var_name operator : string)
  (v : value) (qt : QuestionType) (col : list cell) (mask : list bool)
  (i : nat) (c : cell) :
  operator <> "!=" ->
  dict_get (columns df) var_name = Some col ->
  nth_error col i = Some c -> isna c = true ->
  evaluate_condition df var_name operator v qt = Ok mask ->
  nth_error mask i = Some false.
Proof.
  intros Hop Hcol Hi Hna H. unfold evaluate_condition in H. rewrite Hcol in H.
  destruct (is_multi_operator operator).
  - destruct (mapM_nth_error _ _ _ H i c Hi) as [b [Hb Hm]].
    rewrite (contains_check_missing _ _ _ Hna) in Hb. injection Hb as <-.
    exact Hm.
  - destruct (scalar_operator operator) as [op|] eqn:Hs; [|discriminate].
    destruct (mapM_nth_error _ _ _ H i c Hi) as [b [Hb Hm]].
    assert (Hne : op <> OpNe).
    { intros ->. apply Hop. unfold scalar_operator in Hs.
      destruct (String.eqb operator "=") eqn:E1; [discriminate|].
      destruct (String.eqb operator "!=") eqn:E2.
      - apply String.eqb_eq. exact E2.
      - destruct (String.eqb operator ">"); [discriminate|].
        destruct (String.eqb operator "<"); [discriminate|].
        destruct (String.eqb operator ">="); [discriminate|].
        destruct (String.eqb operator "<="); discriminate. }
    rewrite (compare_cell_missing op c v b Hna Hne Hb) in Hm. exact Hm.
Qed.

(** C3.  The condition S9 != 1 on a respondent whose S9 is missing is
    true: the row of the missing cell is selected, where the missing-value
    rule asks for false.  The multiple-choice operators test pd.isna and
    answer false; the branch of != has no such test. *)
Theorem ne_on_missing_cell_is_true :
  evaluate_condition survey_with_missing "S9" "!=" (VInt 1) QUALI_UNIQUE
  = Ok [false; true]
  /\ evaluate_formula survey_with_missing (dq "['S9'!=1]") survey_schema
     = Ok [false; true]
  /\ evaluate_condition survey_with_missing "S9" "NC" (VList [1%Z]) QUALI_UNIQUE
     = Ok [false; false].
Proof. repeat split; vm_compute; reflexivity. Qed.

(** The scenarios of the specification: the filter S9 = 1 over S9 =
    [1, 2, 1, 3, 1, 2], and the count of answers of a multiple-choice cell. *)
Example young_filter :
  evaluate_formula
    (mkDataFrame 6 [("S9", [Int 1; Int 2; Int 1; Int 3; Int 1; Int 2])])
    (dq "['S9'=1]") survey_schema
  = Ok [true; false; true; false; true; false].
Proof. vm_compute. reflexivity. Qed.

Example number_of_answers :
  map RecodeEngine.count_answers [Str "1,2,4"; Null] = [Int 3; Int 0].
Proof. vm_compute. reflexivity. Qed.

(** *** AND and OR *)

Lemma combine_conditions_fold (df : DataFrame) (datamap : DataMap)
  (formula_lower : string) (rest : list condition) :
  forall (result : list bool) (masks : list (list bool)),
  mapM (condition_series df datamap) rest = Ok masks ->
  combine_conditions df datamap formula_lower rest result
  = Ok (fold_left (if contains " or " formula_lower
                   then series_or else series_and) masks result).
Proof.
  induction rest as [|[[var_name operator] v] rest IH]; intros result masks H.
  - simpl in H. injection H as <-. reflexivity.
  - simpl in H. simpl.
    destruct (get_question datamap var_name) as [question|]; [|discriminate].
    destruct (evaluate_condition df var_name operator v (q_qtype question))
      as [cond|e]; simpl in H; [|discriminate].
    destruct (mapM (condition_series df datamap) rest) as [ms|e] eqn:Hr;
      simpl in H; [|discriminate].
    injection H as <-. simpl.
    destruct (contains " or " formula_lower); simpl; apply IH; reflexivity.
Qed.

End FormulaParserProps.

(** ** Frames, masks and first or last match *)

Module SeriesProps.
Import PyStr FormulaParser Statements.

Lemma dict_get_In {V : Type} (d : list (string * V)) (k : string) (v : V) :
  dict_get d k = Some v -> In (k, v) d.
Proof.
  induction d as [|[k' v'] d IH]; simpl; [discriminate|].
  destruct (String.eqb k k') eqn:E.
  - intros [= <-]. apply String.eqb_eq in E. subst. left. reflexivity.
  - intros H. right. apply IH. exact H.
Qed.

Lemma series_or_length (a b : list bool) (n : nat) :
  length a = n -> length b = n -> length (series_or a b) = n.
Proof.
  intros Ha Hb. unfold series_or.
  rewrite length_map, length_combine, Ha, Hb. apply Nat.min_id.
Qed.

Lemma series_and_length (a b : list bool) (n : nat) :
  length a = n -> length b = n -> length (series_and a b) = n.
Proof.
  intros Ha Hb. unfold series_and.
  rewrite length_map, length_combine, Ha, Hb. apply Nat.min_id.
Qed.

Lemma loc_assign_length {A : Type} (result : list A) (mask : list bool)
  (v : A) (n : nat) :
  length result = n -> length mask = n -> length (loc_assign result mask v) = n.
Proof.
  intros Hr Hm. unfold loc_assign.
  rewrite length_map, length_combine, Hr, Hm. apply Nat.min_id.
Qed.

Lemma loc_assign_nth {A : Type} (result : list A) (mask : list bool)
  (v d : A) (i : nat) :
  length result = length mask ->
  nth i (loc_assign result mask v) d
  = if nth i mask false then v else nth i result d.
Proof.
  intros Hlen. unfold loc_assign.
  change d with ((fun p : A * bool => if snd p then v else fst p) (d, false)) at 1.
  rewrite map_nth, combine_nth by exact Hlen. reflexivity.
Qed.

Lemma evaluate_condition_length (df : DataFrame) (var_name operator : string)
  (v : value) (qt : QuestionType) (mask : list bool) :
  well_formed df ->
  evaluate_condition df var_name operator v qt = Ok mask ->
  length mask = nrows df.
Proof.
  intros Hwf H. unfold evaluate_condition in H.
  destruct (dict_get (columns df) var_name) as [col|] eqn:Hcol; [|discriminate].
  apply dict_get_In in Hcol. apply Hwf in Hcol. rewrite <- Hcol.
  destruct (is_multi_operator operator).
  - apply (mapM_length _ _ _ H).
  - destruct (scalar_operator operator); [|discriminate].
    apply (mapM_length _ _ _ H).
Qed.

Lemma combine_conditions_length (df : DataFrame) (datamap : DataMap)
  (formula_lower : string) (rest : list condition) :
  well_formed df ->
  forall result mask,
  length result = nrows df ->
  combine_conditions df datamap formula_lower rest result = Ok mask ->
  length mask = nrows df.
Proof.
  intros Hwf.
  induction rest as [|[[var_name operator] v] rest IH]; intros result mask Hr H;
    simpl in H.
  - injection H as <-. exact Hr.
  - destruct (get_question datamap var_name) as [question|]; [|discriminate].
    destruct (evaluate_condition df var_name operator v (q_qtype question))
      as [cond|e] eqn:Hc; simpl in H; [|discriminate].
    apply (evaluate_condition_length _ _ _ _ _ _ Hwf) in Hc.
    destruct (contains " or " formula_lower).
    + apply (IH _ _ (series_or_length _ _ _ Hr Hc) H).
    + apply (IH _ _ (series_and_length _ _ _ Hr Hc) H).
Qed.

Lemma evaluate_formula_length (df : DataFrame) (formula : string)
  (datamap : DataMap) (mask : list bool) :
  well_formed df ->
  evaluate_formula df formula datamap = Ok mask ->
  length mask = nrows df.
Proof.
  intros Hwf H. unfold evaluate_formula in H.
  destruct (parse_variable_condition formula) as [conds|e]; simpl in H;
    [|discriminate].
  destruct conds as [|[[var_name operator] v] rest]; [discriminate|].
  destruct (get_question datamap var_name) as [question|]; [|discriminate].
  destruct (evaluate_condition df var_name operator v (q_qtype question))
    as [result|e] eqn:Hc; cbn [bind] in H; [|discriminate].
  apply (evaluate_condition_length _ _ _ _ _ _ Hwf) in Hc.
  match type of H with (if ?c then _ else _) = _ => destruct c end.
  - apply (combine_conditions_length _ _ _ _ Hwf _ _ Hc H).
  - injection H as <-. exact Hc.
Qed.

Lemma first_match_app {A : Type} (l1 l2 : list (A * list bool)) (i : nat) :
  first_match (l1 ++ l2) i
  = match first_match l1 i with
    | Some a => Some a
    | None => first_match l2 i
    end.
Proof.
  unfold first_match. induction l1 as [|e l1 IH]; simpl; [reflexivity|].
  destruct (matches_row i e); [reflexivity | exact IH].
Qed.

Lemma last_match_cons {A : Type} (e : A * list bool) (l : list (A * list bool))
  (i : nat) :
  last_match (e :: l) i
  = match last_match l i with
    | Some a => Some a
    | None => if matches_row i e then Some (fst e) else None
    end.
Proof.
  unfold last_match. simpl rev. rewrite first_match_app.
  destruct (first_match (rev l) i); [reflexivity|].
  unfold first_match. simpl. destruct (matches_row i e); reflexivity.
Qed.

End SeriesProps.

(** ** The recode engine *)

Module RecodeEngineProps.
Import PyStr FormulaParser RecodeEngine Statements Examples SeriesProps.

(** The loop of QualiUniqueRecode.calculate against the coded lines: a row
    ends with the code of the last line that matches it, and keeps its
    cell when no line does. *)
Lemma quali_unique_loop_last (recode : string) (df : DataFrame)
  (datamap : DataMap) (lines : list string) :
  well_formed df ->
  forall result0 result,
  length result0 = nrows df ->
  quali_unique_loop recode df datamap lines result0 = Ok result ->
  exists entries,
    line_series recode df datamap lines = Ok entries
    /\ length result = nrows df
    /\ forall i d, nth i result d
         = match last_match entries i with
           | Some z => Int z
           | None => nth i result0 d
           end.
Proof.
  intros Hwf. induction lines as [|line lines IH]; intros result0 result H0 H;
    simpl in H; simpl line_series.
  - injection H as <-. exists []. repeat split; try assumption.
  - destruct (contains_char ":" line).
    + destruct (split_once ":" line) as [code_str condition].
      destruct (py_int (strip code_str)) as [code|]; [|discriminate].
      destruct (evaluate_formula df (strip condition) datamap) as [mask|e] eqn:He;
        [|discriminate].
      pose proof (evaluate_formula_length _ _ _ _ Hwf He) as Hm.
      destruct (IH _ _ (loc_assign_length _ _ _ _ H0 Hm) H)
        as [entries [Hs [Hlen Hnth]]].
      exists ((code, mask) :: entries). rewrite Hs. cbn [bind].
      repeat split; try assumption.
      intros i d. rewrite Hnth, last_match_cons.
      destruct (last_match entries i); [reflexivity|].
      rewrite loc_assign_nth by congruence.
      unfold matches_row. simpl snd. simpl fst.
      destruct (nth i mask false); reflexivity.
    + apply (IH _ _ H0 H).
Qed.

(** C1, as the code has it.  On a frame with one cell per row and column,
    the result of QualiUniqueRecode.calculate has one cell per row; the
    cell of a row is the integer code of the last formula line, in
    declared order, whose condition matches the row, and is null when no
    line matches it. *)
Theorem quali_unique_last_line_wins (b : RecodeBase) (df : DataFrame)
  (datamap : DataMap) (result : list cell) :
  well_formed df ->
  quali_unique_calculate b df datamap = Ok result ->
  exists lines,
    line_series (name b) df datamap (formula_lines (formula b)) = Ok lines
    /\ length result = nrows df
    /\ forall i, i < nrows df ->
       nth i result NA = code_cell (last_match lines i).
Proof.
  intros Hwf H. unfold quali_unique_calculate in H.
  destruct (quali_unique_loop_last _ _ _ _ Hwf _ _ (repeat_length NA (nrows df)) H)
    as [entries [Hs [Hlen Hnth]]].
  exists entries. repeat split; try assumption.
  intros i _. rewrite Hnth. unfold code_cell.
  destruct (last_match entries i); [reflexivity | apply nth_repeat].
Qed.

Lemma ages_well_formed : well_formed ages.
Proof.
  intros n col [H|[H|[]]]; injection H as <- <-; reflexivity.
Qed.

Lemma quali_unique_last_line_wins_witness :
  exists lines,
    line_series "AgeGroup" ages survey_schema (formula_lines overlapping_formula)
    = Ok lines
    /\ length [Int 1; Int 2] = 2
    /\ forall i, i < 2 -> nth i [Int 1; Int 2] NA = code_cell (last_match lines i).
Proof.
  apply (quali_unique_last_line_wins overlapping_recode ages survey_schema
           [Int 1; Int 2] ages_well_formed).
  vm_compute. reflexivity.
Defined.

(** C1, as the specification words it, fails: the respondent aged 35
    matches both lines of the formula and holds code 2, the code of the
    second line, not code 1. *)
Lemma first_line_does_not_win :
  ~ first_line_wins overlapping_recode ages survey_schema.
Proof.
  intros H.
  specialize (H [Int 1; Int 2] [(1%Z, [true; true]); (2%Z, [false; true])]
                eq_refl eq_refl 1 (Nat.lt_succ_diag_r 1)).
  vm_compute in H. discriminate H.
Qed.

(** The recode scenario of the specification: ages 25 and 35 fall in the
    groups 1 and 2. *)
Example age_groups :
  quali_unique_calculate
    (mkRecodeBase "AgeGroup" "Age groups"
       (dq "1: ['Age'>=18] and ['Age'<30]" ++ String newline (dq "2: ['Age'>=30]"))
       false)
    ages survey_schema
  = Ok [Int 1; Int 2].
Proof. vm_compute. reflexivity. Qed.

(** *** Lines without a separator *)

Lemma quali_unique_loop_skips (recode : string) (df : DataFrame)
  (datamap : DataMap) (lines : list string) (result : list cell) :
  quali_unique_loop recode df datamap lines result
  = quali_unique_loop recode df datamap
      (filter (contains_char ":") lines) result.
Proof.
  revert result. induction lines as [|line lines IH]; intros result;
    [reflexivity|].
  simpl. destruct (contains_char ":" line) eqn:Hc.
  - simpl. rewrite Hc. destruct (split_once ":" line) as [code_str condition].
    destruct (py_int (strip code_str)); [|reflexivity].
    destruct (evaluate_formula df (strip condition) datamap); [|reflexivity].
    apply IH.
  - apply IH.
Qed.

Lemma quali_multiple_loop_skips (recode : string) (df : DataFrame)
  (datamap : DataMap) (lines : list string) (selections : list (list Z)) :
  quali_multiple_loop recode df datamap lines selections
  = quali_multiple_loop recode df datamap
      (filter (contains_char ":") lines) selections.
Proof.
  revert selections. induction lines as [|line lines IH]; intros selections;
    [reflexivity|].
  simpl. destruct (contains_char ":" line) eqn:Hc.
  - simpl. rewrite Hc. destruct (split_once ":" line) as [code_str condition].
    destruct (py_int (strip code_str)); [|reflexivity].
    destruct (evaluate_formula df (strip condition) datamap); [|reflexivity].
    apply IH.
  - apply IH.
Qed.

Lemma filter_none {A : Type} (f : A -> bool) (l : list A) :
  (forall a, In a l -> f a = false) -> filter f l = [].
Proof.
  induction l as [|a l IH]; intros H; [reflexivity|].
  simpl. rewrite (H a (or_introl eq_refl)). apply IH.
  intros a' Ha'. apply H. right. exact Ha'.
Qed.

Lemma map_repeat {A B : Type} (f : A -> B) (a : A) (n : nat) :
  map f (repeat a n) = repeat (f a) n.
Proof. induction n as [|n IH]; simpl; [reflexivity | f_equal; exact IH]. Qed.

(** C10.  In a formula of a single-choice or of a multiple-choice recode,
    a line without a separator counts for nothing, wherever it stands:
    two formulas of recodes of the same name with the same lines that have
    a separator, in the same order, give the same outcome, be it a column
    or an exception.  A recode none of whose lines has a separator
    therefore returns a column of nulls, one per row, and raises nothing:
    the single-choice recode a column of missing integers, the
    multiple-choice recode a column of None. *)
Theorem lines_without_separator_are_skipped (b : RecodeBase) (df : DataFrame)
  (datamap : DataMap) :
  (forall b',
     name b' = name b ->
     filter (contains_char ":") (formula_lines (formula b'))
     = filter (contains_char ":") (formula_lines (formula b)) ->
     quali_unique_calculate b' df datamap = quali_unique_calculate b df datamap
     /\ quali_multiple_calculate b' df datamap
        = quali_multiple_calculate b df datamap)
  /\ ((forall line, In line (formula_lines (formula b)) ->
                    contains_char ":" line = false) ->
      quali_unique_calculate b df datamap = Ok (repeat NA (nrows df))
      /\ quali_multiple_calculate b df datamap = Ok (repeat Null (nrows df))).
Proof.
  split.
  - intros b' Hname Hlines. split.
    + unfold quali_unique_calculate.
      rewrite (quali_unique_loop_skips _ _ _ (formula_lines (formula b'))).
      rewrite (quali_unique_loop_skips _ _ _ (formula_lines (formula b))).
      rewrite Hname, Hlines. reflexivity.
    + unfold quali_multiple_calculate.
      rewrite (quali_multiple_loop_skips _ _ _ (formula_lines (formula b'))).
      rewrite (quali_multiple_loop_skips _ _ _ (formula_lines (formula b))).
      rewrite Hname, Hlines. reflexivity.
  - intros H. split.
    + unfold quali_unique_calculate.
      rewrite quali_unique_loop_skips, (filter_none _ _ H). reflexivity.
    + unfold quali_multiple_calculate.
      rewrite quali_multiple_loop_skips, (filter_none _ _ H). simpl.
      rewrite map_repeat. reflexivity.
Qed.

Lemma lines_without_separator_are_skipped_witness :
  (quali_unique_calculate commented_recode ages survey_schema
   = quali_unique_calculate overlapping_recode ages survey_schema
   /\ quali_multiple_calculate commented_recode ages survey_schema
      = quali_multiple_calculate overlapping_recode ages survey_schema)
  /\ quali_unique_calculate commented_recode ages survey_schema
     = Ok [Int 1; Int 2]
  /\ quali_unique_calculate uncoded_recode brands brands_schema
     = Ok [NA; NA; NA]
  /\ quali_multiple_calculate uncoded_recode brands brands_schema
     = Ok [Null; Null; Null].
Proof.
  split; [|split].
  - apply (proj1 (lines_without_separator_are_skipped overlapping_recode ages
                    survey_schema) commented_recode); vm_compute; reflexivity.
  - vm_compute. reflexivity.
  - apply (proj2 (lines_without_separator_are_skipped uncoded_recode brands
                    brands_schema)).
    intros line [<-|[<-|[]]]; vm_compute; reflexivity.
Defined.

(** *** calculate_all *)

Section CalculateAll.
Variable re_bound : bool.
Variable pd_eval : string -> DataFrame -> res (list cell).

Lemma question_of_name (r : Recode) : q_name (question_of r) = recode_name r.
Proof. destruct r; reflexivity. Qed.

Lemma question_of_kind (r : Recode) : q_qtype (question_of r) = kind_by_variant r.
Proof. destruct r; reflexivity. Qed.

Lemma dict_get_set_same {V : Type} (d : list (string * V)) (k : string) (v : V) :
  dict_get (dict_set d k v) k = Some v.
Proof.
  induction d as [|[k' v'] d IH]; simpl.
  - rewrite String.eqb_refl. reflexivity.
  - destruct (String.eqb k k') eqn:E; simpl; rewrite E; [reflexivity | exact IH].
Qed.

Lemma dict_get_set_other {V : Type} (d : list (string * V)) (k k' : string)
  (v : V) :
  k' <> k -> dict_get (dict_set d k v) k' = dict_get d k'.
Proof.
  intros Hne. induction d as [|[k0 v0] d IH]; simpl.
  - destruct (String.eqb k' k) eqn:E; [|reflexivity].
    apply String.eqb_eq in E. contradiction.
  - destruct (String.eqb k k0) eqn:E; simpl.
    + apply String.eqb_eq in E. subst k0.
      destruct (String.eqb k' k) eqn:E'; [|reflexivity].
      apply String.eqb_eq in E'. contradiction.
    + destruct (String.eqb k' k0); [reflexivity | exact IH].
Qed.

Lemma dict_set_length_new {V : Type} (d : list (string * V)) (k : string) (v : V) :
  dict_get d k = None -> length (dict_set d k v) = S (length d).
Proof.
  induction d as [|[k' v'] d IH]; simpl; [reflexivity|].
  destruct (String.eqb k k'); [discriminate|].
  intros H. simpl. f_equal. apply IH. exact H.
Qed.

(** The datamap after the loop, whatever the outcome, is the datamap
    before it with the Questions of the recodes calculated so far; a
    failure is the failure of the first recode that cannot be calculated
    on the frame built by the recodes before it. *)
Lemma calculate_loop_outcome (recodes : list Recode) :
  forall df datamap outcome datamap',
  calculate_loop re_bound pd_eval recodes df datamap = (outcome, datamap') ->
  match outcome with
  | Ok _ =>
      datamap' = fold_left add_question (map question_of recodes) datamap
  | Raise e =>
      exists done r rest e0 df_k,
        recodes = done ++ r :: rest
        /\ calculate_loop re_bound pd_eval done df datamap = (Ok df_k, datamap')
        /\ calculate re_bound pd_eval r df_k datamap' = Raise e0
        /\ e = RecodeError (recode_name r) e0
        /\ datamap' = fold_left add_question (map question_of done) datamap
  end.
Proof.
  induction recodes as [|r recodes IH]; intros df datamap outcome datamap' H;
    simpl in H.
  - injection H as <- <-. reflexivity.
  - destruct (calculate re_bound pd_eval r df datamap) as [values|e0] eqn:Hc.
    + specialize (IH _ _ _ _ H). destruct outcome as [df'|e].
      * exact IH.
      * destruct IH as [done [r' [rest [e1 [df_k [Hr [Hl [Hf [He Hd]]]]]]]]].
        exists (r :: done), r', rest, e1, df_k. subst recodes.
        repeat split; try assumption. simpl. rewrite Hc. exact Hl.
    + injection H as <- <-. exists [], r, recodes, e0, df. repeat split.
      exact Hc.
Qed.

Lemma get_question_fold_other (qs : list Question) :
  forall datamap n,
  ~ In n (map q_name qs) ->
  get_question (fold_left add_question qs datamap) n = get_question datamap n.
Proof.
  induction qs as [|q qs IH]; intros datamap n Hn; [reflexivity|].
  simpl. rewrite IH by (intros Hin; apply Hn; right; exact Hin).
  unfold get_question, add_question. simpl.
  apply dict_get_set_other. intros ->. apply Hn. left. reflexivity.
Qed.

Lemma get_question_fold_unique (qs : list Question) :
  forall datamap q,
  NoDup (map q_name qs) -> In q qs ->
  get_question (fold_left add_question qs datamap) (q_name q) = Some q.
Proof.
  induction qs as [|q0 qs IH]; intros datamap q Hnd Hin; [contradiction|].
  simpl in Hnd. inversion Hnd as [|? ? Hnotin Hnd']; subst.
  destruct Hin as [->|Hin].
  - simpl. rewrite get_question_fold_other by exact Hnotin.
    unfold get_question, add_question. simpl. apply dict_get_set_same.
  - simpl. apply IH; assumption.
Qed.

Lemma get_question_fold_present (qs : list Question) :
  forall datamap q,
  In q qs ->
  exists q', get_question (fold_left add_question qs datamap) (q_name q) = Some q'.
Proof.
  induction qs as [|q0 qs IH] using rev_ind; intros datamap q Hin;
    [contradiction|].
  rewrite fold_left_app. simpl. apply in_app_or in Hin.
  unfold get_question, add_question. simpl.
  destruct (String.eqb (q_name q) (q_name q0)) eqn:E.
  - apply String.eqb_eq in E. rewrite E. eexists. apply dict_get_set_same.
  - rewrite dict_get_set_other.
    + destruct Hin as [Hin|[->|[]]].
      * apply IH. exact Hin.
      * rewrite String.eqb_refl in E. discriminate.
    + intros Heq. rewrite Heq, String.eqb_refl in E. discriminate.
Qed.

(** C5, as the code has it.  When calculate_all fails, the recodes before
    some recode of the list were calculated, that recode failed on the
    frame they built, and its failure is raised again under its name; the
    Questions of the recodes before it stay in the caller's datamap; the
    caller's frame is the one that was passed in, the columns having gone
    to a copy that the failure discards. *)
Theorem calculate_all_failure (recodes : list Recode) (s s' : Session) (e : exn) :
  calculate_all re_bound pd_eval recodes s = (Raise e, s') ->
  exists done r rest e0 df_k,
    recodes = done ++ r :: rest
    /\ calculate_loop re_bound pd_eval done (data s) (schema s)
       = (Ok df_k, schema s')
    /\ calculate re_bound pd_eval r df_k (schema s') = Raise e0
    /\ e = RecodeError (recode_name r) e0
    /\ schema s' = fold_left add_question (map question_of done) (schema s)
    /\ (forall r', In r' done ->
        exists q, get_question (schema s') (recode_name r') = Some q)
    /\ data s' = data s.
Proof.
  unfold calculate_all. intros H.
  destruct (calculate_loop re_bound pd_eval recodes (data s) (schema s))
    as [outcome datamap] eqn:Hl.
  injection H as -> <-. simpl.
  destruct (calculate_loop_outcome _ _ _ _ _ Hl)
    as [done [r [rest [e0 [df_k [Hr [Hdone [Hf [He Hd]]]]]]]]].
  exists done, r, rest, e0, df_k. repeat split; try assumption.
  intros r' Hin. rewrite Hd, <- question_of_name.
  apply get_question_fold_present. apply in_map. exact Hin.
Qed.

(** The frame returned by a successful loop. *)
Lemma calculate_loop_columns (recodes : list Recode) :
  forall df datamap df' datamap',
  calculate_loop re_bound pd_eval recodes df datamap = (Ok df', datamap') ->
  NoDup (map recode_name recodes) ->
  (forall r, In r recodes -> dict_get (columns df) (recode_name r) = None) ->
  length (columns df') = length (columns df) + length recodes.
Proof.
  induction recodes as [|r recodes IH]; intros df datamap df' datamap' H Hnd Hnew;
    simpl in H.
  - injection H as <- <-. simpl. lia.
  - destruct (calculate re_bound pd_eval r df datamap) as [values|e0];
      [|discriminate].
    simpl in Hnd. inversion Hnd as [|? ? Hnotin Hnd']; subst.
    rewrite (IH _ _ _ _ H Hnd').
    + simpl. rewrite dict_set_length_new by (apply Hnew; left; reflexivity).
      lia.
    + intros r' Hin. simpl. rewrite dict_get_set_other.
      * apply Hnew. right. exact Hin.
      * intros Heq. apply Hnotin. rewrite <- Heq. apply in_map. exact Hin.
Qed.

(** C6, as the code has it.  When the names of the recodes are pairwise
    different and none is the name of a column of the frame, a successful
    calculate_all returns a frame with one more column per recode, and the
    datamap holds for every recode a Question under its name, of the kind
    of its variant. *)
Theorem calculate_all_success (recodes : list Recode) (s s' : Session)
  (df' : DataFrame) :
  NoDup (map recode_name recodes) ->
  (forall r, In r recodes ->
             dict_get (columns (data s)) (recode_name r) = None) ->
  calculate_all re_bound pd_eval recodes s = (Ok df', s') ->
  length (columns df') = length (columns (data s)) + length recodes
  /\ forall r, In r recodes ->
     exists q, get_question (schema s') (recode_name r) = Some q
               /\ q_name q = recode_name r
               /\ q_qtype q = kind_by_variant r.
Proof.
  unfold calculate_all. intros Hnd Hnew H.
  destruct (calculate_loop re_bound pd_eval recodes (data s) (schema s))
    as [outcome datamap] eqn:Hl.
  injection H as -> <-. simpl. split.
  - apply (calculate_loop_columns _ _ _ _ _ Hl Hnd Hnew).
  - intros r Hin. exists (question_of r).
    pose proof (calculate_loop_outcome _ _ _ _ _ Hl) as Hd. simpl in Hd.
    rewrite Hd, <- question_of_name. repeat split.
    + apply get_question_fold_unique.
      * rewrite map_map. erewrite map_ext; [exact Hnd|].
        intros a. apply question_of_name.
      * apply in_map. exact Hin.
    + apply question_of_kind.
Qed.

End CalculateAll.

Lemma calculate_all_failure_witness :
  exists done r rest e0 df_k,
    [count_recode; broken_recode] = done ++ r :: rest
    /\ calculate_loop true no_eval done brands brands_schema
       = (Ok df_k,
          schema (snd (calculate_all true no_eval [count_recode; broken_recode]
                                     (mkSession brands brands_schema))))
    /\ calculate true no_eval r df_k
         (schema (snd (calculate_all true no_eval [count_recode; broken_recode]
                                     (mkSession brands brands_schema))))
       = Raise e0
    /\ RecodeError "Q99_Count" (VarNotInData "Q99")
       = RecodeError (recode_name r) e0
    /\ schema (snd (calculate_all true no_eval [count_recode; broken_recode]
                                  (mkSession brands brands_schema)))
       = fold_left add_question (map question_of done) brands_schema
    /\ (forall r', In r' done ->
        exists q,
          get_question
            (schema (snd (calculate_all true no_eval [count_recode; broken_recode]
                                        (mkSession brands brands_schema))))
            (recode_name r') = Some q)
    /\ data (snd (calculate_all true no_eval [count_recode; broken_recode]
                                (mkSession brands brands_schema)))
       = brands.
Proof.
  apply (calculate_all_failure true no_eval [count_recode; broken_recode]
           (mkSession brands brands_schema)).
  vm_compute. reflexivity.
Defined.

(** C5, as the specification words it, fails: the second recode fails, the
    call raises under its name, and the column of the first recode is not
    in the caller's frame, though its Question is in the datamap. *)
Lemma failed_call_leaves_no_column :
  let (outcome, after) :=
    calculate_all true no_eval [count_recode; broken_recode]
                  (mkSession brands brands_schema) in
  outcome = Raise (RecodeError "Q99_Count" (VarNotInData "Q99"))
  /\ dict_get (columns (data after)) "Q23A_Count" = None
  /\ option_map q_qtype (get_question (schema after) "Q23A_Count") = Some NUMERIC.
Proof. vm_compute. repeat split. Qed.

Lemma calculate_all_success_witness :
  length (columns (mkDataFrame 3 [("Q23A", [Str "1,2"; Null; Str "3"]);
                                  ("Q23A_Count", [Int 2; Int 0; Int 1])]))
  = length (columns brands) + length [count_recode]
  /\ forall r, In r [count_recode] ->
     exists q,
       get_question
         (schema (snd (calculate_all true no_eval [count_recode]
                                     (mkSession brands brands_schema))))
         (recode_name r) = Some q
       /\ q_name q = recode_name r
       /\ q_qtype q = kind_by_variant r.
Proof.
  apply (calculate_all_success true no_eval [count_recode]
           (mkSession brands brands_schema)).
  - constructor; [intros [] | constructor].
  - intros r [<-|[]]. vm_compute. reflexivity.
  - vm_compute. reflexivity.
Defined.

(** C6, as the specification words it, fails: a recode named after the
    column it reads replaces that column, and the returned frame has as
    many columns as the frame passed in. *)
Lemma renaming_recode_adds_no_column :
  exists df' s',
    calculate_all true no_eval [renaming_recode] (mkSession brands brands_schema)
    = (Ok df', s')
    /\ length (columns df') <> length (columns brands) + length [renaming_recode].
Proof.
  eexists. eexists. split.
  - vm_compute. reflexivity.
  - vm_compute. discriminate.
Qed.

End RecodeEngineProps.

(** ** The filter and class engines *)

Module EnginesProps.
Import PyStr FormulaParser Statements Examples SeriesProps.

Section Classes.
Variable py_eval_lambda : string -> option (cell -> res bool).

Lemma bin_matches_length (func : cell -> res bool) (series : list cell)
  (matches : list bool) :
  bin_matches func series = Ok matches -> length matches = length series.
Proof. apply mapM_length. Qed.

(** The loop of apply_class against the bins that have a predicate: a
    cell ends with the label of the last bin that matches it, and keeps
    its content when no bin does. *)
Lemma apply_class_loop_last (series : list cell)
  (class_bins : list (string * string)) :
  forall result0 result,
  length result0 = length series ->
  apply_class_loop py_eval_lambda series class_bins result0 = Ok result ->
  exists bins,
    bin_series py_eval_lambda series class_bins = Ok bins
    /\ length result = length series
    /\ forall i d, nth i result d
         = match last_match bins i with
           | Some l => Str l
           | None => nth i result0 d
           end.
Proof.
  induction class_bins as [|[formula label] class_bins IH];
    intros result0 result H0 H; simpl in H; simpl bin_series.
  - injection H as <-. exists []. repeat split; try assumption.
  - destruct (parse_class_formula py_eval_lambda formula) as [[func|]|e];
      cbn [bind] in *; [| |discriminate].
    + destruct (bin_matches func series) as [matches|e] eqn:Hb; [|discriminate].
      pose proof (bin_matches_length _ _ _ Hb) as Hm.
      destruct (IH _ _ (loc_assign_length _ _ _ _ H0 Hm) H)
        as [bins [Hs [Hlen Hnth]]].
      exists ((label, matches) :: bins). rewrite Hs. cbn [bind].
      repeat split; try assumption.
      intros i d. rewrite Hnth, last_match_cons.
      destruct (last_match bins i); [reflexivity|].
      rewrite loc_assign_nth by congruence.
      unfold matches_row. simpl snd. simpl fst.
      destruct (nth i matches false); reflexivity.
    + apply (IH _ _ H0 H).
Qed.

(** C2, as the code has it.  For a registered class, apply_class returns
    one cell per cell of the series; a cell holds the label of the last
    bin, in declared order, whose predicate holds of its value, and is
    null when no bin matches it. *)
Theorem apply_class_last_bin_wins (ce : ClassEngine.ClassEngine)
  (series : list cell) (class_name : string) (result : list cell) :
  ClassEngine.apply_class py_eval_lambda ce series class_name = Ok result ->
  exists class_obj bins,
    ClassEngine.get_class ce class_name = Some class_obj
    /\ bin_series py_eval_lambda series (c_bins class_obj) = Ok bins
    /\ length result = length series
    /\ forall i, i < length series ->
       nth i result Null = label_cell (last_match bins i).
Proof.
  unfold ClassEngine.apply_class, ClassEngine.get_class. intros H.
  destruct (dict_get (ClassEngine.classes ce) class_name) as [class_obj|];
    [|discriminate].
  unfold try_except in H.
  destruct (FormulaParser.apply_class py_eval_lambda series (c_bins class_obj))
    as [r|e] eqn:Ha; [|discriminate].
  injection H as ->. unfold FormulaParser.apply_class in Ha.
  destruct (apply_class_loop_last _ _ _ _ (repeat_length Null (length series)) Ha)
    as [bins [Hs [Hlen Hnth]]].
  exists class_obj, bins. repeat split; try assumption.
  intros i _. rewrite Hnth. unfold label_cell.
  destruct (last_match bins i); [reflexivity | apply nth_repeat].
Qed.

End Classes.

Lemma apply_class_last_bin_wins_witness :
  exists class_obj bins,
    ClassEngine.get_class size_classes "Size" = Some class_obj
    /\ bin_series example_eval sizes (c_bins class_obj) = Ok bins
    /\ length [Str "low"; Str "high"; Null] = length sizes
    /\ forall i, i < length sizes ->
       nth i [Str "low"; Str "high"; Null] Null = label_cell (last_match bins i).
Proof.
  apply (apply_class_last_bin_wins example_eval size_classes sizes "Size").
  vm_compute. reflexivity.
Defined.

(** C2, as the specification words it, fails: the number 15 satisfies the
    predicates of both bins and is labelled high, the label of the
    second bin, not low. *)
Lemma first_bin_does_not_win :
  ~ first_bin_wins example_eval size_classes sizes "Size".
Proof.
  intros H.
  specialize (H overlapping_class [Str "low"; Str "high"; Null]
                [("low", [true; true; false]); ("high", [false; true; false])]
                eq_refl eq_refl eq_refl 1).
  assert (Hlt : 1 < length sizes) by (vm_compute; lia).
  specialize (H Hlt). vm_compute in H. discriminate H.
Qed.

(** *** FilterEngine.validate *)

Lemma validate_loop_reports (items : list (string * Filter)) :
  forall errors msg,
  In msg (FilterEngine.validate_loop items errors) ->
  In msg errors
  \/ exists filter_obj,
       In (FilterEngine.m_filter msg, filter_obj) items
       /\ parse_variable_condition (f_formula filter_obj)
          = Raise (FilterEngine.m_error msg).
Proof.
  induction items as [|[name filter_obj] items IH]; intros errors msg H;
    simpl in H; [left; exact H|].
  destruct (parse_variable_condition (f_formula filter_obj)) as [conds|e] eqn:Hp.
  - destruct (IH _ _ H) as [Hin|[f [Hin Hf]]]; [left; exact Hin|].
    right. exists f. split; [right; exact Hin | exact Hf].
  - destruct (IH _ _ H) as [Hin|[f [Hin Hf]]].
    + apply in_app_or in Hin. destruct Hin as [Hin|[<-|[]]]; [left; exact Hin|].
      right. exists filter_obj. split; [left; reflexivity | exact Hp].
    + right. exists f. split; [right; exact Hin | exact Hf].
Qed.

(** What validate reports is what parse_variable_condition raises, and
    this parser returns the empty list for a text with no condition. *)
Lemma validate_reports_raises_only (fe : FilterEngine.FilterEngine)
  (datamap : DataMap) (msg : FilterEngine.filter_message) :
  In msg (FilterEngine.validate fe datamap) ->
  exists filter_obj,
    In (FilterEngine.m_filter msg, filter_obj) (FilterEngine.filters fe)
    /\ parse_variable_condition (f_formula filter_obj)
       = Raise (FilterEngine.m_error msg).
Proof.
  intros H. destruct (validate_loop_reports _ _ _ H) as [[]|H']. exact H'.
Qed.

(** C4.  The formula of the filter Broken has no atomic condition:
    applying the filter raises, and validate returns an empty list. *)
Theorem validate_misses_formula_without_condition :
  parse_variable_condition (f_formula conditionless_filter) = Ok []
  /\ FilterEngine.validate broken_filters survey_schema = []
  /\ FilterEngine.apply_filter broken_filters ages "Broken" survey_schema
     = Raise (FilterError "Broken" (NoValidConditions "S9 is 1")).
Proof. repeat split; vm_compute; reflexivity. Qed.

End EnginesProps.

(** ** The tabulation engine *)

Module TabEngineProps.
Import PyStr FormulaParser Statements Examples TabEngine.

(** *** The order of binary64 floats *)

Lemma compare_cont_flip (p q : positive) :
  PosDef.Pos.compare_cont Eq q p = CompOpp (PosDef.Pos.compare_cont Eq p q).
Proof. symmetry. exact (Pos.compare_cont_antisym p q Eq). Qed.

Lemma SFltb_asym (x y : spec_float) :
  SFltb x y = true -> SFltb y x = false.
Proof.
  unfold SFltb.
  destruct x as [sx|sx| |sx mx ex], y as [sy|sy| |sy my ey]; simpl;
    try discriminate; try reflexivity;
    try (destruct sx; try discriminate; try reflexivity;
         destruct sy; try discriminate; reflexivity);
    try (destruct sy; try discriminate; reflexivity).
  destruct sx, sy; try discriminate; try reflexivity;
    rewrite (Z.compare_antisym ex ey);
    destruct (ex ?= ey)%Z; simpl; try discriminate; try reflexivity;
    rewrite (compare_cont_flip mx my);
    destruct (PosDef.Pos.compare_cont Eq mx my); simpl; try discriminate;
    reflexivity.
Qed.

Lemma float_ltb_asym (x y : float) :
  PrimFloat.ltb x y = true -> PrimFloat.ltb y x = false.
Proof. rewrite !ltb_spec. apply SFltb_asym. Qed.

(** *** Markers *)

Lemma insert_sorted_In (z x : Z) (l : list Z) :
  In x (insert_sorted z l) <-> x = z \/ In x l.
Proof.
  induction l as [|y l IH]; simpl.
  - intuition.
  - destruct (z <=? y)%Z; simpl; [intuition|].
    rewrite IH. intuition.
Qed.

Lemma sorted_In (x : Z) (l : list Z) : In x (sorted l) <-> In x l.
Proof.
  unfold sorted. induction l as [|y l IH]; simpl; [reflexivity|].
  rewrite insert_sorted_In, IH. intuition.
Qed.

Lemma nth_error_seq_eq (len : nat) :
  forall start i x, nth_error (seq start len) i = Some x -> x = start + i.
Proof.
  induction len as [|len IH]; intros start i x H.
  - destruct i; discriminate.
  - destruct i as [|i]; simpl in H.
    + injection H as <-. lia.
    + apply IH in H. lia.
Qed.

Section Markers.
Context {F : Type}.
Variable A : Arith F.
Hypothesis ltb_asym : forall x y, ltb A x y = true -> ltb A y x = false.

(** A letter is earned from a different column with a lower proportion. *)
Lemma letter_of_In (i j : nat) (row props col_totals : list F) (alpha : F)
  (x : Z) :
  In x (letter_of A i j row props col_totals alpha) ->
  x = letter j /\ i <> j
  /\ ltb A (nth j props (zero A)) (nth i props (zero A)) = true.
Proof.
  unfold letter_of. destruct (Nat.eqb i j) eqn:E; [intros []|].
  apply Nat.eqb_neq in E.
  repeat match goal with
         | |- In _ (if ?c then _ else _) -> _ =>
             let H := fresh "C" in destruct c eqn:H; [|intros []]
         | |- In _ (let _ := _ in _) -> _ => cbv zeta
         end.
  intros [<-|[]]. apply andb_prop in C1. destruct C1 as [_ C1].
  repeat split; assumption.
Qed.

Lemma sig_letters_In (n_cols i : nat) (row props col_totals : list F)
  (alpha : F) (x : Z) :
  In x (sig_letters A n_cols i row props col_totals alpha) ->
  exists j, x = letter j /\ i <> j
            /\ ltb A (nth j props (zero A)) (nth i props (zero A)) = true.
Proof.
  unfold sig_letters. rewrite in_flat_map. intros [j [_ H]].
  exists j. apply (letter_of_In _ _ _ _ _ _ _ H).
Qed.

Lemma letter_inj (i j : nat) : letter i = letter j -> i = j.
Proof. unfold letter. lia. Qed.

(** The marker of a cell is the sorted list of the letters its column
    earns in the row of the cell. *)
Lemma marker_letters (crosstab : Table F) (alpha : F) (r i : nat)
  (letters : list Z) :
  marker (column_z_tests A crosstab alpha) r i = Some letters ->
  exists row n_cols col_totals,
    nth_error (values (drop_totals crosstab)) r = Some row
    /\ n_cols = length (tcolumns (drop_totals crosstab))
    /\ col_totals = map (column_total A (values (drop_totals crosstab)))
                        (seq 0 n_cols)
    /\ letters
       = sorted (sig_letters A n_cols i row
                   (map (fun p : F * F => div A (fst p) (snd p))
                        (combine row col_totals))
                   col_totals alpha).
Proof.
  unfold marker, column_z_tests.
  generalize (drop_totals crosstab). intros data H.
  destruct (length (tcolumns data) <? 2); simpl values in H;
    rewrite nth_error_map in H.
  - destruct (nth_error (index data) r); simpl in H; [|discriminate].
    rewrite nth_error_map in H.
    destruct (nth_error (tcolumns data) i); discriminate.
  - destruct (nth_error (values data) r) as [row|]; simpl in H; [|discriminate].
    unfold row_markers in H. rewrite nth_error_map in H.
    destruct (nth_error (seq 0 (length (tcolumns data))) i) as [k|] eqn:Hk;
      simpl in H; [|discriminate].
    apply nth_error_seq_eq in Hk. simpl in Hk. subst k.
    injection H as <-. exists row. eexists. eexists. repeat split.
Qed.

Lemma no_own_letter (crosstab : Table F) (alpha : F) (r i : nat) :
  ~ carries (column_z_tests A crosstab alpha) r i i.
Proof.
  intros [letters [Hm Hin]].
  destruct (marker_letters _ _ _ _ _ Hm) as [row [n [tots [_ [_ [_ ->]]]]]].
  apply sorted_In, sig_letters_In in Hin.
  destruct Hin as [j [Hj [Hne _]]]. apply letter_inj in Hj. contradiction.
Qed.

Lemma no_mutual_letters (crosstab : Table F) (alpha : F) (r i j : nat) :
  ~ (carries (column_z_tests A crosstab alpha) r i j
     /\ carries (column_z_tests A crosstab alpha) r j i).
Proof.
  intros [[li [Hmi Hini]] [lj [Hmj Hinj]]].
  destruct (marker_letters _ _ _ _ _ Hmi) as [row [n [tots [Hr [Hn [Ht ->]]]]]].
  destruct (marker_letters _ _ _ _ _ Hmj) as [row' [n' [tots' [Hr' [Hn' [Ht' ->]]]]]].
  rewrite Hr in Hr'. injection Hr' as <-. subst n' tots' n.
  rewrite <- Ht in *.
  apply sorted_In, sig_letters_In in Hini. apply sorted_In, sig_letters_In in Hinj.
  destruct Hini as [j' [Hj' [_ Hlt]]]. destruct Hinj as [i' [Hi' [_ Hgt]]].
  apply letter_inj in Hj', Hi'. subst j' i'.
  rewrite (ltb_asym _ _ Hlt) in Hgt. discriminate.
Qed.

End Markers.

(** C8.  In the table of markers of the pairwise column z-test, computed
    on binary64 floats with any function for the normal distribution and
    any alpha, no cell carries the letter of its own column, and for no
    row and no two data columns i and j do the cell of i carry the letter
    of j and the cell of j carry the letter of i. *)
Theorem markers_are_one_way (cdf : float -> float) (crosstab : Table float)
  (alpha : float) (r i j : nat) :
  ~ carries (column_z_tests (float_arith cdf) crosstab alpha) r i i
  /\ ~ (carries (column_z_tests (float_arith cdf) crosstab alpha) r i j
        /\ carries (column_z_tests (float_arith cdf) crosstab alpha) r j i).
Proof.
  split.
  - apply no_own_letter.
  - apply no_mutual_letters. exact float_ltb_asym.
Qed.

(** The markers of the example: in the first row France is marked with B,
    in the second row UK is marked with A. *)
Lemma two_groups_markers :
  column_z_tests (float_arith approx_norm_cdf) two_groups
                 (default_alpha (float_arith approx_norm_cdf))
  = mkTable [Int 1; Int 2] [Str "France"; Str "UK"]
            [[Some [66%Z]; Some []]; [Some []; Some [65%Z]]].
Proof. vm_compute. reflexivity. Qed.

(** *** Percentages, in exact arithmetic *)




Local Open Scope Q_scope.




Section Percentages.
Variables root cdf : Q -> Q.





End Percentages.

(** *** generate_tab *)



Section GenerateTab.
Variables root cdf : Q -> Q.
Variable crosstab : list cell -> list cell -> string -> res (Table Q).
Variable pivot_table : list cell -> list cell -> list cell -> res (Table Q).
Variable py_eval_lambda : string -> option (cell -> res bool).
Variable datamap : DataMap.
Variable filter_engine : FilterEngine.FilterEngine.
Variable class_engine : ClassEngine.ClassEngine.

Ltac step H :=
  match type of H with
  | bind ?m _ = Ok _ =>
      let E := fresh "E" in
      destruct m eqn:E; cbn [bind] in H; [|discriminate H]
  | match ?m with _ => _ end = Ok _ =>
      let E := fresh "E" in
      destruct m eqn:E; cbv iota beta in H; try discriminate H
  end.



End GenerateTab.



(** The scenario of the specification, counted from six respondents: the
    counts with their margins; row A holds 66.7 percent of col1 and 33.3
    percent of col2, and the two rows of col1 sum to 100. *)
Lemma scenario_column_percentages :
  exists result,
    scenario_result = Ok result
    /\ counts result
       = mkTable [Int 1; Int 2; Str "Total"]
                 [Str "col1"; Str "col2"; Str "Total"]
                 [[2; 1; 3]; [1; 2; 3]; [3; 3; 6]]
    /\ map (map Qred) (values (col_pct result))
       = [[200 # 3; 100 # 3; 50]; [100 # 3; 200 # 3; 50]; [100; 100; 100]]
    /\ column_sum (body (col_pct result)) 0 == 100.
Proof.
  eexists. split; [vm_compute; reflexivity|].
  split; [vm_compute; reflexivity|].
  split; vm_compute; reflexivity.
Qed.

Local Close Scope Q_scope.


End TabEngineProps.

(** * Further properties of the sources *)

(** ** Parsing and evaluating conditions *)

Module ConditionProps.
Import PyStr FormulaParser Statements Examples SeriesProps.

Lemma mapM_In {A B : Type} (f : A -> res B) (l : list A) (m : list B) :
  mapM f l = Ok m ->
  forall b, In b m -> exists a, In a l /\ f a = Ok b.
Proof.
  revert m. induction l as [|x l IH]; intros m Hm b Hb; simpl in Hm.
  - injection Hm as <-. contradiction.
  - destruct (f x) as [y|e] eqn:Hx; simpl in Hm; [|discriminate].
    destruct (mapM f l) as [bs|e] eqn:Hl; simpl in Hm; [|discriminate].
    injection Hm as <-. destruct Hb as [<-|Hb].
    + exists x. split; [left; reflexivity | exact Hx].
    + destruct (IH bs eq_refl b Hb) as [a [Ha Hf]].
      exists a. split; [right; exact Ha | exact Hf].
Qed.

Lemma mapM_nth_error_rev {A B : Type} (f : A -> res B) (l : list A)
  (m : list B) :
  mapM f l = Ok m ->
  forall i b, nth_error m i = Some b ->
  exists a, nth_error l i = Some a /\ f a = Ok b.
Proof.
  revert m. induction l as [|x l IH]; intros m Hm i b Hi; simpl in Hm.
  - injection Hm as <-. destruct i; discriminate.
  - destruct (f x) as [y|e] eqn:Hx; simpl in Hm; [|discriminate].
    destruct (mapM f l) as [bs|e] eqn:Hl; simpl in Hm; [|discriminate].
    injection Hm as <-. destruct i as [|i]; simpl in Hi.
    + injection Hi as <-. exists x. split; [reflexivity | exact Hx].
    + simpl. apply (IH bs eq_refl i b Hi).
Qed.

Lemma mapM_Raise {A B : Type} (f : A -> res B) (l : list A) (e : exn) :
  mapM f l = Raise e -> exists a, In a l /\ f a = Raise e.
Proof.
  induction l as [|x l IH]; intros H; simpl in H; [discriminate|].
  destruct (f x) as [y|e'] eqn:Hx; simpl in H.
  - destruct (mapM f l) as [bs|e'] eqn:Hl; simpl in H; [discriminate|].
    injection H as ->. destruct (IH eq_refl) as [a [Ha Hf]].
    exists a. split; [right; exact Ha | exact Hf].
  - injection H as ->. exists x. split; [left; reflexivity | exact Hx].
Qed.

Lemma span_all (p : ascii -> bool) (s a b : string) :
  span p s = (a, b) -> forall c, contains_char c a = true -> p c = true.
Proof.
  revert a b. induction s as [|d s IH]; intros a b H c Hc; simpl in H.
  - injection H as <- <-. discriminate.
  - destruct (p d) eqn:Hd.
    + destruct (span p s) as [a' b'] eqn:Hs. injection H as <- <-.
      simpl in Hc. apply orb_prop in Hc. destruct Hc as [Hc|Hc].
      * apply Ascii.eqb_eq in Hc. subst d. exact Hd.
      * apply (IH _ _ eq_refl c Hc).
    + injection H as <- <-. discriminate.
Qed.

Lemma match_operator_In (ops : list string) (s op v r : string) :
  match_operator ops s = Some (op, v, r) -> In op ops /\ v <> EmptyString.
Proof.
  induction ops as [|o ops IH]; simpl; [discriminate|].
  destruct (strip_prefix o s) as [r0|].
  - unfold match_value.
    destruct (span is_value_char r0) as [v0 r1].
    destruct v0 as [|c v0]; [intros H; destruct (IH H); tauto|].
    destruct r1 as [|d r1]; [intros H; destruct (IH H); tauto|].
    destruct d as [[] [] [] [] [] [] [] []];
      try (intros H; destruct (IH H); tauto).
    intros [= <- <- <-]. split; [left; reflexivity | discriminate].
  - intros H. destruct (IH H). tauto.
Qed.

Lemma match_var_condition_shape (s name op v : string) (len : nat) :
  match_var_condition s = Some (name, op, v, len) ->
  name <> EmptyString /\ contains_char dquote name = false
  /\ In op operators /\ v <> EmptyString.
Proof.
  unfold match_var_condition.
  destruct s as [|c s]; [discriminate|].
  destruct c as [[] [] [] [] [] [] [] []]; try discriminate.
  destruct s as [|q s1]; [discriminate|].
  destruct (Ascii.eqb q dquote); [|discriminate].
  destruct (span (fun c => negb (Ascii.eqb c dquote)) s1) as [n s2] eqn:Hs.
  destruct n as [|c n]; [discriminate|].
  destruct s2 as [|d s3]; [discriminate|].
  destruct (match_operator operators s3) as [[[o w] r]|] eqn:Hm; [|discriminate].
  intros [= <- <- <- <-]. apply match_operator_In in Hm.
  split; [discriminate|]. split; [|exact Hm].
  destruct (contains_char dquote (String c n)) eqn:Hq; [|reflexivity].
  apply (span_all _ _ _ _ Hs) in Hq. rewrite Ascii.eqb_refl in Hq.
  discriminate.
Qed.

Lemma finditer_shape (s : string) :
  forall skip name op v,
  In (name, op, v) (finditer s skip) ->
  name <> EmptyString /\ contains_char dquote name = false
  /\ In op operators /\ v <> EmptyString.
Proof.
  induction s as [|c s IH]; intros skip name op v H; [contradiction|].
  destruct skip as [|k]; [|apply (IH _ _ _ _ H)].
  change (finditer (String c s) 0)
    with (match match_var_condition (String c s) with
          | Some (n, o, w, len) => (n, o, w) :: finditer s (len - 1)
          | None => finditer s 0
          end) in H.
  destruct (match_var_condition (String c s)) as [[[[n o] w] len]|] eqn:Hm.
  - destruct H as [[= <- <- <-]|H].
    + apply (match_var_condition_shape _ _ _ _ _ Hm).
    + apply (IH _ _ _ _ H).
  - apply (IH _ _ _ _ H).
Qed.

Lemma split_not_nil (sep : ascii) (s : string) : split sep s <> [].
Proof.
  destruct s as [|c s]; simpl; [discriminate|].
  destruct (Ascii.eqb c sep); [discriminate|].
  destruct (split sep s); discriminate.
Qed.

Lemma parse_value_shape (operator value_str : string) (v : value) :
  parse_value operator value_str = Ok v ->
  match v with
  | VList l => is_multi_operator operator = true /\ l <> []
  | _ => is_multi_operator operator = false
  end.
Proof.
  unfold parse_value. destruct (is_multi_operator operator).
  - destruct (mapM parse_int_item (split "," value_str)) as [codes|] eqn:Hc;
      simpl; [|discriminate].
    intros [= <-]. split; [reflexivity|].
    intros ->. apply mapM_length in Hc. symmetry in Hc.
    apply length_zero_iff_nil in Hc. apply (split_not_nil _ _ Hc).
  - match goal with
    | |- match py_int ?t with _ => _ end = _ -> _ =>
        destruct (py_int t); [intros [= <-]; reflexivity|];
        destruct (py_float t); intros [= <-]; reflexivity
    end.
Qed.

Lemma parsed_conditions_are_well_shaped_aux (formula : string)
  (conditions : list condition) :
  parse_variable_condition formula = Ok conditions ->
  forall c, In c conditions -> well_shaped c.
Proof.
  unfold parse_variable_condition. intros Hp c Hc.
  destruct (mapM_In _ _ _ Hp c Hc) as [[[name op] w] [Hin Hv]].
  destruct (parse_value op w) as [v|] eqn:Hpv; simpl in Hv; [|discriminate].
  injection Hv as <-.
  destruct (finditer_shape _ _ _ _ _ Hin) as [Hn [Hq [Ho _]]].
  repeat split; try assumption. apply (parse_value_shape _ _ _ Hpv).
Qed.

(** X1.  Every condition that parse_variable_condition returns has a name
    that is not empty and holds no double quote, and one of the ten
    operators; its value is a list of integer codes, not empty, when the
    operator is C, NC, CO or NCO, and an int, a float or a text
    otherwise. *)
Theorem parsed_conditions_are_well_shaped (formula : string)
  (conditions : list condition) (c : condition) :
  parse_variable_condition formula = Ok conditions ->
  In c conditions -> well_shaped c.
Proof.
  intros Hp Hc. apply (parsed_conditions_are_well_shaped_aux _ _ Hp c Hc).
Qed.

Lemma parsed_conditions_are_well_shaped_witness :
  well_shaped ("Q10", "C", VList [2%Z; 3%Z]).
Proof.
  apply (parsed_conditions_are_well_shaped
           (dq "['S9'=1] and ['Q10'C2,3]")
           [("S9", "=", VInt 1); ("Q10", "C", VList [2%Z; 3%Z])]).
  - vm_compute. reflexivity.
  - right. left. reflexivity.
Defined.

(** *** What evaluate_formula raises *)









(** *** What a returned Series stands for *)

Lemma evaluate_condition_resolved (df : DataFrame) (var_name operator : string)
  (v : value) (qt : QuestionType) (mask : list bool) :
  evaluate_condition df var_name operator v qt = Ok mask ->
  exists col, dict_get (columns df) var_name = Some col.
Proof.
  unfold evaluate_condition.
  destruct (dict_get (columns df) var_name) as [col|]; [|discriminate].
  intros _. exists col. reflexivity.
Qed.

Lemma combine_conditions_masks (df : DataFrame) (datamap : DataMap)
  (formula_lower : string) (rest : list condition) :
  forall result mask,
  combine_conditions df datamap formula_lower rest result = Ok mask ->
  exists masks, mapM (condition_series df datamap) rest = Ok masks.
Proof.
  induction rest as [|[[var_name operator] v] rest IH]; intros result mask H;
    simpl in H.
  - exists []. reflexivity.
  - simpl. destruct (get_question datamap var_name) as [question|];
      [|discriminate].
    destruct (evaluate_condition df var_name operator v (q_qtype question))
      as [cond|]; simpl in H; [|discriminate].
    destruct (contains " or " formula_lower);
      destruct (IH _ _ H) as [masks Hm]; rewrite Hm;
      eexists; reflexivity.
Qed.

Lemma evaluate_formula_masks (df : DataFrame) (formula : string)
  (datamap : DataMap) (mask : list bool) :
  evaluate_formula df formula datamap = Ok mask ->
  exists c conditions m masks,
    parse_variable_condition formula = Ok (c :: conditions)
    /\ condition_series df datamap c = Ok m
    /\ mapM (condition_series df datamap) conditions = Ok masks
    /\ mask = fold_left (if contains " or " (lower formula)
                         then series_or else series_and) masks m.
Proof.
  unfold evaluate_formula. intros H.
  destruct (parse_variable_condition formula) as [conds|]; cbn [bind] in H;
    [|discriminate].
  destruct conds as [|[[var_name operator] v] rest]; [discriminate|].
  destruct (get_question datamap var_name) as [question|] eqn:Hq; [|discriminate].
  destruct (evaluate_condition df var_name operator v (q_qtype question))
    as [result|] eqn:Hc; cbn [bind] in H; [|discriminate].
  exists (var_name, operator, v), rest, result.
  destruct rest as [|c2 rest].
  - exists []. simpl in H. injection H as <-.
    repeat split. simpl. rewrite Hq. exact Hc.
  - change (1 <? length ((var_name, operator, v) :: c2 :: rest)) with true in H.
    cbv iota in H.
    destruct (combine_conditions_masks _ _ _ _ _ _ H) as [masks Hm].
    exists masks. repeat split.
    + simpl. rewrite Hq. exact Hc.
    + exact Hm.
    + rewrite (FormulaParserProps.combine_conditions_fold _ _ _ _ _ _ Hm) in H.
      injection H as <-. reflexivity.
Qed.

Lemma condition_series_resolved (df : DataFrame) (datamap : DataMap)
  (c : condition) (m : list bool) :
  condition_series df datamap c = Ok m ->
  (exists q, get_question datamap (fst (fst c)) = Some q)
  /\ (exists col, dict_get (columns df) (fst (fst c)) = Some col).
Proof.
  destruct c as [[var_name operator] v]. simpl.
  destruct (get_question datamap var_name) as [question|]; [|discriminate].
  intros H. split; [exists question; reflexivity|].
  apply (evaluate_condition_resolved _ _ _ _ _ _ H).
Qed.

(** X3.  When evaluate_formula returns a Series, the formula has at least
    one condition, and the variable of every condition of the formula is
    both a Question of the datamap and a column of the frame. *)
Theorem evaluate_formula_resolves_variables (df : DataFrame) (formula : string)
  (datamap : DataMap) (mask : list bool) :
  evaluate_formula df formula datamap = Ok mask ->
  exists conditions,
    parse_variable_condition formula = Ok conditions
    /\ conditions <> []
    /\ forall c, In c conditions ->
       (exists q, get_question datamap (fst (fst c)) = Some q)
       /\ (exists col, dict_get (columns df) (fst (fst c)) = Some col).
Proof.
  intros H.
  destruct (evaluate_formula_masks _ _ _ _ H)
    as [c [conds [m [masks [Hp [Hc [Hm _]]]]]]].
  exists (c :: conds). split; [exact Hp|]. split; [discriminate|].
  intros c' [<-|Hin].
  - apply (condition_series_resolved _ _ _ _ Hc).
  - destruct (In_nth_error _ _ Hin) as [i Hi].
    destruct (mapM_nth_error _ _ _ Hm i c' Hi) as [m' [Hm' _]].
    apply (condition_series_resolved _ _ _ _ Hm').
Qed.

Lemma evaluate_formula_resolves_variables_witness :
  exists conditions,
    parse_variable_condition (dq "['Age'>=30] or ['S9'=1]") = Ok conditions
    /\ conditions <> []
    /\ forall c, In c conditions ->
       (exists q, get_question survey_schema (fst (fst c)) = Some q)
       /\ (exists col, dict_get (columns ages) (fst (fst c)) = Some col).
Proof.
  apply (evaluate_formula_resolves_variables ages
           (dq "['Age'>=30] or ['S9'=1]") survey_schema [true; true]).
  vm_compute. reflexivity.
Defined.

Lemma series_or_nth (a b : list bool) (i : nat) :
  length a = length b ->
  nth i (series_or a b) false = nth i a false || nth i b false.
Proof.
  intros Hlen. unfold series_or.
  change false with ((fun p : bool * bool => fst p || snd p) (false, false)) at 1.
  rewrite map_nth, combine_nth by exact Hlen. reflexivity.
Qed.

Lemma series_and_nth (a b : list bool) (i : nat) :
  length a = length b ->
  nth i (series_and a b) false = nth i a false && nth i b false.
Proof.
  intros Hlen. unfold series_and.
  change false with ((fun p : bool * bool => fst p && snd p) (false, false)) at 1.
  rewrite map_nth, combine_nth by exact Hlen. reflexivity.
Qed.

Lemma fold_series_or_nth (n i : nat) (masks : list (list bool)) :
  (forall m, In m masks -> length m = n) ->
  forall m0, length m0 = n ->
  nth i (fold_left series_or masks m0) false
  = nth i m0 false || existsb (fun m => nth i m false) masks.
Proof.
  induction masks as [|m masks IH]; intros Hlen m0 H0; simpl.
  - rewrite orb_false_r. reflexivity.
  - rewrite IH.
    + rewrite series_or_nth by (rewrite H0; symmetry; apply Hlen; left; reflexivity).
      rewrite orb_assoc. reflexivity.
    + intros m' Hin. apply Hlen. right. exact Hin.
    + apply series_or_length; [exact H0 | apply Hlen; left; reflexivity].
Qed.

Lemma fold_series_and_nth (n i : nat) (masks : list (list bool)) :
  (forall m, In m masks -> length m = n) ->
  forall m0, length m0 = n ->
  nth i (fold_left series_and masks m0) false
  = nth i m0 false && forallb (fun m => nth i m false) masks.
Proof.
  induction masks as [|m masks IH]; intros Hlen m0 H0; simpl.
  - rewrite andb_true_r. reflexivity.
  - rewrite IH.
    + rewrite series_and_nth by (rewrite H0; symmetry; apply Hlen; left; reflexivity).
      rewrite andb_assoc. reflexivity.
    + intros m' Hin. apply Hlen. right. exact Hin.
    + apply series_and_length; [exact H0 | apply Hlen; left; reflexivity].
Qed.

Lemma condition_series_length (df : DataFrame) (datamap : DataMap)
  (c : condition) (m : list bool) :
  well_formed df -> condition_series df datamap c = Ok m ->
  length m = nrows df.
Proof.
  intros Hwf. destruct c as [[var_name operator] v]. simpl.
  destruct (get_question datamap var_name) as [question|]; [|discriminate].
  apply (evaluate_condition_length _ _ _ _ _ _ Hwf).
Qed.

(** X4.  Row by row: on a frame with one cell per row and column, a row is
    selected by a formula whose lower-cased text contains the word or
    between two spaces exactly when at least one of its conditions is
    true of the row, and by any other formula exactly when all of its
    conditions are true of the row. *)
Theorem evaluate_formula_by_row (df : DataFrame) (formula : string)
  (datamap : DataMap) (mask : list bool) :
  well_formed df ->
  evaluate_formula df formula datamap = Ok mask ->
  exists conditions masks,
    parse_variable_condition formula = Ok conditions
    /\ mapM (condition_series df datamap) conditions = Ok masks
    /\ length mask = nrows df
    /\ forall i,
       nth i mask false
       = if contains " or " (lower formula)
         then existsb (fun m => nth i m false) masks
         else forallb (fun m => nth i m false) masks.
Proof.
  intros Hwf H.
  pose proof (evaluate_formula_length _ _ _ _ Hwf H) as Hlen.
  destruct (evaluate_formula_masks _ _ _ _ H)
    as [c [conds [m [masks [Hp [Hc [Hm ->]]]]]]].
  exists (c :: conds), (m :: masks). split; [exact Hp|].
  split; [simpl; rewrite Hc; cbn [bind]; rewrite Hm; reflexivity|].
  split; [exact Hlen|]. intros i.
  assert (Hall : forall m', In m' masks -> length m' = nrows df).
  { intros m' Hin. destruct (In_nth_error _ _ Hin) as [k Hk].
    destruct (mapM_nth_error_rev _ _ _ Hm k m' Hk) as [c' [_ Hc']].
    apply (condition_series_length _ _ _ _ Hwf Hc'). }
  pose proof (condition_series_length _ _ _ _ Hwf Hc) as Hm0.
  destruct (contains " or " (lower formula)); simpl.
  - apply (fold_series_or_nth _ _ _ Hall _ Hm0).
  - apply (fold_series_and_nth _ _ _ Hall _ Hm0).
Qed.

Lemma evaluate_formula_by_row_witness :
  exists conditions masks,
    parse_variable_condition (dq "['Age'>=30] and ['S9'=1]") = Ok conditions
    /\ mapM (condition_series ages survey_schema) conditions = Ok masks
    /\ length [false; false] = nrows ages
    /\ forall i,
       nth i [false; false] false
       = if contains " or " (lower (dq "['Age'>=30] and ['S9'=1]"))
         then existsb (fun m => nth i m false) masks
         else forallb (fun m => nth i m false) masks.
Proof.
  apply (evaluate_formula_by_row ages (dq "['Age'>=30] and ['S9'=1]")
           survey_schema [false; false]).
  - intros n col [H|[H|[]]]; injection H as <- <-; reflexivity.
  - vm_compute. reflexivity.
Defined.

(** *** The multiple-choice operators *)

Lemma item_in_codes_In (codes : list Z) (z : Z) :
  item_in_codes codes (VInt z) = true <-> In z codes.
Proof.
  unfold item_in_codes. rewrite existsb_exists. simpl. split.
  - intros [c [Hin Hc]]. apply Z.eqb_eq in Hc. subst c. exact Hin.
  - intros Hin. exists z. split; [exact Hin | apply Z.eqb_refl].
Qed.

Lemma overlap_In (codes l : list Z) :
  existsb (item_in_codes codes) (map VInt l) = true
  <-> exists z, In z l /\ In z codes.
Proof.
  rewrite existsb_exists. split.
  - intros [v [Hv Hin]]. apply in_map_iff in Hv. destruct Hv as [z [<- Hz]].
    exists z. split; [exact Hz | apply item_in_codes_In; exact Hin].
  - intros [z [Hz Hin]]. exists (VInt z).
    split; [apply in_map; exact Hz | apply item_in_codes_In; exact Hin].
Qed.

Lemma same_set_In (codes l : list Z) :
  same_set codes (map VInt l) = true <-> forall z, In z l <-> In z codes.
Proof.
  unfold same_set. rewrite andb_true_iff, !forallb_forall. split.
  - intros [H1 H2] z. split.
    + intros Hz. apply item_in_codes_In. apply H2. apply in_map. exact Hz.
    + intros Hz. specialize (H1 z Hz). apply existsb_exists in H1.
      destruct H1 as [v [Hv Heq]]. apply in_map_iff in Hv.
      destruct Hv as [w [<- Hw]]. simpl in Heq. apply Z.eqb_eq in Heq.
      subst w. exact Hw.
  - intros H. split.
    + intros c Hc. apply existsb_exists. exists (VInt c).
      split; [apply in_map; apply H; exact Hc | simpl; apply Z.eqb_refl].
    + intros v Hv. apply in_map_iff in Hv. destruct Hv as [z [<- Hz]].
      apply item_in_codes_In. apply H. exact Hz.
Qed.

(** X5.  On a cell that is present and whose codes are [codes], the
    operator C with the list [l] is true exactly when some code of [l] is
    among the codes of the cell, and NC is its negation. *)
Theorem contains_is_overlap (l codes : list Z) (c : cell) :
  isna c = false -> cell_codes c = Ok codes ->
  exists b,
    contains_check "C" (value_items (VList l)) c = Ok b
    /\ contains_check "NC" (value_items (VList l)) c = Ok (negb b)
    /\ (b = true <-> exists z, In z l /\ In z codes).
Proof.
  intros Hna Hc. unfold contains_check. rewrite Hna, Hc. simpl.
  eexists. split; [reflexivity|]. split; [reflexivity|]. apply overlap_In.
Qed.

Lemma contains_is_overlap_witness :
  exists b,
    contains_check "C" (value_items (VList [2%Z; 3%Z])) (Str "1, 2") = Ok b
    /\ contains_check "NC" (value_items (VList [2%Z; 3%Z])) (Str "1, 2")
       = Ok (negb b)
    /\ (b = true <-> exists z, In z [2%Z; 3%Z] /\ In z [1%Z; 2%Z]).
Proof.
  apply (contains_is_overlap [2%Z; 3%Z] [1%Z; 2%Z] (Str "1, 2")).
  - reflexivity.
  - vm_compute. reflexivity.
Defined.

(** X6.  On a cell that is present and whose codes are [codes], the
    operator CO with the list [l] is true exactly when the cell and the
    list hold the same codes, whatever their order and repetitions: no
    code of the list is missing from the cell and the cell has no other
    code.  NCO is its negation. *)
Theorem contains_only_is_set_equality (l codes : list Z) (c : cell) :
  isna c = false -> cell_codes c = Ok codes ->
  exists b,
    contains_check "CO" (value_items (VList l)) c = Ok b
    /\ contains_check "NCO" (value_items (VList l)) c = Ok (negb b)
    /\ (b = true <-> forall z, In z l <-> In z codes).
Proof.
  intros Hna Hc. unfold contains_check. rewrite Hna, Hc. simpl.
  eexists. split; [reflexivity|]. split; [reflexivity|]. apply same_set_In.
Qed.

Lemma contains_only_is_set_equality_witness :
  exists b,
    contains_check "CO" (value_items (VList [1%Z; 2%Z])) (Str "2,1,2") = Ok b
    /\ contains_check "NCO" (value_items (VList [1%Z; 2%Z])) (Str "2,1,2")
       = Ok (negb b)
    /\ (b = true <-> forall z, In z [1%Z; 2%Z] <-> In z [2%Z; 1%Z; 2%Z]).
Proof.
  apply (contains_only_is_set_equality [1%Z; 2%Z] [2%Z; 1%Z; 2%Z] (Str "2,1,2")).
  - reflexivity.
  - vm_compute. reflexivity.
Defined.

(** X7.  With any operator but !=, the row of a missing cell is false in
    the Series of a condition; for the operators NC and NCO too, that
    negate. *)
Theorem missing_cell_is_not_selected (df : DataFrame)
  (var_name operator : string) (v : value) (qt : QuestionType)
  (col : list cell) (mask : list bool) (i : nat) (c : cell) :
  operator <> "!=" ->
  dict_get (columns df) var_name = Some col ->
  nth_error col i = Some c -> isna c = true ->
  evaluate_condition df var_name operator v qt = Ok mask ->
  nth_error mask i = Some false.
Proof. apply FormulaParserProps.missing_cell_is_false. Qed.

Lemma missing_cell_is_not_selected_witness :
  nth_error [false; false] 1 = Some false.
Proof.
  apply (missing_cell_is_not_selected survey_with_missing "S9" "NC"
           (VList [1%Z]) QUALI_UNIQUE [Int 1; Null] [false; false] 1 Null).
  - discriminate.
  - reflexivity.
  - reflexivity.
  - reflexivity.
  - vm_compute. reflexivity.
Defined.

(** *** FilterEngine.apply_filter *)

(** X8.  apply_filter raises Filter not found exactly for a name that is
    not registered; every other failure is the failure of evaluate_formula
    on the formula of the filter, raised again under the name of the
    filter; and a returned Series has one boolean per row of a frame with
    one cell per row and column. *)
Theorem apply_filter_outcome (fe : FilterEngine.FilterEngine) (df : DataFrame)
  (filter_name : string) (datamap : DataMap) :
  well_formed df ->
  match FilterEngine.apply_filter fe df filter_name datamap with
  | Ok mask =>
      length mask = nrows df
      /\ exists filter_obj,
           FilterEngine.get_filter fe filter_name = Some filter_obj
           /\ evaluate_formula df (f_formula filter_obj) datamap = Ok mask
  | Raise e =>
      (FilterEngine.get_filter fe filter_name = None
       /\ e = FilterNotFound filter_name)
      \/ exists filter_obj e',
           FilterEngine.get_filter fe filter_name = Some filter_obj
           /\ evaluate_formula df (f_formula filter_obj) datamap = Raise e'
           /\ e = FilterError filter_name e'
  end.
Proof.
  intros Hwf. unfold FilterEngine.apply_filter, FilterEngine.get_filter.
  destruct (dict_get (FilterEngine.filters fe) filter_name) as [filter_obj|].
  - destruct (evaluate_formula df (f_formula filter_obj) datamap) as [mask|e]
      eqn:He; simpl.
    + split; [apply (evaluate_formula_length _ _ _ _ Hwf He)|].
      exists filter_obj. split; [reflexivity | exact He].
    + right. exists filter_obj, e.
      split; [reflexivity|]. split; [exact He | reflexivity].
  - left. split; reflexivity.
Qed.

Lemma apply_filter_outcome_witness :
  (FilterEngine.get_filter broken_filters "Broken" = None
   /\ FilterError "Broken" (NoValidConditions "S9 is 1") = FilterNotFound "Broken")
  \/ exists filter_obj e',
       FilterEngine.get_filter broken_filters "Broken" = Some filter_obj
       /\ evaluate_formula ages (f_formula filter_obj) survey_schema = Raise e'
       /\ FilterError "Broken" (NoValidConditions "S9 is 1")
          = FilterError "Broken" e'.
Proof.
  exact (apply_filter_outcome broken_filters ages "Broken" survey_schema
           RecodeEngineProps.ages_well_formed).
Defined.

End ConditionProps.

(** ** AND and OR *)

Module ConnectiveProps.
Import PyStr FormulaParser Statements Examples SeriesProps.

(** C7, as the code has it.  The Series of the conditions of a formula are
    folded from the left into the Series of the first one.  When the
    lower-cased text of the formula contains the word or with a space on
    each side, every step is OR, row by row; otherwise every step is AND,
    row by row. *)
Theorem evaluate_formula_combines_left_to_right (df : DataFrame)
  (formula : string) (datamap : DataMap) (mask : list bool) :
  evaluate_formula df formula datamap = Ok mask ->
  exists c conditions m masks,
    parse_variable_condition formula = Ok (c :: conditions)
    /\ condition_series df datamap c = Ok m
    /\ mapM (condition_series df datamap) conditions = Ok masks
    /\ mask = fold_left (if contains " or " (lower formula)
                         then series_or else series_and) masks m
    /\ (forall a b i, length a = length b ->
          nth i (series_or a b) false = nth i a false || nth i b false)
    /\ (forall a b i, length a = length b ->
          nth i (series_and a b) false = nth i a false && nth i b false).
Proof.
  intros H.
  destruct (ConditionProps.evaluate_formula_masks _ _ _ _ H)
    as [c [conditions [m [masks [Hp [Hc [Hm Hmask]]]]]]].
  exists c, conditions, m, masks.
  split; [exact Hp|]. split; [exact Hc|]. split; [exact Hm|].
  split; [exact Hmask|]. split.
  - intros a b i Hlen. apply (ConditionProps.series_or_nth _ _ _ Hlen).
  - intros a b i Hlen. apply (ConditionProps.series_and_nth _ _ _ Hlen).
Qed.

Lemma evaluate_formula_combines_left_to_right_witness :
  exists c conditions m masks,
    parse_variable_condition (dq "['Age'>=30] OR ['S9'=1] or ['Age'>=18]")
    = Ok (c :: conditions)
    /\ condition_series ages survey_schema c = Ok m
    /\ mapM (condition_series ages survey_schema) conditions = Ok masks
    /\ [true; true]
       = fold_left (if contains " or "
                         (lower (dq "['Age'>=30] OR ['S9'=1] or ['Age'>=18]"))
                    then series_or else series_and) masks m
    /\ (forall a b i, length a = length b ->
          nth i (series_or a b) false = nth i a false || nth i b false)
    /\ (forall a b i, length a = length b ->
          nth i (series_and a b) false = nth i a false && nth i b false).
Proof.
  apply (evaluate_formula_combines_left_to_right ages
           (dq "['Age'>=30] OR ['S9'=1] or ['Age'>=18]") survey_schema
           [true; true]).
  vm_compute. reflexivity.
Defined.

(** Against the wording of the specification: between the two conditions
    of this formula stands the token or, without spaces, and the steps
    are AND.  The respondent aged 25 who answered 1 and the respondent
    aged 35 who answered 2 both satisfy one condition, and neither is
    selected. *)
Theorem token_or_without_spaces_is_and :
  ~ token_or_decides ages (dq "['Age'>=30]or['S9'=1]") survey_schema.
Proof.
  intros H.
  specialize (H ("Age", ">=", VInt 30) [("S9", "=", VInt 1)]
                [false; true] [[true; false]] [false; false]
                eq_refl eq_refl eq_refl eq_refl).
  vm_compute in H. discriminate H.
Qed.

End ConnectiveProps.

(** ** The recodes *)

Module RecodeProps.
Import PyStr FormulaParser RecodeEngine Statements Examples SeriesProps.

(** *** Sorting *)

Lemma insert_sorted_lt (z : Z) (l : list Z) :
  StronglySorted Z.lt l -> ~ In z l -> StronglySorted Z.lt (insert_sorted z l).
Proof.
  induction l as [|y l IH]; intros Hs Hn; simpl.
  - constructor; constructor.
  - apply StronglySorted_inv in Hs. destruct Hs as [Hs Hy].
    destruct (z <=? y)%Z eqn:E.
    + apply Z.leb_le in E.
      assert (Hlt : (z < y)%Z).
      { destruct (Z.eq_dec z y) as [->|Hne]; [|lia].
        exfalso. apply Hn. left. reflexivity. }
      constructor; [constructor; assumption|].
      constructor; [exact Hlt|].
      rewrite Forall_forall in *. intros w Hw. specialize (Hy w Hw). lia.
    + apply Z.leb_gt in E. constructor.
      * apply IH; [exact Hs|]. intros Hin. apply Hn. right. exact Hin.
      * rewrite Forall_forall in *. intros w Hw.
        apply TabEngineProps.insert_sorted_In in Hw.
        destruct Hw as [->|Hw]; [exact E | apply Hy; exact Hw].
Qed.

Lemma sorted_lt (l : list Z) : NoDup l -> StronglySorted Z.lt (sorted l).
Proof.
  unfold sorted. induction l as [|z l IH]; intros Hnd; simpl.
  - constructor.
  - inversion Hnd as [|? ? Hn Hnd']; subst.
    apply insert_sorted_lt; [apply IH; exact Hnd'|].
    intros Hin. apply Hn. apply (TabEngineProps.sorted_In z l). exact Hin.
Qed.

Lemma insert_sorted_le (z : Z) (l : list Z) :
  StronglySorted Z.le l -> StronglySorted Z.le (insert_sorted z l).
Proof.
  induction l as [|y l IH]; intros Hs; simpl.
  - constructor; constructor.
  - apply StronglySorted_inv in Hs. destruct Hs as [Hs Hy].
    destruct (z <=? y)%Z eqn:E.
    + apply Z.leb_le in E.
      constructor; [constructor; assumption|].
      constructor; [exact E|].
      rewrite Forall_forall in *. intros w Hw. specialize (Hy w Hw). lia.
    + apply Z.leb_gt in E. constructor; [apply IH; exact Hs|].
      rewrite Forall_forall in *. intros w Hw.
      apply TabEngineProps.insert_sorted_In in Hw.
      destruct Hw as [->|Hw]; [lia | apply Hy; exact Hw].
Qed.

Lemma sorted_le (l : list Z) : StronglySorted Z.le (sorted l).
Proof.
  unfold sorted. induction l as [|z l IH]; simpl; [constructor|].
  apply insert_sorted_le. exact IH.
Qed.

Lemma sorted_nil_inv (l : list Z) : sorted l = [] -> l = [].
Proof.
  destruct l as [|z l]; [reflexivity|]. unfold sorted. simpl.
  destruct (fold_right insert_sorted [] l) as [|y l']; simpl;
    [discriminate|].
  destruct (z <=? y)%Z; discriminate.
Qed.

Lemma join_codes_cell (codes : list Z) :
  match codes with
  | [] => Null
  | _ => Str (join_codes codes)
  end = codes_cell (sorted codes).
Proof.
  unfold codes_cell, join_codes.
  destruct codes as [|z l]; [reflexivity|].
  destruct (sorted (z :: l)) eqn:E; [|reflexivity].
  apply sorted_nil_inv in E. discriminate.
Qed.

(** *** QualiMultipleRecode.calculate *)

Lemma mem_Z_In (z : Z) (l : list Z) : mem_Z z l = true <-> In z l.
Proof.
  unfold mem_Z. rewrite existsb_exists. split.
  - intros [y [Hin Hy]]. apply Z.eqb_eq in Hy. subst y. exact Hin.
  - intros Hin. exists z. split; [exact Hin | apply Z.eqb_refl].
Qed.

Lemma nth_map_default {A B : Type} (f : A -> B) (l : list A) (i : nat)
  (d : A) (e : B) :
  f d = e -> nth i (map f l) e = f (nth i l d).
Proof. intros <-. apply map_nth. Qed.

Lemma add_selection_length (code : Z) (selections : list (list Z))
  (mask : list bool) (n : nat) :
  length selections = n -> length mask = n ->
  length (add_selection code selections mask) = n.
Proof.
  intros Hs Hm. unfold add_selection.
  rewrite length_map, length_combine, Hs, Hm. apply Nat.min_id.
Qed.

Lemma add_selection_nth (code : Z) (selections : list (list Z))
  (mask : list bool) (i : nat) :
  length selections = length mask ->
  nth i (add_selection code selections mask) []
  = if nth i mask false then
      if mem_Z code (nth i selections []) then nth i selections []
      else nth i selections [] ++ [code]
    else nth i selections [].
Proof.
  intros Hlen. unfold add_selection.
  rewrite (nth_map_default _ _ _ ([], false)) by reflexivity.
  rewrite combine_nth by exact Hlen. reflexivity.
Qed.

Lemma quali_multiple_loop_union (recode : string) (df : DataFrame)
  (datamap : DataMap) (lines : list string) :
  well_formed df ->
  forall selections0 selections,
  length selections0 = nrows df ->
  quali_multiple_loop recode df datamap lines selections0 = Ok selections ->
  exists entries,
    line_series recode df datamap lines = Ok entries
    /\ length selections = nrows df
    /\ forall i,
       (NoDup (nth i selections0 []) -> NoDup (nth i selections []))
       /\ forall z,
          In z (nth i selections [])
          <-> In z (nth i selections0 [])
              \/ exists entry, In entry entries /\ fst entry = z
                               /\ matches_row i entry = true.
Proof.
  intros Hwf.
  induction lines as [|line lines IH]; intros sel0 sel H0 H; simpl in H;
    simpl line_series.
  - injection H as <-. exists []. split; [reflexivity|]. split; [exact H0|].
    intros i. split; [tauto|]. intros z. split; [tauto|].
    intros [Hin|[entry [[] _]]]. exact Hin.
  - destruct (contains_char ":" line); [|apply (IH _ _ H0 H)].
    destruct (split_once ":" line) as [code_str condition].
    destruct (py_int (strip code_str)) as [code|]; [|discriminate].
    destruct (evaluate_formula df (strip condition) datamap) as [mask|e] eqn:He;
      [|discriminate].
    pose proof (evaluate_formula_length _ _ _ _ Hwf He) as Hm.
    destruct (IH _ _ (add_selection_length _ _ _ _ H0 Hm) H)
      as [entries [Hs [Hlen Hall]]].
    exists ((code, mask) :: entries). rewrite Hs. cbn [bind].
    split; [reflexivity|]. split; [exact Hlen|].
    intros i. destruct (Hall i) as [Hnd Hin].
    rewrite add_selection_nth in Hnd, Hin by congruence.
    split.
    + intros Hnd0. apply Hnd.
      destruct (nth i mask false); [|exact Hnd0].
      destruct (mem_Z code (nth i sel0 [])) eqn:Hmem; [exact Hnd0|].
      apply NoDup_app; [exact Hnd0 | constructor; [intros [] | constructor] |].
      intros x Hx [<-|[]]. apply mem_Z_In in Hx. congruence.
    + intros z. rewrite Hin. unfold matches_row. split.
      * intros [Hz|[entry [He' [Hf Hmr]]]].
        -- destruct (nth i mask false) eqn:Hmi; [|left; exact Hz].
           destruct (mem_Z code (nth i sel0 [])) eqn:Hmem; [left; exact Hz|].
           apply in_app_or in Hz. destruct Hz as [Hz|[<-|[]]]; [left; exact Hz|].
           right. exists (code, mask). simpl.
           split; [left; reflexivity|]. split; [reflexivity | exact Hmi].
        -- right. exists entry. split; [right; exact He'|]. split; assumption.
      * intros [Hz|[entry [[<-|He'] [Hf Hmr]]]].
        -- left. destruct (nth i mask false); [|exact Hz].
           destruct (mem_Z code (nth i sel0 [])); [exact Hz|].
           apply in_or_app. left. exact Hz.
        -- simpl in Hf, Hmr. subst z. left. rewrite Hmr.
           destruct (mem_Z code (nth i sel0 [])) eqn:Hmem.
           ++ apply mem_Z_In. exact Hmem.
           ++ apply in_or_app. right. left. reflexivity.
        -- right. exists entry. split; [exact He'|]. split; assumption.
Qed.

Lemma nth_repeat_nil (i n : nat) : nth i (repeat (@nil Z) n) [] = [].
Proof. apply nth_repeat. Qed.

(** X9.  On a frame with one cell per row and column, the result of
    QualiMultipleRecode.calculate has one cell per row; the cell of a row
    holds the codes of the formula lines whose condition matches the row,
    each code once, in ascending order, joined by commas; it is null when
    no line matches the row. *)
Theorem quali_multiple_sorted_union (b : RecodeBase) (df : DataFrame)
  (datamap : DataMap) (result : list cell) :
  well_formed df ->
  quali_multiple_calculate b df datamap = Ok result ->
  exists lines,
    line_series (name b) df datamap (formula_lines (formula b)) = Ok lines
    /\ length result = nrows df
    /\ forall i, exists codes,
         nth i result Null = codes_cell codes
         /\ StronglySorted Z.lt codes
         /\ forall z,
            In z codes
            <-> exists entry, In entry lines /\ fst entry = z
                              /\ matches_row i entry = true.
Proof.
  intros Hwf H. unfold quali_multiple_calculate in H.
  destruct (quali_multiple_loop (name b) df datamap (formula_lines (formula b))
              (repeat [] (nrows df))) as [selections|] eqn:Hl;
    cbn [bind] in H; [|discriminate].
  injection H as <-.
  destruct (quali_multiple_loop_union _ _ _ _ Hwf _ _
              (repeat_length [] (nrows df)) Hl) as [entries [Hs [Hlen Hall]]].
  exists entries. split; [exact Hs|]. split; [rewrite length_map; exact Hlen|].
  intros i. exists (sorted (nth i selections [])).
  destruct (Hall i) as [Hnd Hin]. rewrite nth_repeat_nil in Hnd, Hin.
  split; [|split].
  - rewrite (nth_map_default _ _ _ []) by reflexivity. apply join_codes_cell.
  - apply sorted_lt. apply Hnd. constructor.
  - intros z. rewrite TabEngineProps.sorted_In, Hin. split.
    + intros [[]|Hex]. exact Hex.
    + intros Hex. right. exact Hex.
Qed.

Lemma brands_well_formed : well_formed brands.
Proof. intros n col [H|[]]. injection H as <- <-. reflexivity. Qed.

Lemma quali_multiple_sorted_union_witness :
  exists lines,
    line_series "Known" brands brands_schema
      (formula_lines (dq "3: ['Q23A'C1,3]" ++ String newline (dq "1: ['Q23A'C1,2]")))
    = Ok lines
    /\ length [Str "1,3"; Null; Str "3"] = nrows brands
    /\ forall i, exists codes,
         nth i [Str "1,3"; Null; Str "3"] Null = codes_cell codes
         /\ StronglySorted Z.lt codes
         /\ forall z,
            In z codes
            <-> exists entry, In entry lines /\ fst entry = z
                              /\ matches_row i entry = true.
Proof.
  apply (quali_multiple_sorted_union
           (mkRecodeBase "Known" "Known brands"
              (dq "3: ['Q23A'C1,3]" ++ String newline (dq "1: ['Q23A'C1,2]")) false)
           brands brands_schema [Str "1,3"; Null; Str "3"] brands_well_formed).
  vm_compute. reflexivity.
Defined.

(** *** WeightRecode.calculate *)

Lemma weight_loop_last (df : DataFrame) (datamap : DataMap)
  (weights : list (string * Q)) :
  well_formed df ->
  forall result0 result,
  length result0 = nrows df ->
  weight_loop df datamap weights result0 = Ok result ->
  exists pairs,
    weight_series df datamap weights = Ok pairs
    /\ length result = nrows df
    /\ forall i d, nth i result d
         = match last_match pairs i with
           | Some w => Float w
           | None => nth i result0 d
           end.
Proof.
  intros Hwf.
  induction weights as [|[condition weight] weights IH];
    intros result0 result H0 H; simpl in H; simpl weight_series.
  - injection H as <-. exists []. repeat split; try assumption.
  - destruct (evaluate_formula df condition datamap) as [mask|e] eqn:He;
      [|discriminate].
    pose proof (evaluate_formula_length _ _ _ _ Hwf He) as Hm.
    destruct (IH _ _ (loc_assign_length _ _ _ _ H0 Hm) H)
      as [pairs [Hs [Hlen Hnth]]].
    exists ((weight, mask) :: pairs). rewrite Hs. cbn [bind].
    repeat split; try assumption.
    intros i d. rewrite Hnth, last_match_cons.
    destruct (last_match pairs i); [reflexivity|].
    rewrite loc_assign_nth by congruence.
    unfold matches_row. simpl snd. simpl fst.
    destruct (nth i mask false); reflexivity.
Qed.

(** X10.  On a frame with one cell per row and column, the result of
    WeightRecode.calculate has one weight per row: the weight of the last
    pair, in declared order, whose condition matches the row, and 1.0
    when no condition matches it. *)
Theorem weight_last_pair_wins (weights : list (string * Q)) (df : DataFrame)
  (datamap : DataMap) (result : list cell) :
  well_formed df ->
  weight_calculate weights df datamap = Ok result ->
  exists pairs,
    weight_series df datamap weights = Ok pairs
    /\ length result = nrows df
    /\ forall i, i < nrows df ->
       nth i result (Float 1)
       = match last_match pairs i with
         | Some w => Float w
         | None => Float 1
         end.
Proof.
  intros Hwf H. unfold weight_calculate in H.
  destruct (weight_loop_last _ _ _ Hwf _ _ (repeat_length (Float 1) (nrows df)) H)
    as [pairs [Hs [Hlen Hnth]]].
  exists pairs. repeat split; try assumption.
  intros i _. rewrite Hnth.
  destruct (last_match pairs i); [reflexivity | apply nth_repeat].
Qed.

Lemma weight_last_pair_wins_witness :
  exists pairs,
    weight_series ages survey_schema
      [(dq "['Age'>=18]", 0.5%Q); (dq "['Age'>=30]", 2%Q)] = Ok pairs
    /\ length [Float 0.5; Float 2] = nrows ages
    /\ forall i, i < nrows ages ->
       nth i [Float 0.5; Float 2] (Float 1)
       = match last_match pairs i with
         | Some w => Float w
         | None => Float 1
         end.
Proof.
  apply (weight_last_pair_wins
           [(dq "['Age'>=18]", 0.5%Q); (dq "['Age'>=30]", 2%Q)]
           ages survey_schema [Float 0.5; Float 2]
           RecodeEngineProps.ages_well_formed).
  vm_compute. reflexivity.
Defined.

(** *** QualiMultiINIRecode.calculate *)

Lemma add_subtotal_codes_In (subtotals : list (Z * list Z)) (codes : list Z) :
  forall result_codes z,
  In z (add_subtotal_codes subtotals codes result_codes)
  <-> In z result_codes
      \/ exists members, In (z, members) subtotals
                         /\ exists m, In m members /\ In m codes.
Proof.
  induction subtotals as [|[st_code st_members] subtotals IH];
    intros result_codes z; simpl.
  - split; [tauto|]. intros [H|[members [[] _]]]. exact H.
  - rewrite IH. clear IH.
    assert (Hany : existsb (fun c => mem_Z c codes) st_members = true
                   <-> exists m, In m st_members /\ In m codes).
    { rewrite existsb_exists. split; intros [m [Hm Hc]]; exists m;
        (split; [exact Hm | apply mem_Z_In; exact Hc]). }
    split.
    + intros [Hz|[members [Hin Hex]]].
      * destruct (existsb (fun c => mem_Z c codes) st_members) eqn:Hany';
          [|left; exact Hz].
        destruct (mem_Z st_code result_codes); [left; exact Hz|].
        apply in_app_or in Hz. destruct Hz as [Hz|[<-|[]]]; [left; exact Hz|].
        right. exists st_members. split; [left; reflexivity|].
        apply Hany. reflexivity.
      * right. exists members. split; [right; exact Hin | exact Hex].
    + intros [Hz|[members [[Heq|Hin] Hex]]].
      * left. destruct (existsb (fun c => mem_Z c codes) st_members);
          [|exact Hz].
        destruct (mem_Z st_code result_codes); [exact Hz|].
        apply in_or_app. left. exact Hz.
      * injection Heq as -> ->. left.
        apply Hany in Hex. rewrite Hex.
        destruct (mem_Z z result_codes) eqn:Hmem.
        -- apply mem_Z_In. exact Hmem.
        -- apply in_or_app. right. left. reflexivity.
      * right. exists members. split; [exact Hin | exact Hex].
Qed.

Lemma source_column_inv (b : RecodeBase) (df : DataFrame) (col : list cell) :
  source_column b df = Ok col ->
  exists var, search_reference (formula b) = Some var
              /\ dict_get (columns df) var = Some col.
Proof.
  unfold source_column.
  destruct (search_reference (formula b)) as [var|]; [|discriminate].
  destruct (dict_get (columns df) var) as [col'|] eqn:Hc; [|discriminate].
  intros [= <-]. exists var. split; [reflexivity | exact Hc].
Qed.

(** X11.  The result of QualiMultiINIRecode.calculate has one cell per cell
    of the source column.  A missing cell stays missing.  Another cell
    becomes the comma-joined ascending list of its own codes and of every
    sub-total code one of whose members is among them. *)
Theorem subtotals_are_added (b : RecodeBase) (subtotals : list (Z * list Z))
  (df : DataFrame) (result : list cell) :
  quali_multi_ini_calculate b subtotals df = Ok result ->
  exists var col,
    search_reference (formula b) = Some var
    /\ dict_get (columns df) var = Some col
    /\ length result = length col
    /\ forall i c, nth_error col i = Some c ->
       if isna c then nth_error result i = Some Null
       else exists codes result_codes,
         cell_codes c = Ok codes
         /\ nth_error result i = Some (Str (String.concat "," (map str_of_Z result_codes)))
         /\ StronglySorted Z.le result_codes
         /\ forall z,
            In z result_codes
            <-> In z codes
                \/ exists members, In (z, members) subtotals
                                   /\ exists m, In m members /\ In m codes.
Proof.
  unfold quali_multi_ini_calculate. intros H.
  destruct (source_column b df) as [col|] eqn:Hs; cbn [bind] in H;
    [|discriminate].
  destruct (source_column_inv _ _ _ Hs) as [var [Hv Hc]].
  exists var, col. split; [exact Hv|]. split; [exact Hc|].
  split; [apply (mapM_length _ _ _ H)|].
  intros i c Hi. destruct (mapM_nth_error _ _ _ H i c Hi) as [r [Hr Hn]].
  unfold add_subtotals in Hr. destruct (isna c).
  - injection Hr as <-. exact Hn.
  - destruct (cell_codes c) as [codes|]; cbn [bind] in Hr; [|discriminate].
    injection Hr as <-.
    exists codes, (sorted (add_subtotal_codes subtotals codes codes)).
    split; [reflexivity|]. split; [exact Hn|]. split; [apply sorted_le|].
    intros z. rewrite TabEngineProps.sorted_In. apply add_subtotal_codes_In.
Qed.

Lemma subtotals_are_added_witness :
  exists var col,
    search_reference (dq "['Q23A']") = Some var
    /\ dict_get (columns brands) var = Some col
    /\ length [Str "1,2,101"; Null; Str "3,102"] = length col
    /\ forall i c, nth_error col i = Some c ->
       if isna c then nth_error [Str "1,2,101"; Null; Str "3,102"] i = Some Null
       else exists codes result_codes,
         cell_codes c = Ok codes
         /\ nth_error [Str "1,2,101"; Null; Str "3,102"] i
            = Some (Str (String.concat "," (map str_of_Z result_codes)))
         /\ StronglySorted Z.le result_codes
         /\ forall z,
            In z result_codes
            <-> In z codes
                \/ exists members,
                     In (z, members) [(101%Z, [1%Z; 2%Z]); (102%Z, [3%Z])]
                     /\ exists m, In m members /\ In m codes.
Proof.
  apply (subtotals_are_added
           (mkRecodeBase "Q23A_ST" "Brands with sub-totals" (dq "['Q23A']") false)
           [(101%Z, [1%Z; 2%Z]); (102%Z, [3%Z])] brands
           [Str "1,2,101"; Null; Str "3,102"]).
  vm_compute. reflexivity.
Defined.

(** *** NumberOfAnswersRecode.calculate *)

Lemma filter_map_length {A B : Type} (f : B -> bool) (g : A -> B) (l : list A) :
  length (filter f (map g l)) = length (filter (fun x => f (g x)) l).
Proof.
  induction l as [|x l IH]; simpl; [reflexivity|].
  destruct (f (g x)); simpl; rewrite IH; reflexivity.
Qed.

Lemma count_answers_codes (c : cell) (codes : list Z) :
  cell_codes c = Ok codes ->
  count_answers c = Int (Z.of_nat (length codes)).
Proof.
  destruct c as [| |z|q|s]; simpl; try (intros [= <-]; reflexivity).
  intros H. unfold count_answers. simpl.
  rewrite filter_map_length, (mapM_length _ _ _ H). reflexivity.
Qed.

(** X12.  The result of NumberOfAnswersRecode.calculate has one count per
    cell of the column named first in the formula; wherever FormulaParser
    can read the codes of the cell, the count is the number of these
    codes, so 0 for a missing cell. *)
Theorem number_of_answers_counts_codes (b : RecodeBase) (df : DataFrame)
  (result : list cell) :
  number_of_answers_calculate b df = Ok result ->
  exists var col,
    search_reference (formula b) = Some var
    /\ dict_get (columns df) var = Some col
    /\ length result = length col
    /\ forall i c codes,
       nth_error col i = Some c ->
       cell_codes c = Ok codes ->
       nth_error result i = Some (Int (Z.of_nat (length codes))).
Proof.
  unfold number_of_answers_calculate. intros H.
  destruct (source_column b df) as [col|] eqn:Hs; cbn [bind] in H;
    [|discriminate].
  injection H as <-.
  destruct (source_column_inv _ _ _ Hs) as [var [Hv Hc]].
  exists var, col. split; [exact Hv|]. split; [exact Hc|].
  split; [apply length_map|].
  intros i c codes Hi Hcodes.
  rewrite nth_error_map, Hi. simpl.
  rewrite (count_answers_codes _ _ Hcodes). reflexivity.
Qed.

Lemma number_of_answers_counts_codes_witness :
  exists var col,
    search_reference (dq "['Q23A']") = Some var
    /\ dict_get (columns brands) var = Some col
    /\ length [Int 2; Int 0; Int 1] = length col
    /\ forall i c codes,
       nth_error col i = Some c ->
       cell_codes c = Ok codes ->
       nth_error [Int 2; Int 0; Int 1] i = Some (Int (Z.of_nat (length codes))).
Proof.
  apply (number_of_answers_counts_codes
           (mkRecodeBase "Q23A_Count" "Number of brands" (dq "['Q23A']") false)
           brands [Int 2; Int 0; Int 1]).
  vm_compute. reflexivity.
Defined.

(** *** CombinationRecode.calculate *)

Lemma Qeq_bool_sym (x y : Q) : Qeq_bool x y = Qeq_bool y x.
Proof.
  destruct (Qeq_bool x y) eqn:E1, (Qeq_bool y x) eqn:E2; try reflexivity.
  - apply Qeq_bool_iff in E1. apply Qeq_bool_neq in E2. exfalso. apply E2.
    symmetry. exact E1.
  - apply Qeq_bool_iff in E2. apply Qeq_bool_neq in E1. exfalso. apply E1.
    symmetry. exact E2.
Qed.

Lemma Qeq_bool_trans_true (x y z : Q) :
  Qeq_bool x y = true -> Qeq_bool y z = true -> Qeq_bool x z = true.
Proof.
  rewrite !Qeq_bool_iff. intros H1 H2. rewrite H1. exact H2.
Qed.

Lemma cell_eqb_refl (c : cell) : cell_eqb c c = true.
Proof.
  destruct c; simpl; try reflexivity.
  - apply Qeq_bool_iff. reflexivity.
  - apply Qeq_bool_iff. reflexivity.
  - apply String.eqb_refl.
Qed.

Lemma cell_eqb_sym (a b : cell) : cell_eqb a b = cell_eqb b a.
Proof.
  destruct a, b; simpl; try reflexivity; try apply Qeq_bool_sym.
  apply String.eqb_sym.
Qed.

Lemma cell_eqb_trans (a b c : cell) :
  cell_eqb a b = true -> cell_eqb b c = true -> cell_eqb a c = true.
Proof.
  destruct a, b; simpl; try discriminate; destruct c; simpl;
    try discriminate; try (intros; reflexivity);
    try apply Qeq_bool_trans_true.
  intros H1 H2. apply String.eqb_eq in H1, H2. subst. apply String.eqb_refl.
Qed.

Lemma cell_eqb_ext (a b : cell) :
  cell_eqb a b = true -> forall y, cell_eqb a y = cell_eqb b y.
Proof.
  intros H y.
  destruct (cell_eqb a y) eqn:E1, (cell_eqb b y) eqn:E2; try reflexivity.
  - rewrite cell_eqb_sym in H.
    rewrite (cell_eqb_trans _ _ _ H E1) in E2. discriminate.
  - rewrite (cell_eqb_trans _ _ _ H E2) in E1. discriminate.
Qed.

Lemma combo_index_ext (combos : list cell) (a b : cell) :
  (forall y, cell_eqb a y = cell_eqb b y) ->
  forall idx, combo_index combos a idx = combo_index combos b idx.
Proof.
  intros H. induction combos as [|y combos IH]; intros idx; simpl;
    [reflexivity|].
  rewrite H. destruct (cell_eqb b y); [reflexivity | apply IH].
Qed.

Lemma combo_index_spec (combos : list cell) (c : cell) :
  forall idx k,
  combo_index combos c idx = Some k ->
  (idx < k <= idx + Z.of_nat (length combos))%Z
  /\ exists y, nth_error combos (Z.to_nat (k - idx - 1)) = Some y
               /\ cell_eqb c y = true.
Proof.
  induction combos as [|y combos IH]; intros idx k H; simpl in H;
    [discriminate|].
  destruct (cell_eqb c y) eqn:E.
  - injection H as <-. split; [simpl length; lia|].
    exists y. replace (idx + 1 - idx - 1)%Z with 0%Z by lia.
    split; [reflexivity | exact E].
  - destruct (IH _ _ H) as [Hk [y' [Hn Hy']]].
    split; [simpl length; lia|]. exists y'.
    replace (Z.to_nat (k - idx - 1)) with (S (Z.to_nat (k - (idx + 1) - 1)))
      by lia.
    split; [exact Hn | exact Hy'].
Qed.

Lemma combo_index_found (combos : list cell) (c y : cell) :
  In y combos -> cell_eqb c y = true ->
  forall idx, exists k, combo_index combos c idx = Some k.
Proof.
  induction combos as [|y' combos IH]; intros Hin Hy idx; [contradiction|].
  simpl. destruct (cell_eqb c y') eqn:E; [eexists; reflexivity|].
  destruct Hin as [->|Hin]; [congruence|]. apply (IH Hin Hy).
Qed.

Lemma unique_covers (col : list cell) :
  forall seen c,
  In c col -> isna c = false ->
  (exists y, In y seen /\ cell_eqb c y = true)
  \/ (exists y, In y (unique col seen) /\ cell_eqb c y = true).
Proof.
  induction col as [|h col IH]; intros seen c Hin Hna; [contradiction|].
  simpl. destruct Hin as [->|Hin].
  - rewrite Hna. simpl.
    destruct (existsb (cell_eqb c) seen) eqn:E.
    + left. apply existsb_exists in E. exact E.
    + right. exists c. split; [left; reflexivity | apply cell_eqb_refl].
  - destruct (isna h || existsb (cell_eqb h) seen); [apply (IH _ _ Hin Hna)|].
    destruct (IH (h :: seen) c Hin Hna) as [[y [Hy Hc]]|[y [Hy Hc]]].
    + destruct Hy as [<-|Hy].
      * right. exists h. split; [left; reflexivity | exact Hc].
      * left. exists y. split; [exact Hy | exact Hc].
    + right. exists y. split; [right; exact Hy | exact Hc].
Qed.

Lemma insert_cell_In (c : cell) (l : list cell) (y : cell) :
  In y (insert_cell c l) <-> y = c \/ In y l.
Proof.
  induction l as [|x l IH]; simpl; [intuition congruence|].
  destruct (cell_leb c x); simpl; [intuition congruence|].
  rewrite IH. intuition congruence.
Qed.

Lemma insert_cell_length (c : cell) (l : list cell) :
  length (insert_cell c l) = S (length l).
Proof.
  induction l as [|x l IH]; simpl; [reflexivity|].
  destruct (cell_leb c x); simpl; [reflexivity | rewrite IH; reflexivity].
Qed.

Lemma sorted_cells_In (l combos : list cell) :
  sorted_cells l = Ok combos ->
  length combos = length l /\ forall y, In y combos <-> In y l.
Proof.
  unfold sorted_cells.
  destruct (existsb is_text l && existsb (fun c => negb (is_text c)) l);
    [discriminate|].
  intros [= <-]. induction l as [|x l [IHl IHi]]; simpl.
  - split; [reflexivity | tauto].
  - split; [rewrite insert_cell_length, IHl; reflexivity|].
    intros y. rewrite insert_cell_In, IHi. intuition congruence.
Qed.

(** X30.  The result of CombinationRecode.calculate has one cell per cell
    of the source column.  A missing cell stays missing.  Every other cell
    gets a code between 1 and the number of different values of the
    column, and two cells get the same code exactly when their values are
    equal; the codes are floats when the column has a missing cell. *)
Theorem combination_codes (b : RecodeBase) (df : DataFrame)
  (result : list cell) :
  combination_calculate b df = Ok result ->
  exists var col,
    search_reference (formula b) = Some var
    /\ dict_get (columns df) var = Some col
    /\ length result = length col
    /\ (forall i c, nth_error col i = Some c -> isna c = true ->
                    nth_error result i = Some Null)
    /\ forall i j ci cj,
       nth_error col i = Some ci -> nth_error col j = Some cj ->
       isna ci = false -> isna cj = false ->
       exists ki kj,
         nth_error result i
         = Some (if existsb isna col then Float (inject_Z ki) else Int ki)
         /\ nth_error result j
            = Some (if existsb isna col then Float (inject_Z kj) else Int kj)
         /\ (1 <= ki <= Z.of_nat (length (unique col [])))%Z
         /\ (ki = kj <-> cell_eqb ci cj = true).
Proof.
  unfold combination_calculate. intros H.
  destruct (source_column b df) as [col|] eqn:Hs; cbn [bind] in H;
    [|discriminate].
  destruct (sorted_cells (unique col [])) as [combos|] eqn:Hsort;
    cbn [bind] in H; [|discriminate].
  injection H as <-.
  destruct (source_column_inv _ _ _ Hs) as [var [Hv Hc]].
  destruct (sorted_cells_In _ _ Hsort) as [Hlen Hin].
  exists var, col. split; [exact Hv|]. split; [exact Hc|].
  split; [apply length_map|]. split.
  - intros i c Hi Hna. rewrite nth_error_map, Hi. simpl.
    unfold map_combo. rewrite Hna. reflexivity.
  - assert (Hcode : forall i c, nth_error col i = Some c -> isna c = false ->
              exists k, combo_index combos c 0 = Some k
                /\ nth_error (map (map_combo combos (existsb isna col)) col) i
                   = Some (if existsb isna col then Float (inject_Z k)
                           else Int k)).
    { intros i c Hi Hna.
      destruct (unique_covers col [] c (nth_error_In _ _ Hi) Hna)
        as [[y [[] _]]|[y [Hy Hcy]]].
      apply Hin in Hy.
      destruct (combo_index_found _ _ _ Hy Hcy 0%Z) as [k Hk].
      exists k. split; [exact Hk|].
      rewrite nth_error_map, Hi. simpl. unfold map_combo.
      rewrite Hna, Hk. reflexivity. }
    intros i j ci cj Hi Hj Hnai Hnaj.
    destruct (Hcode i ci Hi Hnai) as [ki [Hki Hri]].
    destruct (Hcode j cj Hj Hnaj) as [kj [Hkj Hrj]].
    exists ki, kj. split; [exact Hri|]. split; [exact Hrj|].
    destruct (combo_index_spec _ _ _ _ Hki) as [Hrange [yi [Hyi Hei]]].
    destruct (combo_index_spec _ _ _ _ Hkj) as [_ [yj [Hyj Hej]]].
    split; [rewrite <- Hlen; lia|]. split.
    + intros <-. rewrite Hyi in Hyj. injection Hyj as <-.
      rewrite cell_eqb_sym in Hej. apply (cell_eqb_trans _ _ _ Hei Hej).
    + intros He.
      rewrite (combo_index_ext combos ci cj (cell_eqb_ext _ _ He)) in Hki.
      congruence.
Qed.

Lemma combination_codes_witness :
  exists var col,
    search_reference (dq "['Q23A']") = Some var
    /\ dict_get (columns brands) var = Some col
    /\ length [Float 1; Null; Float 2] = length col
    /\ (forall i c, nth_error col i = Some c -> isna c = true ->
                    nth_error [Float 1; Null; Float 2] i = Some Null)
    /\ forall i j ci cj,
       nth_error col i = Some ci -> nth_error col j = Some cj ->
       isna ci = false -> isna cj = false ->
       exists ki kj,
         nth_error [Float 1; Null; Float 2] i
         = Some (if existsb isna col then Float (inject_Z ki) else Int ki)
         /\ nth_error [Float 1; Null; Float 2] j
            = Some (if existsb isna col then Float (inject_Z kj) else Int kj)
         /\ (1 <= ki <= Z.of_nat (length (unique col [])))%Z
         /\ (ki = kj <-> cell_eqb ci cj = true).
Proof.
  apply (combination_codes
           (mkRecodeBase "Q23A_Combo" "Combinations of brands" (dq "['Q23A']") false)
           brands [Float 1; Null; Float 2]).
  vm_compute. reflexivity.
Defined.

(** *** RecodeEngine.validate *)

Lemma filter_nil_iff {A : Type} (f : A -> bool) (l : list A) :
  filter f l = [] <-> forall x, In x l -> f x = false.
Proof.
  induction l as [|y l IH]; simpl.
  - split; [intros _ x [] | reflexivity].
  - destruct (f y) eqn:E.
    + split; [discriminate|]. intros H.
      rewrite (H y (or_introl eq_refl)) in E. discriminate.
    + rewrite IH. split.
      * intros H x [<-|Hx]; [exact E | apply H; exact Hx].
      * intros H x Hx. apply H. right. exact Hx.
Qed.

Lemma flat_map_nil_iff {A B : Type} (f : A -> list B) (l : list A) :
  flat_map f l = [] <-> forall x, In x l -> f x = [].
Proof.
  induction l as [|y l IH]; simpl.
  - split; [intros _ x [] | reflexivity].
  - split.
    + intros H. apply app_eq_nil in H. destruct H as [Hy Hl].
      intros x [<-|Hx]; [exact Hy | apply IH; assumption].
    + intros H. rewrite (H y (or_introl eq_refl)). simpl.
      apply IH. intros x Hx. apply H. right. exact Hx.
Qed.

Lemma count_count_occ (n : string) (names : list string) :
  count n names = count_occ string_dec names n.
Proof.
  unfold count. induction names as [|m names IH]; simpl; [reflexivity|].
  destruct (string_dec m n) as [->|Hne].
  - rewrite String.eqb_refl. simpl. f_equal. exact IH.
  - destruct (String.eqb n m) eqn:E; [|exact IH].
    apply String.eqb_eq in E. congruence.
Qed.

Lemma duplicates_nil_iff (names : list string) :
  duplicates names = [] <-> NoDup names.
Proof.
  unfold duplicates. rewrite filter_nil_iff.
  rewrite (NoDup_count_occ string_dec). split.
  - intros H x. destruct (in_dec string_dec x names) as [Hin|Hnin].
    + specialize (H x Hin). apply Nat.ltb_ge in H.
      rewrite count_count_occ in H. exact H.
    + apply (count_occ_not_In string_dec) in Hnin. rewrite Hnin. lia.
  - intros H x _. apply Nat.ltb_ge. rewrite count_count_occ. apply H.
Qed.

(** X13.  RecodeEngine.validate returns no message exactly when the names
    of the recodes are pairwise different and every variable referenced in
    a formula, as a double-quoted name between square brackets, has a
    Question in the datamap. *)
Theorem validate_passes_iff (recodes : list Recode) (datamap : DataMap) :
  validate recodes datamap = []
  <-> NoDup (map recode_name recodes)
      /\ forall r var,
         In r recodes ->
         In var (find_references (formula (base_of r)) 0) ->
         get_question datamap var <> None.
Proof.
  unfold validate. split.
  - intros H. apply app_eq_nil in H. destruct H as [Hd Hu]. split.
    + apply duplicates_nil_iff.
      destruct (duplicates (map recode_name recodes)); [reflexivity|].
      discriminate.
    + intros r var Hr Hvar Hnone.
      rewrite flat_map_nil_iff in Hu. specialize (Hu r Hr).
      unfold unknown_variables in Hu. rewrite flat_map_nil_iff in Hu.
      specialize (Hu var Hvar). rewrite Hnone in Hu. discriminate.
  - intros [Hnd Hknown]. apply duplicates_nil_iff in Hnd. rewrite Hnd. simpl.
    apply flat_map_nil_iff. intros r Hr. unfold unknown_variables.
    apply flat_map_nil_iff. intros var Hvar.
    specialize (Hknown r var Hr Hvar).
    destruct (get_question datamap var); [reflexivity | contradiction].
Qed.

(** *** RecodeEngine.calculate_all *)

Section CalculateAll.
Variable re_bound : bool.
Variable pd_eval : string -> DataFrame -> res (list cell).

Lemma calculate_loop_app (recodes1 recodes2 : list Recode) :
  forall df datamap,
  calculate_loop re_bound pd_eval (recodes1 ++ recodes2) df datamap
  = match calculate_loop re_bound pd_eval recodes1 df datamap with
    | (Ok df1, datamap1) => calculate_loop re_bound pd_eval recodes2 df1 datamap1
    | (Raise e, datamap1) => (Raise e, datamap1)
    end.
Proof.
  induction recodes1 as [|r recodes1 IH]; intros df datamap; simpl;
    [reflexivity|].
  destruct (calculate re_bound pd_eval r df datamap); [apply IH | reflexivity].
Qed.

(** X14.  calculate_all on a list of recodes is calculate_all on its first
    part followed, when that succeeds, by calculate_all of the rest on the
    frame and the datamap the first part produced: a later recode is
    calculated on the columns and Questions of the earlier ones, and a
    failure of the first part is the failure of the whole. *)
Theorem calculate_all_in_sequence (recodes1 recodes2 : list Recode)
  (s : Session) :
  calculate_all re_bound pd_eval (recodes1 ++ recodes2) s
  = match calculate_all re_bound pd_eval recodes1 s with
    | (Ok df1, s1) =>
        let (outcome, s2) :=
          calculate_all re_bound pd_eval recodes2 (mkSession df1 (schema s1)) in
        (outcome, mkSession (data s) (schema s2))
    | (Raise e, s1) => (Raise e, s1)
    end.
Proof.
  unfold calculate_all. rewrite calculate_loop_app. simpl.
  destruct (calculate_loop re_bound pd_eval recodes1 (data s) (schema s))
    as [[df1|e] datamap1]; [|reflexivity].
  simpl. destruct (calculate_loop re_bound pd_eval recodes2 df1 datamap1).
  reflexivity.
Qed.

Lemma dict_set_new {V : Type} (d : list (string * V)) (k : string) (v : V) :
  dict_get d k = None -> dict_set d k v = d ++ [(k, v)].
Proof.
  induction d as [|[k' v'] d IH]; simpl; [reflexivity|].
  destruct (String.eqb k k'); [discriminate|].
  intros H. rewrite (IH H). reflexivity.
Qed.

Lemma calculate_loop_keeps (recodes : list Recode) :
  forall df datamap df' datamap',
  calculate_loop re_bound pd_eval recodes df datamap = (Ok df', datamap') ->
  NoDup (map recode_name recodes) ->
  (forall r, In r recodes -> dict_get (columns df) (recode_name r) = None) ->
  map fst (columns df') = map fst (columns df) ++ map recode_name recodes
  /\ nrows df' = nrows df
  /\ forall name col,
     dict_get (columns df) name = Some col ->
     dict_get (columns df') name = Some col.
Proof.
  induction recodes as [|r recodes IH]; intros df datamap df' datamap' H Hnd Hnew;
    simpl in H.
  - injection H as <- <-. simpl. rewrite app_nil_r. repeat split.
    intros name col Hc. exact Hc.
  - destruct (calculate re_bound pd_eval r df datamap) as [values|e0];
      [|discriminate].
    simpl in Hnd. inversion Hnd as [|? ? Hnotin Hnd']; subst.
    assert (Hr : dict_get (columns df) (recode_name r) = None)
      by (apply Hnew; left; reflexivity).
    destruct (IH _ _ _ _ H Hnd') as [Hnames [Hrows Hkeep]].
    + intros r' Hin. simpl. rewrite RecodeEngineProps.dict_get_set_other.
      * apply Hnew. right. exact Hin.
      * intros Heq. apply Hnotin. rewrite <- Heq. apply in_map. exact Hin.
    + simpl in Hnames, Hrows, Hkeep. split; [|split].
      * rewrite Hnames, (dict_set_new _ _ _ Hr), map_app, <- app_assoc.
        reflexivity.
      * exact Hrows.
      * intros name col Hc. apply Hkeep.
        rewrite RecodeEngineProps.dict_get_set_other; [exact Hc|].
        intros ->. rewrite Hr in Hc. discriminate.
Qed.

(** X15.  When the names of the recodes are pairwise different and none is
    the name of a column of the frame, the frame returned by a successful
    calculate_all has the columns of the frame passed in, in their order
    and with their values, followed by one column per recode in the order
    of the recodes, and as many rows. *)
Theorem calculate_all_appends_columns (recodes : list Recode) (s s' : Session)
  (df' : DataFrame) :
  NoDup (map recode_name recodes) ->
  (forall r, In r recodes ->
             dict_get (columns (data s)) (recode_name r) = None) ->
  calculate_all re_bound pd_eval recodes s = (Ok df', s') ->
  map fst (columns df') = map fst (columns (data s)) ++ map recode_name recodes
  /\ nrows df' = nrows (data s)
  /\ forall name col,
     dict_get (columns (data s)) name = Some col ->
     dict_get (columns df') name = Some col.
Proof.
  unfold calculate_all. intros Hnd Hnew H.
  destruct (calculate_loop re_bound pd_eval recodes (data s) (schema s))
    as [outcome datamap] eqn:Hl.
  injection H as -> <-.
  apply (calculate_loop_keeps _ _ _ _ _ Hl Hnd Hnew).
Qed.

End CalculateAll.

Lemma calculate_all_appends_columns_witness :
  map fst (columns (mkDataFrame 3 [("Q23A", [Str "1,2"; Null; Str "3"]);
                                   ("Q23A_Count", [Int 2; Int 0; Int 1])]))
  = map fst (columns brands) ++ map recode_name [count_recode]
  /\ nrows (mkDataFrame 3 [("Q23A", [Str "1,2"; Null; Str "3"]);
                           ("Q23A_Count", [Int 2; Int 0; Int 1])])
     = nrows brands
  /\ forall name col,
     dict_get (columns brands) name = Some col ->
     dict_get (columns (mkDataFrame 3 [("Q23A", [Str "1,2"; Null; Str "3"]);
                                       ("Q23A_Count", [Int 2; Int 0; Int 1])]))
              name = Some col.
Proof.
  apply (calculate_all_appends_columns true no_eval [count_recode]
           (mkSession brands brands_schema)
           (mkSession brands (add_question brands_schema (question_of count_recode)))).
  - repeat constructor. intros [].
  - intros r [<-|[]]. reflexivity.
  - vm_compute. reflexivity.
Defined.

End RecodeProps.

(** ** The data structures *)

Module CoreProps.
Import PyStr FormulaParser Core Statements Examples.

(** *** QuestionType.from_string *)

Lemma upper_lower (s : string) : upper (lower s) = upper s.
Proof.
  induction s as [|c s IH]; [reflexivity|].
  cbn [lower]. cbn [upper]. rewrite IH.
  destruct c as [[] [] [] [] [] [] [] []]; reflexivity.
Qed.

Lemma upper_upper (s : string) : upper (upper s) = upper s.
Proof.
  induction s as [|c s IH]; [reflexivity|].
  cbn [upper].
  destruct c as [[] [] [] [] [] [] [] []]; cbv beta iota zeta delta -[upper];
    cbn [upper]; rewrite ?IH; reflexivity.
Qed.

(** X16.  QuestionType.from_string does not look at the case of the
    letters: a text, its lower-case form and its upper-case form give the
    same question type. *)
Theorem from_string_ignores_case (s : string) :
  from_string (lower s) = from_string s
  /\ from_string (upper s) = from_string s.
Proof.
  unfold from_string. rewrite upper_lower, upper_upper. split; reflexivity.
Qed.

(** *** DataMap.add_question and DataMap.get_question *)

(** After add_question the datamap answers the name of the added
    Question with that Question, whether or not the name was filed before,
    and every other name as it did before. *)
Lemma add_question_replaces (dm : DataMap) (q : Question) (n : string) :
  get_question (add_question dm q) n
  = if String.eqb n (q_name q) then Some q else get_question dm n.
Proof.
  unfold get_question, add_question. simpl.
  destruct (String.eqb n (q_name q)) eqn:E.
  - apply String.eqb_eq in E. subst n.
    apply RecodeEngineProps.dict_get_set_same.
  - apply RecodeEngineProps.dict_get_set_other.
    intros ->. rewrite String.eqb_refl in E. discriminate.
Qed.

(** *** DataMap.to_dict and DataMap.from_dict *)

Lemma dict_get_None {V : Type} (d : list (string * V)) (k : string) :
  ~ In k (map fst d) -> dict_get d k = None.
Proof.
  induction d as [|[k' v] d IH]; simpl; intros H; [reflexivity|].
  destruct (String.eqb k k') eqn:E.
  - apply String.eqb_eq in E. exfalso. apply H. left. congruence.
  - apply IH. intros Hin. apply H. right. exact Hin.
Qed.

Lemma codes_set_new (codes : list (Z * string)) (k : Z) (v : string) :
  ~ In k (map fst codes) -> codes_set codes k v = codes ++ [(k, v)].
Proof.
  induction codes as [|[k' v'] codes IH]; simpl; intros H; [reflexivity|].
  destruct (Z.eqb k k') eqn:E.
  - apply Z.eqb_eq in E. exfalso. apply H. left. congruence.
  - rewrite IH; [reflexivity|]. intros Hin. apply H. right. exact Hin.
Qed.

Lemma NoDup_app_cons_notin {A : Type} (l l' : list A) (a : A) :
  NoDup (l ++ a :: l') -> ~ In a l /\ NoDup ((l ++ [a]) ++ l').
Proof.
  intros H. split.
  - apply NoDup_remove_2 in H. intros Hin. apply H.
    apply in_or_app. left. exact Hin.
  - rewrite <- app_assoc. exact H.
Qed.

Lemma read_codes_ints (items : list (Z * string)) :
  forall codes,
  NoDup (map fst codes ++ map fst items) ->
  read_codes (map (fun c : Z * string => (KInt (fst c), snd c)) items) codes
  = Ok (codes ++ items).
Proof.
  induction items as [|[k v] items IH]; intros codes Hnd; simpl.
  - rewrite app_nil_r. reflexivity.
  - simpl in Hnd. apply NoDup_app_cons_notin in Hnd. destruct Hnd as [Hk Hnd].
    rewrite (codes_set_new _ _ _ Hk), IH.
    + rewrite <- app_assoc. reflexivity.
    + rewrite map_app. exact Hnd.
Qed.

Lemma qtype_of_value_value (qt : QuestionType) :
  qtype_of_value (qtype_value qt) = Ok qt.
Proof. destruct qt; reflexivity. Qed.

Lemma from_dict_loop_to_dict (qs : list (string * Question)) :
  forall acc,
  NoDup (map fst acc ++ map fst qs) ->
  (forall k q, In (k, q) qs -> q_name q = k /\ NoDup (map fst (q_codes q))) ->
  from_dict_loop (to_dict (mkDataMap qs)) (mkDataMap acc)
  = Ok (mkDataMap (acc ++ qs)).
Proof.
  unfold to_dict. simpl.
  induction qs as [|[k q] qs IH]; intros acc Hnd Hq; simpl.
  - rewrite app_nil_r. reflexivity.
  - destruct (Hq k q (or_introl eq_refl)) as [Hname Hcodes].
    rewrite qtype_of_value_value. cbn [bind].
    rewrite (read_codes_ints (q_codes q) []) by exact Hcodes.
    cbn [bind app].
    simpl in Hnd. apply NoDup_app_cons_notin in Hnd. destruct Hnd as [Hk Hnd].
    replace (mkQuestion k (q_qtype q) (q_title q) (q_codes q)) with q
      by (destruct q; simpl in *; subst; reflexivity).
    unfold add_question. simpl. rewrite Hname.
    rewrite (RecodeProps.dict_set_new _ _ _ (dict_get_None _ _ Hk)).
    rewrite IH.
    + rewrite <- app_assoc. reflexivity.
    + rewrite map_app. exact Hnd.
    + intros k' q' Hin. apply Hq. right. exact Hin.
Qed.

(** X18.  from_dict gives back the datamap that to_dict serialized, when
    every Question is filed under its own name, no name is filed twice and
    no code table holds a code twice. *)
Theorem from_dict_to_dict (dm : DataMap) :
  consistent dm -> from_dict (to_dict dm) = Ok dm.
Proof.
  intros [Hnd Hq]. destruct dm as [qs]. unfold from_dict.
  apply (from_dict_loop_to_dict qs [] Hnd Hq).
Qed.

Lemma survey_schema_consistent : consistent survey_schema.
Proof.
  split.
  - vm_compute. repeat constructor; simpl; intuition discriminate.
  - intros k q [H|[H|[]]]; injection H as <- <-; split; try reflexivity;
      vm_compute; repeat constructor; simpl; intuition discriminate.
Qed.

Lemma from_dict_to_dict_witness :
  from_dict (to_dict survey_schema) = Ok survey_schema.
Proof. apply (from_dict_to_dict survey_schema survey_schema_consistent). Defined.

(** *** DataMap.validate_dataframe *)

Lemma dict_mem_In {V : Type} (d : list (string * V)) (k : string) :
  dict_mem d k = true <-> In k (map fst d).
Proof.
  unfold dict_mem. induction d as [|[k' v] d IH]; simpl.
  - split; [discriminate | contradiction].
  - destruct (String.eqb k k') eqn:E.
    + apply String.eqb_eq in E. split; [left; congruence | reflexivity].
    + rewrite IH. split; [right; assumption|].
      intros [H|H]; [|exact H].
      subst k'. rewrite String.eqb_refl in E. discriminate.
Qed.

Lemma names_not_in_nil {V W : Type} (d : list (string * V))
  (d' : list (string * W)) :
  names_not_in d d' = []
  <-> forall n, dict_mem d n = true -> dict_mem d' n = true.
Proof.
  unfold names_not_in. rewrite RecodeProps.filter_nil_iff. split.
  - intros H n Hn. apply dict_mem_In in Hn. specialize (H n Hn).
    apply negb_false_iff in H. exact H.
  - intros H n Hn. apply negb_false_iff. apply H. apply dict_mem_In. exact Hn.
Qed.

Lemma if_is_nil {A B : Type} (l : list A) (b : B) :
  (if is_nil l then [] else [b]) = [] <-> l = [].
Proof. destruct l; simpl; split; congruence. Qed.

Lemma invalid_count_zero (q : Question) (col : list cell) :
  (0 <? invalid_count q col) = false
  <-> forall v, In v (firstn 100 col) -> validate_value q v = true.
Proof.
  unfold invalid_count. rewrite Nat.ltb_ge, Nat.le_0_r, length_zero_iff_nil.
  rewrite RecodeProps.filter_nil_iff. split; intros H v Hv.
  - apply negb_false_iff. apply H. exact Hv.
  - apply negb_false_iff. apply H. exact Hv.
Qed.

(** X19.  validate_dataframe returns no message exactly when the datamap
    and the frame have the same names and, in every column, each of the
    first 100 cells is a valid value of the Question of that name; cells
    after the first 100 are not looked at. *)
Theorem validate_dataframe_passes_iff (dm : DataMap) (df : DataFrame) :
  validate_dataframe dm df = []
  <-> (forall n, dict_mem (questions dm) n = dict_mem (columns df) n)
      /\ forall n q col v,
         In (n, q) (questions dm) ->
         dict_get (columns df) n = Some col ->
         In v (firstn 100 col) ->
         validate_value q v = true.
Proof.
  unfold validate_dataframe. split.
  - intros H. apply app_eq_nil in H. destruct H as [Hm H].
    apply app_eq_nil in H. destruct H as [He Hv].
    apply if_is_nil in Hm. apply if_is_nil in He.
    pose proof (proj1 (names_not_in_nil _ _) Hm) as Hm'.
    pose proof (proj1 (names_not_in_nil _ _) He) as He'.
    clear Hm He. rename Hm' into Hm. rename He' into He. split.
    + intros n. destruct (dict_mem (questions dm) n) eqn:E1.
      * symmetry. apply Hm. exact E1.
      * destruct (dict_mem (columns df) n) eqn:E2; [|reflexivity].
        rewrite (He n E2) in E1. discriminate.
    + intros n q col v Hin Hcol Hv'.
      rewrite RecodeProps.flat_map_nil_iff in Hv. specialize (Hv (n, q) Hin).
      simpl in Hv. rewrite Hcol in Hv.
      destruct (0 <? invalid_count q col) eqn:E; [discriminate|].
      apply (proj1 (invalid_count_zero q col) E v Hv').
  - intros [Hnames Hvalid].
    assert (Hm : names_not_in (questions dm) (columns df) = []).
    { apply names_not_in_nil. intros n Hn. rewrite <- Hnames. exact Hn. }
    assert (He : names_not_in (columns df) (questions dm) = []).
    { apply names_not_in_nil. intros n Hn. rewrite Hnames. exact Hn. }
    rewrite Hm, He. simpl.
    apply RecodeProps.flat_map_nil_iff. intros [n q] Hin. simpl.
    destruct (dict_get (columns df) n) as [col|] eqn:Hcol; [|reflexivity].
    rewrite (proj2 (invalid_count_zero q col)); [reflexivity|].
    intros v Hv. apply (Hvalid n q col v Hin Hcol Hv).
Qed.

(** *** Question.validate_value *)

Lemma int_items_cell_codes (parts : list string) (codes : list Z) :
  int_items parts = Some codes
  <-> mapM parse_int_item
           (filter (fun p => negb (is_empty (strip p))) parts) = Ok codes.
Proof.
  revert codes. induction parts as [|p parts IH]; intros codes; simpl.
  - split; intros [= <-]; reflexivity.
  - destruct (is_empty (strip p)) eqn:E; simpl; [apply IH|].
    unfold parse_int_item at 1.
    destruct (py_int (strip p)) as [z|]; cbn [bind];
      [|split; discriminate].
    destruct (int_items parts) as [zs|] eqn:Hi.
    + rewrite (proj1 (IH zs) eq_refl). cbn [bind].
      split; intros [= <-]; reflexivity.
    + destruct (mapM parse_int_item
                  (filter (fun p0 => negb (is_empty (strip p0))) parts))
        as [zs|] eqn:Hm.
      * pose proof (proj2 (IH zs) eq_refl) as HH. discriminate HH.
      * cbn [bind]. split; discriminate.
Qed.

Lemma in_codes_In (codes : list (Z * string)) (z : Z) :
  in_codes codes z = true <-> exists label, In (z, label) codes.
Proof.
  unfold in_codes. rewrite existsb_exists. split.
  - intros [[k label] [Hin Hk]]. simpl in Hk. apply Z.eqb_eq in Hk. subst k.
    exists label. exact Hin.
  - intros [label Hin]. exists (z, label). split; [exact Hin | apply Z.eqb_refl].
Qed.

(** X20.  For a multiple-choice Question, validate_value accepts a cell
    exactly when it is missing, or it is a text whose codes FormulaParser
    can read and all these codes are in the code table of the Question;
    a cell that holds a bare number is not accepted. *)
Theorem multi_choice_valid_iff (q : Question) (c : cell) :
  q_qtype q = QUALI_MULTI ->
  validate_value q c = true
  <-> isna c = true
      \/ exists s codes,
           c = Str s
           /\ cell_codes c = Ok codes
           /\ forall z, In z codes -> exists label, In (z, label) (q_codes q).
Proof.
  intros Hq. unfold validate_value. rewrite Hq.
  destruct c as [| |z|x|s]; simpl.
  - split; [left; reflexivity | reflexivity].
  - split; [left; reflexivity | reflexivity].
  - split; [discriminate|]. intros [H|[s [codes [H _]]]]; discriminate.
  - split; [discriminate|]. intros [H|[s [codes [H _]]]]; discriminate.
  - split.
    + intros H. right.
      destruct (int_items (split "," s)) as [codes|] eqn:Hi; [|discriminate].
      exists s, codes. split; [reflexivity|].
      split; [apply int_items_cell_codes; exact Hi|].
      intros z Hz. apply in_codes_In.
      rewrite forallb_forall in H. apply H. exact Hz.
    + intros [H|[s' [codes [Hs [Hc Hall]]]]]; [discriminate|].
      injection Hs as <-. apply int_items_cell_codes in Hc. rewrite Hc.
      apply forallb_forall. intros z Hz. apply in_codes_In. apply Hall. exact Hz.
Qed.

Lemma multi_choice_valid_iff_witness :
  validate_value (mkQuestion "Q23A" QUALI_MULTI "Brands known"
                    [(1%Z, "Brand1"); (2%Z, "Brand2"); (3%Z, "Brand3")])
                 (Str "1, 3") = true
  <-> isna (Str "1, 3") = true
      \/ exists s codes,
           Str "1, 3" = Str s
           /\ cell_codes (Str "1, 3") = Ok codes
           /\ forall z, In z codes ->
              exists label,
                In (z, label) (q_codes (mkQuestion "Q23A" QUALI_MULTI "Brands known"
                    [(1%Z, "Brand1"); (2%Z, "Brand2"); (3%Z, "Brand3")])).
Proof.
  apply (multi_choice_valid_iff
           (mkQuestion "Q23A" QUALI_MULTI "Brands known"
              [(1%Z, "Brand1"); (2%Z, "Brand2"); (3%Z, "Brand3")])
           (Str "1, 3")).
  reflexivity.
Defined.

End CoreProps.

(** ** Classes *)

Module ClassProps.
Import PyStr FormulaParser Statements Examples SeriesProps.

Section Classes.
Variable py_eval_lambda : string -> option (cell -> res bool).

Lemma parse_class_formula_function (formula : string)
  (func : cell -> res bool) :
  parse_class_formula py_eval_lambda formula = Ok (Some func) ->
  contains_char "X" formula = true
  /\ all_allowed (lower (replace_X formula)) = true
  /\ py_eval_lambda (replace_X formula) = Some func.
Proof.
  unfold parse_class_formula.
  destruct (contains_char "X" formula); simpl; [|discriminate].
  destruct (all_allowed (lower (replace_X formula))); simpl; [|discriminate].
  destruct (py_eval_lambda (replace_X formula)) as [f|]; [|discriminate].
  intros [= <-]. repeat split.
Qed.

Lemma parse_class_formula_error (formula : string) (e : exn) :
  parse_class_formula py_eval_lambda formula = Raise e ->
  e = InvalidClassCharacters formula \/ e = ClassParseFailed formula.
Proof.
  unfold parse_class_formula.
  destruct (contains_char "X" formula); simpl; [|discriminate].
  destruct (all_allowed (lower (replace_X formula))); simpl.
  - destruct (py_eval_lambda (replace_X formula)); [discriminate|].
    intros [= <-]. right. reflexivity.
  - intros [= <-]. left. reflexivity.
Qed.

Lemma bin_series_In (series : list cell) (class_bins : list (string * string)) :
  forall bins label matches,
  bin_series py_eval_lambda series class_bins = Ok bins ->
  In (label, matches) bins ->
  exists formula func,
    In (formula, label) class_bins
    /\ contains_char "X" formula = true
    /\ py_eval_lambda (replace_X formula) = Some func
    /\ bin_matches func series = Ok matches.
Proof.
  induction class_bins as [|[formula label0] class_bins IH];
    intros bins label matches H Hin; simpl in H.
  - injection H as <-. contradiction.
  - destruct (parse_class_formula py_eval_lambda formula) as [[func|]|e] eqn:Hp;
      cbn [bind] in H; [| |discriminate].
    + destruct (bin_matches func series) as [m|e] eqn:Hb; [|discriminate].
      destruct (bin_series py_eval_lambda series class_bins) as [rest|e] eqn:Hr;
        cbn [bind] in H; [|discriminate].
      injection H as <-. destruct Hin as [Heq|Hin].
      * injection Heq as <- <-. exists formula, func.
        destruct (parse_class_formula_function _ _ Hp) as [HX [_ He]].
        split; [left; reflexivity|]. split; [exact HX|].
        split; [exact He | exact Hb].
      * destruct (IH _ _ _ eq_refl Hin) as [f [fn [Hf Hrest]]].
        exists f, fn. split; [right; exact Hf | exact Hrest].
    + destruct (IH _ _ _ H Hin) as [f [fn [Hf Hrest]]].
      exists f, fn. split; [right; exact Hf | exact Hrest].
Qed.

Lemma first_match_In {A : Type} (entries : list (A * list bool)) (i : nat)
  (a : A) :
  first_match entries i = Some a ->
  exists mask, In (a, mask) entries /\ nth i mask false = true.
Proof.
  unfold first_match.
  destruct (find (matches_row i) entries) as [[a' mask]|] eqn:Hf;
    [|discriminate].
  intros [= <-]. apply find_some in Hf. destruct Hf as [Hin Hm].
  exists mask. split; [exact Hin | exact Hm].
Qed.

Lemma last_match_In {A : Type} (entries : list (A * list bool)) (i : nat)
  (a : A) :
  last_match entries i = Some a ->
  exists mask, In (a, mask) entries /\ nth i mask false = true.
Proof.
  unfold last_match. intros H.
  destruct (first_match_In _ _ _ H) as [mask [Hin Hm]].
  exists mask. split; [apply in_rev; exact Hin | exact Hm].
Qed.

Lemma bin_matches_nth (func : cell -> res bool) (series : list cell)
  (matches : list bool) (i : nat) (c : cell) :
  bin_matches func series = Ok matches ->
  nth_error series i = Some c ->
  nth i matches false = true ->
  isna c = false /\ func c = Ok true.
Proof.
  intros Hb Hc Hm.
  destruct (mapM_nth_error _ _ _ Hb i c Hc) as [b [Hf Hn]].
  rewrite (nth_error_nth _ _ _ Hn) in Hm. subst b.
  destruct (isna c); [discriminate|]. split; [reflexivity | exact Hf].
Qed.

(** X21.  In the Series that apply_class returns for a registered class, a
    missing cell of the input is null, and every other content is the
    label of a bin of the class whose formula, with X, gave a predicate
    that holds of the value of the cell. *)
Theorem labels_come_from_matching_bins (ce : ClassEngine.ClassEngine)
  (series : list cell) (class_name : string) (result : list cell) :
  ClassEngine.apply_class py_eval_lambda ce series class_name = Ok result ->
  exists class_obj,
    ClassEngine.get_class ce class_name = Some class_obj
    /\ forall i c, nth_error series i = Some c ->
       (isna c = true -> nth i result Null = Null)
       /\ (nth i result Null = Null
           \/ exists formula label func,
                In (formula, label) (c_bins class_obj)
                /\ nth i result Null = Str label
                /\ contains_char "X" formula = true
                /\ py_eval_lambda (replace_X formula) = Some func
                /\ func c = Ok true).
Proof.
  unfold ClassEngine.apply_class, ClassEngine.get_class. intros H.
  destruct (dict_get (ClassEngine.classes ce) class_name) as [class_obj|];
    [|discriminate].
  unfold try_except, apply_class in H.
  destruct (apply_class_loop py_eval_lambda series (c_bins class_obj)
              (repeat Null (length series))) as [r|] eqn:Hl; [|discriminate].
  injection H as <-.
  destruct (EnginesProps.apply_class_loop_last py_eval_lambda _ _ _ _
              (repeat_length Null (length series)) Hl)
    as [bins [Hs [Hlen Hnth]]].
  exists class_obj. split; [reflexivity|].
  intros i c Hc.
  assert (Hcase : nth i r Null = Null
           \/ exists formula label func,
                In (formula, label) (c_bins class_obj)
                /\ nth i r Null = Str label
                /\ contains_char "X" formula = true
                /\ py_eval_lambda (replace_X formula) = Some func
                /\ func c = Ok true
                /\ isna c = false).
  { rewrite Hnth. destruct (last_match bins i) as [label|] eqn:Hm.
    - right. destruct (last_match_In _ _ _ Hm) as [mask [Hin Hmask]].
      destruct (bin_series_In _ _ _ _ _ Hs Hin)
        as [formula [func [Hf [HX [He Hb]]]]].
      destruct (bin_matches_nth _ _ _ _ _ Hb Hc Hmask) as [Hna Hfc].
      exists formula, label, func.
      split; [exact Hf|]. split; [reflexivity|]. split; [exact HX|].
      split; [exact He|]. split; [exact Hfc | exact Hna].
    - left. apply nth_repeat. }
  split.
  - intros Hna. destruct Hcase as [Hn|[f [l [fn [_ [_ [_ [_ [_ Hna']]]]]]]]];
      [exact Hn | congruence].
  - destruct Hcase as [Hn|[f [l [fn [H1 [H2 [H3 [H4 [H5 _]]]]]]]]];
      [left; exact Hn|].
    right. exists f, l, fn. repeat split; assumption.
Qed.

Lemma apply_class_loop_error (series : list cell)
  (class_bins : list (string * string)) :
  forall result0 e,
  apply_class_loop py_eval_lambda series class_bins result0 = Raise e ->
  exists formula label,
    In (formula, label) class_bins
    /\ (parse_class_formula py_eval_lambda formula = Raise e
        \/ exists func e0 c,
             py_eval_lambda (replace_X formula) = Some func
             /\ e = ClassBinError label formula e0
             /\ In c series /\ isna c = false /\ func c = Raise e0).
Proof.
  induction class_bins as [|[formula label] class_bins IH];
    intros result0 e H; simpl in H; [discriminate|].
  destruct (parse_class_formula py_eval_lambda formula) as [[func|]|e'] eqn:Hp;
    cbn [bind] in H.
  - destruct (bin_matches func series) as [m|e0] eqn:Hb.
    + destruct (IH _ _ H) as [f [l [Hin Hcase]]].
      exists f, l. split; [right; exact Hin | exact Hcase].
    + injection H as <-. exists formula, label. split; [left; reflexivity|].
      right. destruct (ConditionProps.mapM_Raise _ _ _ Hb) as [c [Hc Hf]].
      exists func, e0, c.
      split; [apply (parse_class_formula_function _ _ Hp)|].
      split; [reflexivity|]. split; [exact Hc|].
      destruct (isna c); [discriminate|]. split; [reflexivity | exact Hf].
  - destruct (IH _ _ H) as [f [l [Hin Hcase]]].
    exists f, l. split; [right; exact Hin | exact Hcase].
  - injection H as <-. exists formula, label. split; [left; reflexivity|].
    left. exact Hp.
Qed.

(** X22.  ClassEngine.apply_class raises Class not found exactly for a
    name that is not registered.  For a registered class every other
    failure carries the name of the class and comes from one of its bins:
    its formula has a character that is not allowed, or cannot be made a
    function, or, the formula having been made a function, the
    application of the bin to the Series fails and is reported under the
    label and the formula of the bin.  A returned Series has one cell per
    cell of the input. *)
Theorem apply_class_outcome (ce : ClassEngine.ClassEngine)
  (series : list cell) (class_name : string) :
  match ClassEngine.apply_class py_eval_lambda ce series class_name with
  | Ok result =>
      length result = length series
      /\ exists class_obj,
           ClassEngine.get_class ce class_name = Some class_obj
  | Raise e =>
      (ClassEngine.get_class ce class_name = None
       /\ e = ClassNotFound class_name)
      \/ exists class_obj formula label,
           ClassEngine.get_class ce class_name = Some class_obj
           /\ In (formula, label) (c_bins class_obj)
           /\ (e = ClassError class_name (InvalidClassCharacters formula)
               \/ e = ClassError class_name (ClassParseFailed formula)
               \/ exists func e0,
                    py_eval_lambda (replace_X formula) = Some func
                    /\ e = ClassError class_name (ClassBinError label formula e0))
  end.
Proof.
  unfold ClassEngine.apply_class, ClassEngine.get_class.
  destruct (dict_get (ClassEngine.classes ce) class_name) as [class_obj|];
    [|left; split; reflexivity].
  unfold try_except, apply_class.
  destruct (apply_class_loop py_eval_lambda series (c_bins class_obj)
              (repeat Null (length series))) as [r|e] eqn:Hl.
  - destruct (EnginesProps.apply_class_loop_last py_eval_lambda _ _ _ _
                (repeat_length Null (length series)) Hl)
      as [bins [_ [Hlen _]]].
    split; [exact Hlen|]. exists class_obj. reflexivity.
  - right. destruct (apply_class_loop_error _ _ _ _ Hl)
      as [formula [label [Hin Hcase]]].
    exists class_obj, formula, label. split; [reflexivity|].
    split; [exact Hin|].
    destruct Hcase as [Hp|[func [e0 [c [He [Heq Hrest]]]]]].
    + destruct (parse_class_formula_error _ _ Hp) as [->| ->];
        [left | right; left]; reflexivity.
    + right. right. exists func, e0. subst e.
      split; [exact He | reflexivity].
Qed.

(** X23.  When ClassEngine.validate returns no message, no formula of a
    registered class is refused any more: apply_class returns a Series,
    one cell per cell of the input, or fails in the application of a bin
    whose formula was made a function, reported under the name of the
    class and the label and the formula of the bin. *)
Theorem validated_class_is_applied (ce : ClassEngine.ClassEngine)
  (series : list cell) (class_name : string) (class_obj : Class) :
  ClassEngine.validate py_eval_lambda ce = [] ->
  ClassEngine.get_class ce class_name = Some class_obj ->
  match ClassEngine.apply_class py_eval_lambda ce series class_name with
  | Ok result => length result = length series
  | Raise e =>
      exists formula label func e0,
        In (formula, label) (c_bins class_obj)
        /\ py_eval_lambda (replace_X formula) = Some func
        /\ e = ClassError class_name (ClassBinError label formula e0)
  end.
Proof.
  unfold ClassEngine.validate, ClassEngine.get_class, ClassEngine.apply_class.
  intros Hv Hg. rewrite Hg.
  apply dict_get_In in Hg.
  rewrite RecodeProps.flat_map_nil_iff in Hv. specialize (Hv _ Hg).
  simpl in Hv. unfold ClassEngine.validate_bins in Hv.
  rewrite RecodeProps.flat_map_nil_iff in Hv.
  unfold try_except, apply_class.
  destruct (apply_class_loop py_eval_lambda series (c_bins class_obj)
              (repeat Null (length series))) as [r|e] eqn:Hl.
  - destruct (EnginesProps.apply_class_loop_last py_eval_lambda _ _ _ _
                (repeat_length Null (length series)) Hl)
      as [bins [_ [Hlen _]]].
    exact Hlen.
  - destruct (apply_class_loop_error _ _ _ _ Hl)
      as [formula [label [Hin Hcase]]].
    destruct Hcase as [Hp|[func [e0 [c [He [Heq Hrest]]]]]].
    + specialize (Hv _ Hin). simpl in Hv. rewrite Hp in Hv. discriminate.
    + exists formula, label, func, e0. subst e.
      split; [exact Hin|]. split; [exact He | reflexivity].
Qed.

End Classes.

Lemma labels_come_from_matching_bins_witness :
  exists class_obj,
    ClassEngine.get_class size_classes "Size" = Some class_obj
    /\ forall i c, nth_error sizes i = Some c ->
       (isna c = true -> nth i [Str "low"; Str "high"; Null] Null = Null)
       /\ (nth i [Str "low"; Str "high"; Null] Null = Null
           \/ exists formula label func,
                In (formula, label) (c_bins class_obj)
                /\ nth i [Str "low"; Str "high"; Null] Null = Str label
                /\ contains_char "X" formula = true
                /\ example_eval (replace_X formula) = Some func
                /\ func c = Ok true).
Proof.
  apply (labels_come_from_matching_bins example_eval size_classes sizes "Size"
           [Str "low"; Str "high"; Null]).
  vm_compute. reflexivity.
Defined.

Lemma validated_class_is_applied_witness :
  length [Str "low"; Str "high"; Null] = length sizes.
Proof.
  exact (validated_class_is_applied example_eval size_classes sizes "Size"
           overlapping_class eq_refl eq_refl).
Defined.

(** *** The characters of a class formula *)

Section Evaluators.
Variables ev ev' : string -> option (cell -> res bool).
Hypothesis same_on_allowed :
  forall text, all_allowed (lower text) = true -> ev text = ev' text.

Lemma parse_class_formula_same (formula : string) :
  parse_class_formula ev formula = parse_class_formula ev' formula.
Proof.
  unfold parse_class_formula.
  destruct (contains_char "X" formula); simpl; [|reflexivity].
  destruct (all_allowed (lower (replace_X formula))) eqn:Ha; simpl;
    [|reflexivity].
  rewrite (same_on_allowed _ Ha). reflexivity.
Qed.

Lemma apply_class_loop_same (series : list cell)
  (class_bins : list (string * string)) :
  forall result,
  apply_class_loop ev series class_bins result
  = apply_class_loop ev' series class_bins result.
Proof.
  induction class_bins as [|[formula label] class_bins IH]; intros result;
    simpl; [reflexivity|].
  rewrite parse_class_formula_same.
  destruct (parse_class_formula ev' formula) as [[func|]|e]; cbn [bind];
    [|apply IH|reflexivity].
  destruct (bin_matches func series); [apply IH | reflexivity].
Qed.

(** X24.  Python's eval is given nothing but text made of the allowed
    characters, upper-case letters of the allowed words included: two
    evaluators that agree on such text give the same outcome of
    apply_class, for every class and every Series, and the same messages
    of validate. *)
Theorem only_allowed_text_is_evaluated (ce : ClassEngine.ClassEngine)
  (series : list cell) (class_name : string) :
  ClassEngine.apply_class ev ce series class_name
  = ClassEngine.apply_class ev' ce series class_name
  /\ ClassEngine.validate ev ce = ClassEngine.validate ev' ce.
Proof.
  split.
  - unfold ClassEngine.apply_class.
    destruct (dict_get (ClassEngine.classes ce) class_name) as [class_obj|];
      [|reflexivity].
    unfold apply_class. rewrite apply_class_loop_same. reflexivity.
  - unfold ClassEngine.validate, ClassEngine.validate_bins.
    apply flat_map_ext. intros [name class_obj]. simpl.
    apply flat_map_ext. intros [formula label]. simpl.
    rewrite parse_class_formula_same. reflexivity.
Qed.

End Evaluators.

Lemma only_allowed_text_is_evaluated_witness :
  ClassEngine.apply_class example_eval size_classes sizes "Size"
  = ClassEngine.apply_class
      (fun text => if all_allowed (lower text) then example_eval text
                   else Some (fun _ => Ok true))
      size_classes sizes "Size"
  /\ ClassEngine.validate example_eval size_classes
     = ClassEngine.validate
         (fun text => if all_allowed (lower text) then example_eval text
                      else Some (fun _ => Ok true))
         size_classes.
Proof.
  apply (only_allowed_text_is_evaluated example_eval
           (fun text => if all_allowed (lower text) then example_eval text
                        else Some (fun _ => Ok true))).
  intros text H. rewrite H. reflexivity.
Defined.

End ClassProps.

(** ** Tables *)

Module TabProps.
Import PyStr FormulaParser TabEngine Statements Examples.

(** *** SignificanceTest.column_z_tests *)

Section Markers.
Context {F : Type}.
Variable A : Arith F.

Lemma letter_of_cases (i j : nat) (row props col_totals : list F) (alpha : F) :
  letter_of A i j row props col_totals alpha = []
  \/ (letter_of A i j row props col_totals alpha = [letter j] /\ i <> j).
Proof.
  unfold letter_of. destruct (Nat.eqb i j) eqn:E; [left; reflexivity|].
  apply Nat.eqb_neq in E.
  repeat match goal with
         | |- (if ?c then _ else _) = [] \/ _ => destruct c
         | |- (let _ := _ in _) = [] \/ _ => cbv zeta
         end; try (left; reflexivity).
  right. split; [reflexivity | exact E].
Qed.

Lemma sig_letters_NoDup (i : nat) (row props col_totals : list F) (alpha : F)
  (columns : list nat) :
  NoDup columns ->
  NoDup (flat_map (fun j => letter_of A i j row props col_totals alpha) columns).
Proof.
  induction columns as [|j columns IH]; intros Hnd; simpl; [constructor|].
  inversion Hnd as [|? ? Hn Hnd']; subst.
  destruct (letter_of_cases i j row props col_totals alpha) as [->|[-> _]];
    simpl; [apply IH; exact Hnd'|].
  constructor; [|apply IH; exact Hnd'].
  rewrite in_flat_map. intros [j' [Hj' Hin]].
  destruct (letter_of_cases i j' row props col_totals alpha) as [H|[H _]];
    rewrite H in Hin; [contradiction|].
  destruct Hin as [Heq|[]]. apply TabEngineProps.letter_inj in Heq.
  subst j'. contradiction.
Qed.

(** X25.  A cell of the table of column z-tests holds a marker only when
    the crosstab has at least two columns other than Total; the marker is
    then a strictly ascending list of letters, each the letter of another
    column of the data. *)
Theorem markers_name_other_columns (crosstab : Table F) (alpha : F)
  (r i : nat) (letters : list Z) :
  marker (column_z_tests A crosstab alpha) r i = Some letters ->
  2 <= length (tcolumns (drop_totals crosstab))
  /\ i < length (tcolumns (drop_totals crosstab))
  /\ StronglySorted Z.lt letters
  /\ forall x, In x letters ->
     exists j, x = letter j /\ j < length (tcolumns (drop_totals crosstab))
               /\ j <> i.
Proof.
  unfold marker, column_z_tests.
  generalize (drop_totals crosstab). intros data H.
  destruct (length (tcolumns data) <? 2) eqn:E; simpl values in H;
    rewrite nth_error_map in H.
  - destruct (nth_error (index data) r); simpl in H; [|discriminate].
    rewrite nth_error_map in H.
    destruct (nth_error (tcolumns data) i); discriminate.
  - apply Nat.ltb_ge in E. split; [exact E|].
    destruct (nth_error (values data) r) as [row|]; simpl in H; [|discriminate].
    unfold row_markers in H. rewrite nth_error_map in H.
    destruct (nth_error (seq 0 (length (tcolumns data))) i) as [k|] eqn:Hk;
      simpl in H; [|discriminate].
    assert (Hi : i < length (tcolumns data)).
    { rewrite <- (length_seq (length (tcolumns data)) 0).
      apply nth_error_Some. rewrite Hk. discriminate. }
    apply TabEngineProps.nth_error_seq_eq in Hk. simpl in Hk. subst k.
    injection H as <-. split; [exact Hi|]. split.
    + apply RecodeProps.sorted_lt. unfold sig_letters.
      apply sig_letters_NoDup. apply seq_NoDup.
    + intros x Hx. apply (proj1 (TabEngineProps.sorted_In _ _)) in Hx.
      unfold sig_letters in Hx. apply in_flat_map in Hx.
      destruct Hx as [j [Hj Hin]]. apply in_seq in Hj.
      match type of Hin with
      | In _ (letter_of _ _ _ ?row ?props ?tots ?al) =>
          destruct (letter_of_cases i j row props tots al) as [Hc|[Hc Hne]];
            rewrite Hc in Hin
      end; [contradiction|].
      destruct Hin as [<-|[]]. exists j. split; [reflexivity|].
      split; [lia | congruence].
Qed.

End Markers.

Lemma markers_name_other_columns_witness :
  2 <= length (tcolumns (drop_totals two_groups))
  /\ 0 < length (tcolumns (drop_totals two_groups))
  /\ StronglySorted Z.lt [66%Z]
  /\ forall x, In x [66%Z] ->
     exists j, x = letter j /\ j < length (tcolumns (drop_totals two_groups))
               /\ j <> 0.
Proof.
  apply (markers_name_other_columns (float_arith approx_norm_cdf) two_groups
           (default_alpha (float_arith approx_norm_cdf)) 0 0 [66%Z]).
  vm_compute. reflexivity.
Defined.

(** *** TabEngine.generate_tab and TabEngine.generate_multiple_tabs *)

Section GenerateTab.
Context {F : Type}.
Variable A : Arith F.
Variable crosstab : list cell -> list cell -> string -> res (Table F).
Variable pivot_table : list cell -> list cell -> list cell -> res (Table F).
Variable py_eval_lambda : string -> option (cell -> res bool).
Variable datamap : DataMap.
Variable filter_engine : FilterEngine.FilterEngine.
Variable class_engine : ClassEngine.ClassEngine.

Ltac step H :=
  match type of H with
  | bind ?m _ = Ok _ =>
      let E := fresh "E" in
      destruct m eqn:E; cbn [bind] in H; [|discriminate H]
  | match ?m with _ => _ end = Ok _ =>
      let E := fresh "E" in
      destruct m eqn:E; cbv iota beta in H; try discriminate H
  end.

Lemma generate_tab_title (df : DataFrame) (spec : TabDefinition)
  (pdt_filter pdt_weight : option string) (result : TabResult F) :
  generate_tab A crosstab pivot_table py_eval_lambda datamap filter_engine
               class_engine df spec pdt_filter pdt_weight = Ok result ->
  r_title result = t_title spec.
Proof.
  unfold generate_tab. intros H.
  repeat step H; injection H as <-; reflexivity.
Qed.

(** X26.  generate_multiple_tabs does not raise: it returns one result per
    tab definition, in the order of the definitions and under their
    titles, a tab that cannot be generated being replaced by a result
    without tables. *)
Theorem one_result_per_tab (df : DataFrame) (specs : list TabDefinition)
  (pdt_filter pdt_weight : option string) :
  map r_title
      (generate_multiple_tabs A crosstab pivot_table py_eval_lambda datamap
         filter_engine class_engine df specs pdt_filter pdt_weight)
  = map t_title specs
  /\ forall k spec e,
     nth_error specs k = Some spec ->
     generate_tab A crosstab pivot_table py_eval_lambda datamap filter_engine
                  class_engine df spec pdt_filter pdt_weight = Raise e ->
     nth_error
       (generate_multiple_tabs A crosstab pivot_table py_eval_lambda datamap
          filter_engine class_engine df specs pdt_filter pdt_weight) k
     = Some (empty_result spec).
Proof.
  unfold generate_multiple_tabs. split.
  - rewrite map_map. apply map_ext. intros spec.
    destruct (generate_tab A crosstab pivot_table py_eval_lambda datamap
                filter_engine class_engine df spec pdt_filter pdt_weight)
      as [result|e] eqn:Hg; [|reflexivity].
    apply (generate_tab_title _ _ _ _ _ Hg).
  - intros k spec e Hk Hg. rewrite nth_error_map, Hk. simpl. rewrite Hg.
    reflexivity.
Qed.

Lemma no_true_length (mask : list bool) :
  (forall b, In b mask -> b = false) ->
  length (filter (fun b : bool => b) mask) = 0.
Proof.
  induction mask as [|b mask IH]; intros H; simpl; [reflexivity|].
  rewrite (H b (or_introl eq_refl)). apply IH.
  intros b' Hb'. apply H. right. exact Hb'.
Qed.

(** X27.  When the plan-level filter and the filter of the tab together
    keep no respondent, generate_tab returns the result without tables,
    whatever the variables, the class and the weight of the tab: they are
    not looked up. *)
Theorem no_respondent_gives_empty_tab (df : DataFrame) (spec : TabDefinition)
  (pdt_filter pdt_weight : option string) (mask : list bool) :
  filter_mask datamap filter_engine df spec pdt_filter = Ok mask ->
  (forall b, In b mask -> b = false) ->
  generate_tab A crosstab pivot_table py_eval_lambda datamap filter_engine
               class_engine df spec pdt_filter pdt_weight
  = Ok (empty_result spec).
Proof.
  intros Hm Hnone. unfold generate_tab. rewrite Hm. cbn [bind].
  unfold select_rows. simpl nrows. rewrite (no_true_length _ Hnone).
  reflexivity.
Qed.

(** What is taken from pandas: the table of a Selected / Not selected
    column, made with the default margins name, has no column named
    Total. *)
Hypothesis selected_columns :
  forall idx mask t,
    crosstab idx (selected_column mask) "All" = Ok t ->
    position (tcolumns t) = None.

Lemma multi_counts_columns (row_data col_data : list cell)
  (col_labels : list (Z * string)) (t : Table F) :
  multi_counts crosstab row_data col_data col_labels = Ok t ->
  position (tcolumns t) = None.
Proof.
  unfold multi_counts. intros H.
  destruct (expand_codes col_data col_labels []) as [col_expanded|];
    cbn [bind] in H; [|discriminate].
  destruct col_expanded as [|e col_expanded]; [discriminate|].
  simpl in H.
  destruct (crosstab row_data (selected_column (snd e)) "All") as [ct|] eqn:Hct;
    cbn [bind] in H; [|discriminate].
  destruct (mapM _ col_expanded); cbn [bind] in H; [|discriminate].
  injection H as <-. apply (selected_columns _ _ _ Hct).
Qed.

(** X28.  For a column variable that is a multiple-choice Question,
    generate_tab returns no table: the crosstab of its first code is made
    with the default margins name, so that the look-up of the Total column
    fails; the only result it can return is the one without tables, when
    the filters keep no respondent. *)
Theorem multiple_choice_column_gives_no_table (df : DataFrame)
  (spec : TabDefinition) (pdt_filter pdt_weight : option string)
  (col_question : Question) (result : TabResult F) :
  get_question datamap (col_var spec) = Some col_question ->
  q_qtype col_question = QUALI_MULTI ->
  generate_tab A crosstab pivot_table py_eval_lambda datamap filter_engine
               class_engine df spec pdt_filter pdt_weight = Ok result ->
  result = empty_result spec.
Proof.
  intros Hq Hmulti H. unfold generate_tab in H.
  step H. step H; [injection H as <-; reflexivity|].
  step H. step H. step H.
  rewrite Hq in H. rewrite Hmulti in H. cbv iota beta in H.
  repeat step H.
  match goal with
  | Hc : multi_counts _ _ _ _ = Ok ?t,
    Hr : row_percentages _ ?t = Ok _ |- _ =>
      unfold row_percentages, total_column in Hr;
      rewrite (multi_counts_columns _ _ _ _ Hc) in Hr; discriminate Hr
  end.
Qed.

End GenerateTab.

Lemma no_respondent_gives_empty_tab_witness :
  generate_tab (Q_arith no_function no_function) scenario_crosstab
    no_pivot_table example_eval brands_by_answer_schema nobody_filters
    (ClassEngine.mkClassEngine []) scenario_data nobody_tab None None
  = Ok (empty_result nobody_tab).
Proof.
  apply (no_respondent_gives_empty_tab (Q_arith no_function no_function)
           scenario_crosstab no_pivot_table example_eval
           brands_by_answer_schema nobody_filters (ClassEngine.mkClassEngine [])
           scenario_data nobody_tab None None [false; false]).
  - vm_compute. reflexivity.
  - intros b [<-|[<-|[]]]; reflexivity.
Defined.

Lemma multiple_choice_column_gives_no_table_witness :
  @empty_result Q nobody_tab = empty_result nobody_tab.
Proof.
  apply (multiple_choice_column_gives_no_table
           (Q_arith no_function no_function) scenario_crosstab no_pivot_table
           example_eval brands_by_answer_schema nobody_filters
           (ClassEngine.mkClassEngine []))
    with (df := scenario_data) (pdt_filter := None) (pdt_weight := None)
         (col_question := mkQuestion "Brands" QUALI_MULTI "Brands known"
                            [(1%Z, "Brand1"); (2%Z, "Brand2")]).
  - intros idx mask t H. discriminate H.
  - reflexivity.
  - reflexivity.
  - vm_compute. reflexivity.
Defined.

(** *** The Total row and the Total column of the percentages *)

Local Open Scope Q_scope.




Section Percentages.
Variables root cdf : Q -> Q.


End Percentages.


End TabProps.

(** ** Codes written and read back *)

Module CodesProps.
Import PyStr FormulaParser RecodeEngine Statements.

(** *** Text without white space *)

Lemma is_digit_plain (c : ascii) :
  is_digit c = true ->
  is_space c = false /\ Ascii.eqb c "," = false
  /\ Ascii.eqb c "+" = false /\ Ascii.eqb c "-" = false.
Proof.
  destruct c as [[] [] [] [] [] [] [] []]; vm_compute; intros H;
    try discriminate H; repeat split.
Qed.

Lemma rstrip_plain (s : string) :
  (forall c, contains_char c s = true -> is_space c = false) ->
  rstrip s = s.
Proof.
  induction s as [|c s IH]; intros H; [reflexivity|].
  simpl. rewrite IH.
  - rewrite (H c); [reflexivity|]. simpl. rewrite Ascii.eqb_refl. reflexivity.
  - intros d Hd. apply H. simpl. rewrite Hd. apply orb_true_r.
Qed.

Lemma strip_plain (s : string) :
  (forall c, contains_char c s = true -> is_space c = false) ->
  strip s = s.
Proof.
  intros H. unfold strip.
  assert (Hl : lstrip s = s).
  { destruct s as [|c s]; [reflexivity|]. simpl.
    rewrite (H c); [reflexivity|]. simpl. rewrite Ascii.eqb_refl. reflexivity. }
  rewrite Hl. apply (rstrip_plain _ H).
Qed.

(** *** str and int *)

Lemma uint_chars (u : Decimal.uint) (c : ascii) :
  contains_char c (NilEmpty.string_of_uint u) = true -> is_digit c = true.
Proof.
  induction u as [|u IH|u IH|u IH|u IH|u IH|u IH|u IH|u IH|u IH|u IH]; simpl;
    [discriminate| | | | | | | | | |];
    (intros H; apply orb_true_iff in H; destruct H as [H|H];
     [apply Ascii.eqb_eq in H; subst c; reflexivity | apply (IH H)]).
Qed.

Lemma int_digits_digit (c : ascii) (s : string) (acc : Z) (b : bool) :
  is_digit c = true ->
  int_digits (String c s) acc b = int_digits s (10 * acc + digit_val c)%Z true.
Proof. intros H. simpl. rewrite H. reflexivity. Qed.

Ltac digit_step :=
  rewrite int_digits_digit by reflexivity;
  match goal with
  | |- context [digit_val ?c] =>
      let v := eval vm_compute in (digit_val c) in
      change (digit_val c) with v
  end.

Lemma int_digits_acc (u : Decimal.uint) :
  forall acc,
  int_digits (NilEmpty.string_of_uint u) (Z.pos acc) true
  = Some (Z.pos (Pos.of_uint_acc u acc)).
Proof.
  induction u as [|u IH|u IH|u IH|u IH|u IH|u IH|u IH|u IH|u IH|u IH];
    intros acc; cbn [NilEmpty.string_of_uint Pos.of_uint_acc];
    [reflexivity| | | | | | | | | |];
    (digit_step; rewrite <- IH; f_equal; lia).
Qed.

Lemma int_digits_zero (u : Decimal.uint) :
  int_digits (NilEmpty.string_of_uint u) 0%Z true
  = Some (Z.of_N (Pos.of_uint u)).
Proof.
  induction u as [|u IH|u IH|u IH|u IH|u IH|u IH|u IH|u IH|u IH|u IH];
    cbn [NilEmpty.string_of_uint Pos.of_uint];
    [reflexivity| | | | | | | | | |];
    digit_step; [exact IH | | | | | | | | |];
    (cbn [Z.mul Z.add]; rewrite int_digits_acc; reflexivity).
Qed.

Lemma int_digits_first (u : Decimal.uint) (acc : Z) :
  u <> Decimal.Nil ->
  int_digits (NilEmpty.string_of_uint u) acc false
  = int_digits (NilEmpty.string_of_uint u) acc true.
Proof. destruct u; [contradiction | ..]; intros _; reflexivity. Qed.

Lemma py_int_unsigned (s : string) :
  strip s = s ->
  match s with
  | String c _ => is_digit c = true
  | EmptyString => False
  end ->
  py_int s = int_digits s 0%Z false.
Proof.
  intros Hs Hd. unfold py_int. rewrite Hs.
  destruct s as [|c s]; [contradiction|].
  destruct (is_digit_plain c Hd) as [_ [_ [Hplus Hminus]]].
  destruct c as [[] [] [] [] [] [] [] []]; try reflexivity;
    vm_compute in Hplus, Hminus; discriminate.
Qed.

Lemma NilZero_nonnil (u : Decimal.uint) :
  u <> Decimal.Nil ->
  NilZero.string_of_uint u = NilEmpty.string_of_uint u.
Proof. destruct u; [contradiction | ..]; reflexivity. Qed.

Lemma uint_first_digit (u : Decimal.uint) :
  u <> Decimal.Nil ->
  match NilEmpty.string_of_uint u with
  | String c _ => is_digit c = true
  | EmptyString => False
  end.
Proof. destruct u; [contradiction | ..]; intros _; reflexivity. Qed.

Lemma uint_plain (u : Decimal.uint) (c : ascii) :
  contains_char c (NilEmpty.string_of_uint u) = true -> is_space c = false.
Proof. intros H. apply is_digit_plain. apply (uint_chars _ _ H). Qed.

Lemma py_int_positive (p : positive) :
  py_int (NilEmpty.string_of_uint (Pos.to_uint p)) = Some (Z.pos p).
Proof.
  pose proof (Unsigned.to_uint_nonnil p) as Hn.
  rewrite py_int_unsigned.
  - rewrite (int_digits_first _ _ Hn), int_digits_zero, Unsigned.of_to.
    reflexivity.
  - apply strip_plain. apply uint_plain.
  - apply (uint_first_digit _ Hn).
Qed.

Lemma str_of_Z_chars (z : Z) (c : ascii) :
  contains_char c (str_of_Z z) = true -> is_digit c = true \/ c = "-"%char.
Proof.
  unfold str_of_Z. destruct z as [|p|p]; simpl.
  - intros H. left. rewrite orb_false_r in H. apply Ascii.eqb_eq in H.
    subst c. reflexivity.
  - rewrite (NilZero_nonnil _ (Unsigned.to_uint_nonnil p)).
    intros H. left. apply (uint_chars _ _ H).
  - rewrite (NilZero_nonnil _ (Unsigned.to_uint_nonnil p)).
    intros H. apply orb_true_iff in H. destruct H as [H|H].
    + right. apply Ascii.eqb_eq in H. exact H.
    + left. apply (uint_chars _ _ H).
Qed.

Lemma str_of_Z_plain (z : Z) (c : ascii) :
  contains_char c (str_of_Z z) = true -> is_space c = false.
Proof.
  intros H. destruct (str_of_Z_chars _ _ H) as [Hd| ->].
  - apply is_digit_plain. exact Hd.
  - reflexivity.
Qed.

Lemma str_of_Z_no_comma (z : Z) : contains_char "," (str_of_Z z) = false.
Proof.
  destruct (contains_char "," (str_of_Z z)) eqn:E; [|reflexivity].
  destruct (str_of_Z_chars _ _ E) as [H|H]; discriminate.
Qed.

Lemma str_of_Z_not_empty (z : Z) : is_empty (str_of_Z z) = false.
Proof.
  unfold str_of_Z. destruct z as [|p|p]; simpl; try reflexivity.
  rewrite (NilZero_nonnil _ (Unsigned.to_uint_nonnil p)).
  pose proof (uint_first_digit _ (Unsigned.to_uint_nonnil p)) as H.
  destruct (NilEmpty.string_of_uint (Pos.to_uint p)); [contradiction|].
  reflexivity.
Qed.

Lemma py_int_str_of_Z (z : Z) : py_int (str_of_Z z) = Some z.
Proof.
  destruct z as [|p|p].
  - reflexivity.
  - unfold str_of_Z. simpl.
    rewrite (NilZero_nonnil _ (Unsigned.to_uint_nonnil p)).
    apply py_int_positive.
  - pose proof (strip_plain _ (str_of_Z_plain (Z.neg p))) as Hs.
    unfold py_int. rewrite Hs. unfold str_of_Z. simpl.
    rewrite (NilZero_nonnil _ (Unsigned.to_uint_nonnil p)).
    pose proof (py_int_positive p) as Hp.
    rewrite py_int_unsigned in Hp.
    + rewrite Hp. reflexivity.
    + apply strip_plain. apply uint_plain.
    + apply (uint_first_digit _ (Unsigned.to_uint_nonnil p)).
Qed.

Lemma parse_int_item_str_of_Z (z : Z) : parse_int_item (str_of_Z z) = Ok z.
Proof.
  unfold parse_int_item.
  rewrite (strip_plain _ (str_of_Z_plain z)), py_int_str_of_Z. reflexivity.
Qed.

(** *** split and join *)

Lemma split_no_sep (sep : ascii) (a : string) :
  contains_char sep a = false -> split sep a = [a].
Proof.
  induction a as [|c a IH]; intros H; [reflexivity|].
  simpl in H. apply orb_false_iff in H. destruct H as [Hc Ha].
  simpl. rewrite Ascii.eqb_sym, Hc, (IH Ha). reflexivity.
Qed.

Lemma split_app (sep : ascii) (a b : string) :
  contains_char sep a = false ->
  split sep (a ++ String sep b)%string = a :: split sep b.
Proof.
  induction a as [|c a IH]; intros H.
  - simpl. rewrite Ascii.eqb_refl. reflexivity.
  - simpl in H. apply orb_false_iff in H. destruct H as [Hc Ha].
    simpl. rewrite Ascii.eqb_sym, Hc, (IH Ha). reflexivity.
Qed.

Lemma split_concat (sep : ascii) (parts : list string) :
  parts <> [] ->
  (forall p, In p parts -> contains_char sep p = false) ->
  split sep (String.concat (String sep EmptyString) parts) = parts.
Proof.
  induction parts as [|x parts IH]; intros Hne H; [contradiction|].
  destruct parts as [|y parts].
  - simpl. apply split_no_sep. apply H. left. reflexivity.
  - change (String.concat (String sep EmptyString) (x :: y :: parts))
      with (x ++ String sep (String.concat (String sep EmptyString) (y :: parts)))%string.
    rewrite split_app by (apply H; left; reflexivity).
    rewrite IH; [reflexivity | discriminate|].
    intros p Hp. apply H. right. exact Hp.
Qed.

Lemma codes_are_read_back_aux (codes : list Z) :
  mapM parse_int_item
       (filter (fun p => negb (is_empty (strip p))) (map str_of_Z codes))
  = Ok codes.
Proof.
  induction codes as [|z codes IH]; [reflexivity|].
  simpl. rewrite (strip_plain _ (str_of_Z_plain z)), str_of_Z_not_empty.
  simpl. rewrite parse_int_item_str_of_Z. cbn [bind]. rewrite IH. reflexivity.
Qed.

(** X17.  The text that the multiple-choice recodes write for a list of
    codes is read back by FormulaParser as exactly these codes, in
    ascending order: a column made by a recode can be tested by the
    conditions of a later formula. *)
Theorem written_codes_are_read_back (codes : list Z) :
  cell_codes (Str (join_codes codes)) = Ok (sorted codes).
Proof.
  unfold join_codes, cell_codes.
  destruct (sorted codes) as [|z l] eqn:E; [reflexivity|].
  rewrite split_concat.
  - apply codes_are_read_back_aux.
  - discriminate.
  - intros p Hp. apply in_map_iff in Hp. destruct Hp as [y [<- _]].
    apply str_of_Z_no_comma.
Qed.

End CodesProps.
